(** * AI Financial Tracker: column inference, imputation, metrics, trend
      projection and health scoring

    A shallow embedding of [data_processor.py], [financial_analysis.py],
    [ai_predictions.py] and [auth.py], of the sign-in forms and the export
    report of [app.py], and of the slices of [create_pie_chart] in
    [visualization.py].

    Conventions of the embedding.
    - A pandas [DataFrame] is an ordered list of named columns; a column
      ([Series]) carries its dtype in its constructor: [NumCol] for int64 and
      float64, [ObjCol] for object, [DateCol] for datetime64.  A missing cell
      (NaN, None, NaT) is [None].
    - Numbers are exact rationals [Q]: a float64 without rounding, an int64
      without wrap-around.  Where a statement is about a value that numpy
      computes in int64 (a sum, a difference), it assumes that the exact
      value lies in the int64 range ([in_int64]).  The square root of
      [np.std] and [Series.std] is a parameter [np_sqrt].
    - [sort_values] keeps rows with equal keys in the order they have, as
      numpy does on short columns; on longer ones numpy's quicksort may
      order them otherwise.  The statements either hold for every order of
      such rows or assume that the keys are pairwise different.
    - [pd.to_datetime] is a parameter [to_datetime]: [None] stands for the
      exception it raises when some cell does not parse.
    - A Python exception is the [Raise] outcome of the [result] type.
    - The users table of SQLite is the list of its rows, passed in and out;
      [hashlib.sha256] is a parameter [hash_password].
    - The order in which pandas hands out groups sorted by descending value
      is a parameter [sort_descending]. *)

From Stdlib Require Import String Ascii Bool Arith ZArith QArith Qround Qabs Lia List.
From Stdlib Require Import Sorting.Sorted Sorting.Permutation.
Import ListNotations.

Set Implicit Arguments.

(** ** Python strings *)

Module PyStr.

Definition lower_ascii (c : ascii) : ascii :=
  let n := nat_of_ascii c in
  if ((65 <=? n) && (n <=? 90))%nat then ascii_of_nat (n + 32) else c.

(** [str.lower] on ASCII text. *)
Fixpoint lower (s : string) : string :=
  match s with
  | EmptyString => EmptyString
  | String c r => String (lower_ascii c) (lower r)
  end.

(** [needle in hay] on strings. *)
Fixpoint contains (needle hay : string) : bool :=
  String.prefix needle hay
  || match hay with
     | EmptyString => false
     | String _ r => contains needle r
     end.

(** [x in xs] for a list of strings. *)
Definition mem (x : string) (xs : list string) : bool :=
  existsb (String.eqb x) xs.

(** [any(k in s for k in keywords)]. *)
Definition contains_any (keywords : list string) (s : string) : bool :=
  existsb (fun k => contains k s) keywords.

Lemma mem_In (x : string) (xs : list string) : mem x xs = true <-> In x xs.
Proof.
  unfold mem. rewrite existsb_exists. split.
  - intros [y [Hy E]]. apply String.eqb_eq in E. now subst.
  - intros H. exists x. split; [assumption | apply String.eqb_refl].
Qed.

Lemma mem_false (x : string) (xs : list string) : mem x xs = false <-> ~ In x xs.
Proof.
  rewrite <- mem_In. destruct (mem x xs); split; congruence.
Qed.

Lemma contains_empty_hay (needle : string) :
  needle <> EmptyString -> contains needle EmptyString = false.
Proof.
  destruct needle; [congruence | reflexivity].
Qed.

End PyStr.
Import PyStr.

(** ** Exceptions *)

Inductive exn : Type :=
| KeyError (key : string)
| ValueError (msg : string)
| TypeError (msg : string)
| AttributeError (msg : string).

Inductive result (A : Type) : Type :=
| Return (a : A)
| Raise (e : exn).
Arguments Return {A} a.
Arguments Raise {A} e.

Definition bind {A B : Type} (m : result A) (k : A -> result B) : result B :=
  match m with
  | Return a => k a
  | Raise e => Raise e
  end.

Notation "x <- m ;; k" := (bind m (fun x => k))
  (at level 61, m at next level, right associativity).

(** ** Tables *)

(** A cell of an object column. *)
Inductive pyobj : Type :=
| PStr (s : string)
| PNum (q : Q)
| PTime (t : Z).

(** A column with its dtype.  Timestamps are nanoseconds since the epoch. *)
Inductive series : Type :=
| NumCol (xs : list (option Q))
| ObjCol (xs : list (option pyobj))
| DateCol (xs : list (option Z)).

Definition DataFrame : Type := list (string * series).

Definition is_none {A : Type} (o : option A) : bool :=
  match o with None => true | Some _ => false end.

Definition is_some {A : Type} (o : option A) : bool := negb (is_none o).

(** [len(series)]. *)
Definition series_len (s : series) : nat :=
  match s with
  | NumCol xs => length xs
  | ObjCol xs => length xs
  | DateCol xs => length xs
  end.

(** [series.isnull()]. *)
Definition isnull (s : series) : list bool :=
  match s with
  | NumCol xs => map is_none xs
  | ObjCol xs => map is_none xs
  | DateCol xs => map is_none xs
  end.

(** [mask.any()] and [mask.all()]. *)
Definition any (m : list bool) : bool := existsb (fun b => b) m.
Definition all (m : list bool) : bool := forallb (fun b => b) m.

(** Number of [True] entries of a mask. *)
Definition count_true (m : list bool) : nat := length (filter (fun b => b) m).

(** [mask.mean()]: the fraction of [True] entries. *)
Definition mask_mean (m : list bool) : Q :=
  inject_Z (Z.of_nat (count_true m)) / inject_Z (Z.of_nat (length m)).

(** [df.columns]. *)
Definition columns (df : DataFrame) : list string := map fst df.

(** [len(df)]: the number of rows. *)
Definition nrows (df : DataFrame) : nat :=
  match df with
  | [] => 0
  | (_, s) :: _ => series_len s
  end.

(** [df.empty]: no column or no row. *)
Definition df_empty (df : DataFrame) : bool :=
  match df with
  | [] => true
  | _ => (nrows df =? 0)%nat
  end.

(** [df[col]], [None] when the label is absent (a [KeyError]). *)
Fixpoint lookup (col : string) (df : DataFrame) : option series :=
  match df with
  | [] => None
  | (c, s) :: rest => if String.eqb col c then Some s else lookup col rest
  end.

(** [df[col] = s] for a label already present. *)
Fixpoint set_col (col : string) (s : series) (df : DataFrame) : DataFrame :=
  match df with
  | [] => []
  | (c, s0) :: rest =>
      if String.eqb col c then (c, s) :: rest else (c, s0) :: set_col col s rest
  end.

(** [df[col]] as a fallible operation. *)
Definition getitem (col : string) (df : DataFrame) : result series :=
  match lookup col df with
  | Some s => Return s
  | None => Raise (KeyError col)
  end.

(** Table invariant: all columns have equal length. *)
Definition aligned (df : DataFrame) : Prop :=
  forall c s, In (c, s) df -> series_len s = nrows df.

(** ** Type classifier and imputer ([data_processor.py]) *)

Section DataProcessor.

(** [pd.to_datetime(series)]; [None] when it raises. *)
Variable to_datetime : series -> option (list (option Z)).

(** Truthiness of [date_column] in [if date_column:]. *)
Definition truthy (date_column : option string) : bool :=
  match date_column with
  | None => false
  | Some c => negb (String.eqb c EmptyString)
  end.

Definition date_indicators : list string :=
  ["date"; "time"; "day"; "month"; "year"; "period"]%string.

(** The body of a [try]: [df[col] = pd.to_datetime(df[col])]. *)
Definition convert_column (col : string) (df : DataFrame) : option DataFrame :=
  match lookup col df with
  | None => None
  | Some s =>
      match to_datetime s with
      | None => None
      | Some ts => Some (set_col col (DateCol ts) df)
      end
  end.

(** State of the search: the frame, [date_column], [date_cols_attempted]. *)
Definition search_state : Type := (DataFrame * option string * list string)%type.

(** Inner loop of the first pass, lines 104-111: [for col in df.columns]. *)
Fixpoint scan_named (indicator : string) (cols : list string)
    (st : search_state) : search_state :=
  let '(df, date_column, attempted) := st in
  match cols with
  | [] => st
  | col :: rest =>
      if contains (lower indicator) (lower col) && negb (mem col attempted) then
        match convert_column col df with
        | Some df' => (df', Some col, attempted)
        | None => scan_named indicator rest (df, date_column, attempted ++ [col])
        end
      else scan_named indicator rest st
  end.

(** Outer loop of the first pass, lines 103-113: [for indicator in
    date_indicators], left when [date_column] is truthy. *)
Fixpoint scan_indicators (indicators : list string) (st : search_state) : search_state :=
  match indicators with
  | [] => st
  | indicator :: rest =>
      let '(df, _, _) := st in
      let st' := scan_named indicator (columns df) st in
      let '(_, date_column, _) := st' in
      if truthy date_column then st' else scan_indicators rest st'
  end.

(** Second pass, lines 117-124: every column not yet attempted. *)
Fixpoint scan_all (cols : list string) (st : search_state) : search_state :=
  let '(df, date_column, attempted) := st in
  match cols with
  | [] => st
  | col :: rest =>
      if negb (mem col attempted) then
        match convert_column col df with
        | Some df' => (df', Some col, attempted)
        | None => scan_all rest st
        end
      else scan_all rest st
  end.

(** Lines 97-124 of [process_data]. *)
Definition find_date_column (df : DataFrame) : DataFrame * option string :=
  let st := scan_indicators date_indicators (df, None, []) in
  let '(df1, date_column, _) := st in
  match date_column with
  | None =>
      let '(df2, date_column2, _) := scan_all (columns df1) st in (df2, date_column2)
  | Some _ => (df1, date_column)
  end.

(** [df.select_dtypes(include=['number']).columns]. *)
Definition is_number (s : series) : bool :=
  match s with NumCol _ => true | _ => false end.

Definition number_columns (df : DataFrame) : list string :=
  map fst (filter (fun cs => is_number (snd cs)) df).

(** [col != date_column]. *)
Definition differs (col : string) (date_column : option string) : bool :=
  match date_column with
  | None => true
  | Some d => negb (String.eqb col d)
  end.

(** The date search as the specification words it: the columns named after
    an indicator, indicator by indicator, then the remaining columns in
    table order; the first column that parses wins. *)
Definition parses (df : DataFrame) (col : string) : bool :=
  match lookup col df with
  | Some s => is_some (to_datetime s)
  | None => false
  end.

Definition named_after (indicator col : string) : bool :=
  contains indicator (lower col).

Definition named_candidates (df : DataFrame) : list string :=
  flat_map (fun indicator => filter (named_after indicator) (columns df))
           date_indicators.

Definition remaining_columns (df : DataFrame) : list string :=
  filter (fun col => negb (existsb (fun i => named_after i col) date_indicators))
         (columns df).

Definition two_pass_date_column (df : DataFrame) : option string :=
  match find (parses df) (named_candidates df) with
  | Some col => Some col
  | None => find (parses df) (remaining_columns df)
  end.


(** Lines 126-139: the classification, after the date search. *)
Definition numeric_columns_of (df : DataFrame) (date_column : option string)
    : list string :=
  filter (fun col => differs col date_column) (number_columns df).

Definition categorical_columns_of (df : DataFrame) (date_column : option string)
    (numeric_columns : list string) : list string :=
  filter (fun col => differs col date_column && negb (mem col numeric_columns))
         (columns df).

(** [series.dropna()] on numbers, and [series.mean()], which skips NaN. *)
Definition somes {A : Type} (xs : list (option A)) : list A :=
  flat_map (fun x => match x with Some v => [v] | None => [] end) xs.

(** [sum]; the partial sums are kept in lowest terms, which leaves their
    value unchanged. *)
Definition qsum (l : list Q) : Q := fold_right (fun x acc => Qred (x + acc)) 0 l.

Definition qlen {A : Type} (l : list A) : Q := inject_Z (Z.of_nat (length l)).

Definition qmean (l : list Q) : Q := qsum l / qlen l.

(** [series.fillna(v)]. *)
Definition fillna {A : Type} (v : A) (xs : list (option A)) : list (option A) :=
  map (fun x => match x with Some _ => x | None => Some v end) xs.

(** The cells of a column as Python objects, for the upcast to dtype object
    that [fillna('Unknown')] performs on a non-object column. *)
Definition to_object (s : series) : list (option pyobj) :=
  match s with
  | NumCol xs => map (option_map PNum) xs
  | ObjCol xs => xs
  | DateCol xs => map (option_map PTime) xs
  end.

(** [x > y] on numbers. *)
Definition Qgt_bool (x y : Q) : bool := negb (Qle_bool x y).

(** Lines 144-150, the body of the loop over [numeric_columns].  The names
    come from [select_dtypes], so the column is numeric; the [except] branch
    is not reached. *)
Definition impute_numeric (col : string) (df : DataFrame) : DataFrame :=
  match lookup col df with
  | Some (NumCol xs) =>
      if any (isnull (NumCol xs)) then
        if Qgt_bool (mask_mean (isnull (NumCol xs))) (1 # 2)
        then set_col col (NumCol (fillna 0 xs)) df
        else set_col col (NumCol (fillna (qmean (somes xs)) xs)) df
      else df
  | _ => df
  end.

(** Lines 158-160, the body of the loop over [categorical_columns]. *)
Definition impute_categorical (col : string) (df : DataFrame) : DataFrame :=
  match lookup col df with
  | Some s =>
      if any (isnull s)
      then set_col col (ObjCol (fillna (PStr "Unknown") (to_object s))) df
      else df
  | None => df
  end.

(** Lines 141-163: the imputation step. *)
Definition impute (numeric_columns categorical_columns : list string)
    (df : DataFrame) : DataFrame :=
  fold_left (fun d col => impute_categorical col d) categorical_columns
    (fold_left (fun d col => impute_numeric col d) numeric_columns df).

End DataProcessor.

(** ** [DataFrame.sort_values] *)

Section Argsort.

Variable K : Type.
Variable leb : K -> K -> bool.

(** Order on keys with the missing ones last ([na_position='last']). *)
Definition key_leb (a b : option K) : bool :=
  match a, b with
  | Some x, Some y => leb x y
  | Some _, None => true
  | None, Some _ => false
  | None, None => true
  end.

Fixpoint insert_key (x : option K * nat) (l : list (option K * nat))
    : list (option K * nat) :=
  match l with
  | [] => [x]
  | y :: r => if key_leb (fst x) (fst y) then x :: y :: r else y :: insert_key x r
  end.

Definition sort_keyed (l : list (option K * nat)) : list (option K * nat) :=
  fold_right insert_key [] l.

(** Row positions in ascending key order. *)
Definition argsort (keys : list (option K)) : list nat :=
  map snd (sort_keyed (combine keys (seq 0 (length keys)))).

End Argsort.

(** [xs.iloc[idx]] for a list of positions. *)
Definition take {A : Type} (idx : list nat) (xs : list (option A)) : list (option A) :=
  map (fun i => nth i xs None) idx.

Definition reindex (idx : list nat) (s : series) : series :=
  match s with
  | NumCol xs => NumCol (take idx xs)
  | ObjCol xs => ObjCol (take idx xs)
  | DateCol xs => DateCol (take idx xs)
  end.

(** The cells of an object column when all of them are strings, numbers or
    timestamps; Python refuses to order values of different types. *)
Fixpoint all_some {A : Type} (xs : list (option A)) : option (list A) :=
  match xs with
  | [] => Some []
  | None :: _ => None
  | Some v :: r => option_map (cons v) (all_some r)
  end.

Definition as_str (o : option pyobj) : option (option string) :=
  match o with
  | None => Some None
  | Some (PStr s) => Some (Some s)
  | Some _ => None
  end.

Definition as_num (o : option pyobj) : option (option Q) :=
  match o with
  | None => Some None
  | Some (PNum q) => Some (Some q)
  | Some _ => None
  end.

Definition as_time (o : option pyobj) : option (option Z) :=
  match o with
  | None => Some None
  | Some (PTime t) => Some (Some t)
  | Some _ => None
  end.

Definition sort_positions (s : series) : result (list nat) :=
  match s with
  | NumCol xs => Return (argsort Qle_bool xs)
  | DateCol xs => Return (argsort Z.leb xs)
  | ObjCol xs =>
      match all_some (map as_str xs), all_some (map as_num xs),
            all_some (map as_time xs) with
      | Some ks, _, _ => Return (argsort String.leb ks)
      | _, Some ks, _ => Return (argsort Qle_bool ks)
      | _, _, Some ks => Return (argsort Z.leb ks)
      | _, _, _ => Raise (TypeError "'<' not supported between instances")
      end
  end.

(** [df.sort_values(by=col)].  numpy's quicksort leaves the order of rows
    with equal keys open (it keeps it on columns of up to 16 rows); the
    embedding keeps it throughout.  Missing keys come last, in the order
    they have. *)
Definition sort_values (by_ : string) (df : DataFrame) : result DataFrame :=
  s <- getitem by_ df ;;
  idx <- sort_positions s ;;
  Return (map (fun cs => (fst cs, reindex idx (snd cs))) df).

Section ProcessData.

Variable to_datetime : series -> option (list (option Z)).

(** [process_data], lines 72-172. *)
Definition process_data (data : option DataFrame)
    : option DataFrame * option string * list string * list string :=
  match data with
  | None => (None, None, [], [])
  | Some data0 =>
      if df_empty data0 then (data, None, [], [])
      else
        let '(df1, date_column) := find_date_column to_datetime data0 in
        let numeric_columns := numeric_columns_of df1 date_column in
        let categorical_columns :=
          categorical_columns_of df1 date_column numeric_columns in
        let df2 := impute numeric_columns categorical_columns df1 in
        let df3 :=
          if truthy date_column then
            match date_column with
            | Some d =>
                match sort_values d df2 with
                | Return sorted => sorted
                | Raise _ => df2
                end
            | None => df2
            end
          else df2 in
        (Some df3, date_column, numeric_columns, categorical_columns)
  end.

End ProcessData.

(** ** The validation gate *)

Section Validation.

Variable to_datetime : series -> option (list (option Z)).

Definition financial_keywords : list string :=
  ["amount"; "price"; "value"; "cost"; "revenue"; "income"; "expense";
   "balance"; "profit"; "sale"; "asset"; "liability"; "cash"; "fund";
   "tax"; "interest"; "dividend"; "payment"]%string.

(** [data.isnull().all().all()]. *)
Definition all_null (df : DataFrame) : bool :=
  forallb (fun cs => all (isnull (snd cs))) df.

(** [test_conversion.notna().mean() >= 0.8]. *)
Definition mostly_dates (ts : list (option Z)) : bool :=
  Qle_bool (8 # 10) (mask_mean (map is_some ts)).

(** Lines 32-45: the first column that converts with at least 80% of its
    cells present. *)
Fixpoint first_date_like (cols : list string) (df : DataFrame) : option string :=
  match cols with
  | [] => None
  | col :: rest =>
      match lookup col df with
      | Some s =>
          match to_datetime s with
          | Some ts => if mostly_dates ts then Some col else first_date_like rest df
          | None => first_date_like rest df
          end
      | None => first_date_like rest df
      end
  end.

(** Lines 60-64. *)
Definition found_financial_cols (df : DataFrame) : list string :=
  filter (fun col => contains_any financial_keywords (lower col)) (columns df).

Definition msg_no_data : string := "No data was provided.".
Definition msg_empty : string := "The uploaded file contains no data.".
Definition msg_columns : string :=
  "The data must have at least two columns (typically date and values).".
Definition msg_all_null : string :=
  "All values in the dataset are missing (null).".
Definition msg_no_date : string :=
  "No valid date column found. Financial data should include dates (like transaction dates, statement dates, etc.).".
Definition msg_no_numeric : string :=
  "No numeric columns found. Financial data should include numeric values (like amounts, prices, etc.).".
Definition msg_dates_and_numbers : string :=
  "Data contains dates and numeric values which might represent financial data.".
Definition msg_financial (date_column_name : string) (cols : list string) : string :=
  ("Data appears to be valid financial data with date column '"
   ++ date_column_name ++ "' and financial columns: "
   ++ String.concat ", " cols)%string.

(** [validate_financial_data], lines 5-70. *)
Definition validate_financial_data (data : option DataFrame) : bool * string :=
  match data with
  | None => (false, msg_no_data)
  | Some df =>
      if df_empty df then (false, msg_empty)
      else if (length (columns df) <? 2)%nat then (false, msg_columns)
      else if all_null df then (false, msg_all_null)
      else
        match first_date_like (columns df) df with
        | None => (false, msg_no_date)
        | Some date_column_name =>
            if (length (number_columns df) =? 0)%nat then (false, msg_no_numeric)
            else
              match found_financial_cols df with
              | [] => (true, msg_dates_and_numbers)
              | cols => (true, msg_financial date_column_name cols)
              end
        end
  end.

End Validation.

(** ** Filters *)

(** [data[mask]] on one column and on the frame. *)
Definition select {A : Type} (mask : list bool) (xs : list A) : list A :=
  map snd (filter fst (combine mask xs)).

Definition select_series (mask : list bool) (s : series) : series :=
  match s with
  | NumCol xs => NumCol (select mask xs)
  | ObjCol xs => ObjCol (select mask xs)
  | DateCol xs => DateCol (select mask xs)
  end.

Definition select_rows (mask : list bool) (df : DataFrame) : DataFrame :=
  map (fun cs => (fst cs, select_series mask (snd cs))) df.

(** [series >= start] and [series <= end] against a datetime.  A missing
    cell compares false; a number or a string against a datetime raises
    [TypeError]. *)
Definition compare_date (cmp : Z -> Z -> bool) (s : series) (bound : Z)
    : result (list bool) :=
  let on_time (x : option Z) :=
    match x with Some t => cmp t bound | None => false end in
  match s with
  | DateCol xs => Return (map on_time xs)
  | NumCol _ => Raise (TypeError "Invalid comparison between dtype=float64 and datetime")
  | ObjCol xs =>
      match all_some (map as_time xs) with
      | Some ts => Return (map on_time ts)
      | None => Raise (TypeError "'>=' not supported between instances")
      end
  end.

Definition mask_and (a b : list bool) : list bool :=
  map (fun p => fst p && snd p) (combine a b).

(** [filter_data_by_date], lines 174-203. *)
Definition filter_data_by_date (data : option DataFrame)
    (date_column : option string) (start_date end_date : Z) : option DataFrame :=
  match data with
  | None => None
  | Some df =>
      if df_empty df then data
      else
        match date_column with
        | None => data
        | Some col =>
            if negb (mem col (columns df)) then data
            else
              let attempt :=
                s <- getitem col df ;;
                ge <- compare_date Z.geb s start_date ;;
                le <- compare_date Z.leb s end_date ;;
                Return (select_rows (mask_and ge le) df) in
              match attempt with
              | Return filtered_data =>
                  if df_empty filtered_data && negb (df_empty df) then data
                  else Some filtered_data
              | Raise _ => data
              end
        end
  end.

(** Equality of Python scalars as [isin] sees it; a missing cell matches a
    missing entry of the selection. *)
Definition pyobj_eqb (a b : pyobj) : bool :=
  match a, b with
  | PStr s, PStr t => String.eqb s t
  | PNum p, PNum q => Qeq_bool p q
  | PTime s, PTime t => Z.eqb s t
  | _, _ => false
  end.

Definition scalar_eqb (a b : option pyobj) : bool :=
  match a, b with
  | None, None => true
  | Some x, Some y => pyobj_eqb x y
  | _, _ => false
  end.

(** [series.isin(selected)]. *)
Definition isin (s : series) (selected : list (option pyobj)) : list bool :=
  map (fun x => existsb (scalar_eqb x) selected) (to_object s).

(** [filter_data_by_category], lines 205-236. *)
Definition filter_data_by_category (data : option DataFrame)
    (category_column : option string) (selected_categories : list (option pyobj))
    : option DataFrame :=
  match data with
  | None => None
  | Some df =>
      if df_empty df then data
      else
        match category_column with
        | None => data
        | Some col =>
            if negb (mem col (columns df)) then data
            else
              match selected_categories with
              | [] => data
              | _ =>
                  let attempt :=
                    s <- getitem col df ;;
                    Return (select_rows (isin s selected_categories) df) in
                  match attempt with
                  | Return filtered_data =>
                      if df_empty filtered_data && negb (df_empty df) then data
                      else Some filtered_data
                  | Raise _ => data
                  end
              end
        end
  end.

(** ** Dictionaries *)

Module Dict.

(** A Python [dict] with string keys, in insertion order. *)
Definition t (V : Type) : Type := list (string * V).

Fixpoint get {V : Type} (k : string) (d : t V) : option V :=
  match d with
  | [] => None
  | (k', v) :: r => if String.eqb k k' then Some v else get k r
  end.

(** [d[k] = v]: the value is replaced in place when the key is present. *)
Fixpoint set {V : Type} (k : string) (v : V) (d : t V) : t V :=
  match d with
  | [] => [(k, v)]
  | (k', v') :: r => if String.eqb k k' then (k', v) :: r else (k', v') :: set k v r
  end.

(** [k in d]. *)
Definition has {V : Type} (k : string) (d : t V) : bool :=
  match get k d with Some _ => true | None => false end.

End Dict.

(** ** Metrics engine ([financial_analysis.py]) *)

Section Numerics.

(** [np.sqrt], as used by [np.std] and [Series.std]. *)
Variable np_sqrt : Q -> Q.

Definition sq (x : Q) : Q := x * x.

(** [np.std(a)], the population standard deviation. *)
Definition np_std (a : list Q) : Q :=
  np_sqrt (qmean (map (fun x => sq (x - qmean a)) a)).

(** [series.std()], the sample standard deviation ([ddof=1]). *)
Definition series_std (a : list Q) : Q :=
  np_sqrt (qsum (map (fun x => sq (x - qmean a)) a) / (qlen a - 1)).

(** [data[col].dropna()] as numbers.  [numeric_columns] comes from
    [select_dtypes], so the column is numeric; arithmetic on the cells of
    another dtype raises [TypeError]. *)
Definition numeric_dropna (col : string) (df : DataFrame) : result (list Q) :=
  s <- getitem col df ;;
  match s with
  | NumCol xs => Return (somes xs)
  | _ => Raise (TypeError "unsupported operand type(s)")
  end.

(** [x != 0]. *)
Definition nonzero (x : Q) : bool := negb (Qeq_bool x 0).

(** [col_data.iloc[0]] and [col_data.iloc[-1]] of a non-empty list. *)
Definition first_of (l : list Q) : Q := hd 0 l.
Definition last_of (l : list Q) : Q := last l 0.

(** Lines 55-71: the metrics of one numeric column. *)
Definition column_metrics (col : string) (col_data : list Q)
    (metrics : Dict.t Q) : Dict.t Q :=
  if (0 <? length col_data)%nat then
    let m1 := Dict.set ("Avg " ++ col)%string (qmean col_data) metrics in
    let m2 :=
      if (1 <? length col_data)%nat then
        let first_value := first_of col_data in
        let last_value := last_of col_data in
        if nonzero first_value
        then Dict.set (col ++ " Change %")%string
               ((last_value - first_value) / first_value * 100) m1
        else m1
      else m1 in
    if (2 <? length col_data)%nat
    then Dict.set (col ++ " Volatility")%string (series_std col_data) m2
    else m2
  else metrics.

Fixpoint default_metrics (df : DataFrame) (numeric_columns : list string)
    (metrics : Dict.t Q) : result (Dict.t Q) :=
  match numeric_columns with
  | [] => Return metrics
  | col :: rest =>
      col_data <- numeric_dropna col df ;;
      default_metrics df rest (column_metrics col col_data metrics)
  end.

(** [[col for col in numeric_columns if k1 in col.lower() or ...]]. *)
Definition columns_named (keywords : list string) (numeric_columns : list string)
    : list string :=
  filter (fun col => contains_any keywords (lower col)) numeric_columns.

(** Lines 75-88 and 97-110: an aggregate of the first column named after one
    of the keywords. *)
Definition keyword_metric (keywords : list string) (name : string)
    (aggregate : list Q -> Q) (df : DataFrame) (numeric_columns : list string)
    (metrics : Dict.t Q) : result (Dict.t Q) :=
  match columns_named keywords numeric_columns with
  | [] => Return metrics
  | col :: _ =>
      col_data <- numeric_dropna col df ;;
      Return (if (0 <? length col_data)%nat
              then Dict.set name (aggregate col_data) metrics
              else metrics)
  end.

(** Lines 91-94. *)
Definition profit_metrics (metrics : Dict.t Q) : Dict.t Q :=
  match Dict.get "Total Revenue" metrics, Dict.get "Total Expenses" metrics with
  | Some revenue, Some expenses =>
      let m1 := Dict.set "Net Profit" (revenue - expenses) metrics in
      if nonzero revenue
      then Dict.set "Profit Margin %" ((revenue - expenses) / revenue * 100) m1
      else m1
  | _, _ => metrics
  end.

(** Lines 113-121. *)
Definition roi_metric (df : DataFrame) (numeric_columns : list string)
    (metrics : Dict.t Q) : result (Dict.t Q) :=
  match columns_named ["invest"%string] numeric_columns,
        columns_named ["return"; "roi"]%string numeric_columns with
  | investment_col :: _, return_col :: _ =>
      investment_data <- numeric_dropna investment_col df ;;
      return_data <- numeric_dropna return_col df ;;
      Return (if (0 <? length investment_data)%nat
                 && (0 <? length return_data)%nat
                 && nonzero (qmean investment_data)
              then Dict.set "ROI %"
                     (qmean return_data / qmean investment_data * 100) metrics
              else metrics)
  | _, _ => Return metrics
  end.

(** [calculate_financial_metrics], lines 36-123. *)
Definition calculate_financial_metrics (data : option DataFrame)
    (numeric_columns : list string) : result (Dict.t Q) :=
  match data, numeric_columns with
  | None, _ => Return []
  | Some _, [] => Return []
  | Some df, _ =>
      if (nrows df =? 0)%nat then Return []
      else
        m <- default_metrics df numeric_columns [] ;;
        m <- keyword_metric ["revenue"; "income"; "sales"]%string
               "Total Revenue" qsum df numeric_columns m ;;
        m <- keyword_metric ["expense"; "cost"; "spend"]%string
               "Total Expenses" qsum df numeric_columns m ;;
        m <- Return (profit_metrics m) ;;
        m <- keyword_metric ["asset"]%string
               "Total Assets" qmean df numeric_columns m ;;
        m <- keyword_metric ["liab"; "debt"]%string
               "Total Liabilities" qmean df numeric_columns m ;;
        roi_metric df numeric_columns m
  end.

End Numerics.

(** The range of numpy's int64.  The embedding computes with exact numbers;
    on an int64 column [sum] and [-] wrap around outside this range, so the
    statements about the values they give assume that the exact results lie
    in it. *)
Definition in_int64 (x : Q) : bool :=
  Qle_bool (inject_Z (- 2 ^ 63)) x && Qle_bool x (inject_Z (2 ^ 63 - 1)).

(** ** Trend projector and health scorer ([ai_predictions.py]) *)

(** Ordinary least squares of [y] on one feature [X] with an intercept, as
    [LinearRegression().fit(X, y)] computes it: the slope is 0 when the
    feature is constant. *)
Record linear_model : Type := {
  coef_ : Q;
  intercept_ : Q
}.

Definition ols_fit (X y : list Q) : linear_model :=
  let mx := qmean X in
  let my := qmean y in
  let sxx := qsum (map (fun x => sq (x - mx)) X) in
  let sxy := qsum (map (fun p => (fst p - mx) * (snd p - my)) (combine X y)) in
  let slope := if Qeq_bool sxx 0 then 0 else sxy / sxx in
  {| coef_ := slope; intercept_ := my - slope * mx |}.

(** [model.predict(X)]. *)
Definition predict (model : linear_model) (X : list Q) : list Q :=
  map (fun x => coef_ model * x + intercept_ model) X.

(** [LinearRegression().fit(X, y)] with scikit-learn's input validation,
    which refuses NaN in [X] and then in [y]. *)
Definition fit (X y : list (option Q)) : result (list Q * list Q * linear_model) :=
  match all_some X with
  | None => Raise (ValueError "Input X contains NaN.")
  | Some xs =>
      match all_some y with
      | None => Raise (ValueError "Input y contains NaN.")
      | Some ys => Return (xs, ys, ols_fit xs ys)
      end
  end.

(** [np.arange(n)]. *)
Definition arange (n : nat) : list Q :=
  map (fun i => inject_Z (Z.of_nat i)) (seq 0 n).

Definition ns_per_day : Z := 86400000000000.

(** [(a - b).days]. *)
Definition days_between (a b : Z) : Z := ((a - b) / ns_per_day)%Z.

(** [dates.min()] and [dates.max()], which skip NaT. *)
Definition series_min (ds : list (option Z)) : option Z :=
  match somes ds with
  | [] => None
  | d :: r => Some (fold_left Z.min r d)
  end.

Definition series_max (ds : list (option Z)) : option Z :=
  match somes ds with
  | [] => None
  | d :: r => Some (fold_left Z.max r d)
  end.

(** The f-strings of [trend_description], with the number they format. *)
Inductive trend : Type :=
| StrongUp (percent : Q)
| SlightUp (percent : Q)
| StrongDown (percent : Q)
| SlightDown (percent : Q)
| Stable.

(** A float that may be NaN: [None] is NaN, whose comparisons are false. *)
Definition describe_trend (percent_change : option Q) : trend :=
  match percent_change with
  | None => Stable
  | Some p =>
      if Qgt_bool p 5 then StrongUp p
      else if Qgt_bool p 0 then SlightUp p
      else if Qgt_bool (-5) p then StrongDown (Qabs p)
      else if Qgt_bool 0 p then SlightDown (Qabs p)
      else Stable
  end.

Record prediction_result : Type := {
  average_prediction : option Q;
  percent_change : option Q;
  trend_description : trend;
  confidence_interval : Q
}.

(** The traces of the plotly figure. *)
Record figure : Type := {
  historical_dates : list (option Z);
  historical_values : list (option Q);
  predicted_dates : list Z;
  predicted_values : list Q;
  upper_bound : list Q;
  lower_bound : list Q
}.

Definition msg_not_enough : string :=
  "Not enough data points for reliable prediction. Need at least 10 data points.".

Definition msg_no_samples : string :=
  "Found array with 0 sample(s) (shape=(0, 1)) while a minimum of 1 is required by LinearRegression.".

(** [model.predict(X)] with scikit-learn's input validation, which refuses
    an array without rows. *)
Definition checked_predict (model : linear_model) (X : list Q) : result (list Q) :=
  match X with
  | [] => Raise (ValueError msg_no_samples)
  | _ => Return (predict model X)
  end.

Section Predictions.

Variable np_sqrt : Q -> Q.

(** [np.mean(a)], NaN on an empty array. *)
Definition np_mean (a : list Q) : option Q :=
  match a with
  | [] => None
  | _ => Some (qmean a)
  end.

(** Lines 32-147: the regression on the sorted dates and values, the
    forecast, the error band and the summary.  With [days_to_predict = 0]
    the array [X_future] has no row and [model.predict] refuses it; the
    history of line 88 has the 10 rows of the guard at least. *)
Definition fit_and_project (ds : list (option Z)) (vs : list (option Q))
    (days_to_predict : nat) : result (prediction_result * figure) :=
  let first_date := series_min ds in
  let X :=
    map (fun date =>
           match date, first_date with
           | Some d, Some f => Some (inject_Z (days_between d f))
           | _, _ => None
           end) ds in
  fitted <- fit X vs ;;
  let '(xs, ys, model) := fitted in
  match first_date, series_max ds with
  | Some f, Some last_date =>
      let future_dates :=
        map (fun i => (last_date + Z.of_nat (i + 1) * ns_per_day)%Z)
            (seq 0 days_to_predict) in
      let X_future :=
        map (fun date => inject_Z (days_between date f)) future_dates in
      y_future <- checked_predict model X_future ;;
      let y_historical_pred := predict model xs in
      let prediction_error :=
        np_std np_sqrt
          (map (fun p => fst p - snd p) (combine ys y_historical_pred)) in
      let average := np_mean y_future in
      let last_value := last ys 0 in
      let percent :=
        if nonzero last_value
        then option_map (fun a => (a - last_value) / last_value * 100) average
        else Some 0 in
      Return
        ({| average_prediction := average;
            percent_change := percent;
            trend_description := describe_trend percent;
            confidence_interval := prediction_error * 2 |},
         {| historical_dates := ds;
            historical_values := vs;
            predicted_dates := future_dates;
            predicted_values := y_future;
            upper_bound := map (fun v => v + 2 * prediction_error) y_future;
            lower_bound := map (fun v => v - 2 * prediction_error) y_future |})
  | _, _ => Raise (ValueError "Input X contains NaN.")
  end.

(** [predict_future_values], lines 8-147.  The arithmetic on the dates needs
    a datetime column and the regression a numeric one. *)
Definition predict_future_values (data : DataFrame) (date_column value_column : string)
    (days_to_predict : nat) : result (prediction_result * figure) :=
  data <- sort_values date_column data ;;
  dates <- getitem date_column data ;;
  values <- getitem value_column data ;;
  if (series_len values <? 10)%nat then Raise (ValueError msg_not_enough)
  else
    match dates, values with
    | DateCol ds, NumCol vs => fit_and_project ds vs days_to_predict
    | DateCol _, _ => Raise (ValueError "could not convert value to float")
    | _, _ => Raise (AttributeError "object has no attribute 'days'")
    end.

End Predictions.

Record health : Type := {
  health_score : option Z;
  description : string;
  feature_contributions : list (string * Q)
}.

(** [int(x)] on a float: truncation toward zero. *)
Definition py_int (x : Q) : Z := Z.quot (Qnum x) (Zpos (Qden x)).

(** [np.clip(x, -1, 1)]. *)
Definition clip (x : Q) : Q :=
  if Qgt_bool (-1) x then -1 else if Qgt_bool x 1 then 1 else x.

(** Lines 276-285. *)
Definition describe_health (score : Z) : string :=
  if (80 <=? score)%Z
  then "Excellent financial health with strong positive trends"
  else if (60 <=? score)%Z
  then "Good financial health with generally positive indicators"
  else if (40 <=? score)%Z
  then "Moderate financial health with mixed indicators"
  else if (20 <=? score)%Z
  then "Concerning financial health with several negative trends"
  else "Poor financial health with significant negative indicators".

Definition contribution_names : list string :=
  ["Revenue Trend"; "Expense Trend"; "Profit Margin Trend"; "Volatility"]%string.

(** Lines 261-292, from the features and their importances on. *)
Definition score_features (features feature_importances : list Q) : health :=
  let total := qsum feature_importances in
  let weights := map (fun w => w / total) feature_importances in
  let clipped := map clip features in
  let products := map (fun p => fst p * snd p) (combine clipped weights) in
  let weighted_score := qsum products in
  let score := Z.max 0 (Z.min 100 (py_int ((weighted_score + 1) * 50))) in
  {| health_score := Some score;
     description := describe_health score;
     feature_contributions :=
       fold_left (fun d p => Dict.set (fst p) (snd p) d)
                 (combine contribution_names products) [] |}.

Section HealthScorer.

Variable np_sqrt : Q -> Q.

(** [data[col].values] as floats. *)
Definition float_values (col : string) (df : DataFrame) : result (list (option Q)) :=
  s <- getitem col df ;;
  match s with
  | NumCol xs => Return xs
  | _ => Raise (TypeError "unsupported operand type(s)")
  end.

(** Lines 181-190 and 201-210: the slope over the row index, divided by the
    mean of the column. *)
Definition normalized_trend (values : list (option Q)) : result (list Q * Q) :=
  fitted <- fit (map Some (arange (length values))) values ;;
  let '(_, ys, model) := fitted in
  let trend_ := coef_ model in
  let mean_ := qmean ys in
  Return (ys, if nonzero mean_ then trend_ / mean_ else 0).

(** Lines 221-238. *)
Definition profit_margin_trend (revenues expenses : list Q) : Q :=
  let profit_margins :=
    map (fun p =>
           let revenue := fst p in
           let expense := snd p in
           if nonzero revenue then (revenue - expense) / revenue else 0)
        (combine revenues expenses) in
  coef_ (ols_fit (arange (length profit_margins)) profit_margins) * 100.

(** Lines 242-247; a NaN score is [None]. *)
Fixpoint volatility_scores (cols : list string) (df : DataFrame)
    : result (list (option Q)) :=
  match cols with
  | [] => Return []
  | col :: rest =>
      values <- float_values col df ;;
      scores <- volatility_scores rest df ;;
      if (0 <? length values)%nat then
        match all_some values with
        | None => Return (None :: scores)
        | Some vs =>
            if nonzero (qmean vs)
            then Return (Some (np_std np_sqrt vs / qmean vs) :: scores)
            else Return scores
        end
      else Return scores
  end.

Definition revenue_keywords : list string := ["revenue"; "income"; "sales"]%string.
Definition expense_keywords : list string := ["expense"; "cost"; "spend"]%string.

(** Lines 168-252: the features present, with their importances.  A NaN
    volatility makes [int(...)] on line 272 raise [ValueError]. *)
Definition health_features (df : DataFrame) (numeric_columns : list string)
    : result (list Q * list Q) :=
  let revenue_cols := columns_named revenue_keywords numeric_columns in
  let expense_cols := columns_named expense_keywords numeric_columns in
  rev <-
    match revenue_cols with
    | [] => Return None
    | revenue_col :: _ =>
        values <- float_values revenue_col df ;;
        r <- normalized_trend values ;;
        Return (Some r)
    end ;;
  exp_ <-
    match expense_cols with
    | [] => Return None
    | expense_col :: _ =>
        values <- float_values expense_col df ;;
        r <- normalized_trend values ;;
        Return (Some r)
    end ;;
  let f1 := match rev with Some (_, t) => [(t, 4 # 10)] | None => [] end in
  let f2 := match exp_ with Some (_, t) => [(- t, 3 # 10)] | None => [] end in
  let f3 :=
    match rev, exp_ with
    | Some (revenues, _), Some (expenses, _) =>
        [(profit_margin_trend revenues expenses, 3 # 10)]
    | _, _ => []
    end in
  scores <-
    volatility_scores
      (filter (fun c => negb (mem c (revenue_cols ++ expense_cols))) numeric_columns)
      df ;;
  match scores with
  | [] => Return (map fst (f1 ++ f2 ++ f3), map snd (f1 ++ f2 ++ f3))
  | _ =>
      match all_some scores with
      | None => Raise (ValueError "cannot convert float NaN to integer")
      | Some vs =>
          let f4 := [(- qmean vs, 1 # 10)] in
          Return (map fst (f1 ++ f2 ++ f3 ++ f4), map snd (f1 ++ f2 ++ f3 ++ f4))
      end
  end.

(** [predict_financial_health], lines 149-292. *)
Definition predict_financial_health (data : DataFrame) (numeric_columns : list string)
    : result health :=
  if (nrows data <? 10)%nat then
    Return {| health_score := None;
              description := "Not enough data for financial health prediction";
              feature_contributions := [] |}
  else
    fw <- health_features data numeric_columns ;;
    let '(features, feature_importances) := fw in
    match features with
    | [] =>
        Return {| health_score := None;
                  description := "Insufficient financial data for health prediction";
                  feature_contributions := [] |}
    | _ => Return (score_features features feature_importances)
    end.

End HealthScorer.

(** ** Accounts ([auth.py]) *)

(** The users table of the SQLite file.  The database is [None] while the
    file does not exist; [created_at] and the failures of the file system,
    which the functions turn into an error message, are left out. *)
Module Auth.

Record user : Type := {
  user_id : Z;
  username : string;
  password : string;
  email : string
}.

Definition database : Type := option (list user).

(** [init_db]: creates the empty table when the file is missing. *)
Definition init_db (db : database) : list user :=
  match db with
  | None => []
  | Some rows => rows
  end.

(** The rowid that SQLite gives to an inserted row: one more than the
    largest one in the table. *)
Definition next_id (rows : list user) : Z :=
  (fold_right Z.max 0 (map user_id rows) + 1)%Z.

Definition msg_username_exists : string :=
  "Username already exists. Please choose a different one.".
Definition msg_email_exists : string :=
  "Email already registered. Please use a different email.".
Definition msg_password_short : string :=
  "Password must be at least 6 characters long.".
Definition msg_registered : string :=
  "Registration successful! You can now login.".
Definition msg_login_ok : string := "Login successful!".
Definition msg_login_failed : string := "Invalid username or password.".

(** What [login_user] and [get_user_data] hand out: id, username, email. *)
Record user_data : Type := {
  data_id : Z;
  data_username : string;
  data_email : string
}.

Definition user_data_of (u : user) : user_data :=
  {| data_id := user_id u; data_username := username u; data_email := email u |}.

Section Accounts.

(** [hashlib.sha256(password.encode()).hexdigest()]. *)
Variable hash_password : string -> string.

(** [register_user], lines 25-57: the database after the call and the pair
    it returns. *)
Definition register_user (db : database) (name mail pw : string)
    : database * (bool * string) :=
  let rows := init_db db in
  if existsb (fun u => String.eqb (username u) name) rows
  then (Some rows, (false, msg_username_exists))
  else if existsb (fun u => String.eqb (email u) mail) rows
  then (Some rows, (false, msg_email_exists))
  else if (String.length pw <? 6)%nat
  then (Some rows, (false, msg_password_short))
  else
    (Some (rows ++ [{| user_id := next_id rows; username := name;
                       password := hash_password pw; email := mail |}]),
     (true, msg_registered)).

(** [login_user], lines 59-84. *)
Definition login_user (db : database) (name pw : string)
    : database * (bool * string * option user_data) :=
  let rows := init_db db in
  let hashed_pw := hash_password pw in
  match find (fun u => String.eqb (username u) name
                       && String.eqb (password u) hashed_pw) rows with
  | Some u => (Some rows, (true, msg_login_ok, Some (user_data_of u)))
  | None => (Some rows, (false, msg_login_failed, None))
  end.

(** [get_user_data], lines 86-106. *)
Definition get_user_data (db : database) (name : string)
    : database * option user_data :=
  let rows := init_db db in
  (Some rows, option_map user_data_of
                (find (fun u => String.eqb (username u) name) rows)).

End Accounts.

End Auth.

(** ** The sign-in forms ([app.py]) *)

Module Forms.
Import Auth.

(** [st.session_state], as far as the forms use it. *)
Record session : Type := {
  logged_in : bool;
  user_info : option user_data
}.

(** What the page shows after a click. *)
Inductive feedback : Type :=
| Success (msg : string)
| Error (msg : string)
| Warning (msg : string).

(** Truthiness of the text of an input field. *)
Definition filled (s : string) : bool := negb (String.eqb s EmptyString).

Section Buttons.

Variable hash_password : string -> string.

(** The Sign Up button, lines 72-83. *)
Definition sign_up (db : database) (name mail pw confirm : string)
    : database * feedback :=
  if negb (filled name) || negb (filled mail) || negb (filled pw)
  then (db, Warning "Please fill in all fields.")
  else if negb (String.eqb pw confirm)
  then (db, Error "Passwords do not match.")
  else
    let '(db', (success, message)) := register_user hash_password db name mail pw in
    (db', if success then Success message else Error message).

(** The Login button, lines 51-62. *)
Definition log_in (db : database) (st : session) (name pw : string)
    : database * session * feedback :=
  if filled name && filled pw then
    let '(db', (success, message, data)) := login_user hash_password db name pw in
    if success
    then (db', {| logged_in := true; user_info := data |}, Success message)
    else (db', st, Error message)
  else (db, st, Warning "Please enter both username and password.").

End Buttons.

End Forms.

(** ** Trend analysis ([financial_analysis.py]) and the summary report
       ([app.py]) *)

Module Trends.

(** The f-strings of [description], with the number they format. *)
Inductive trend_text : Type :=
| NotEnoughPoints
| Growth (strong : bool) (percent : Q)
| Decline (strong : bool) (percent : Q)
| StableOverTime.

(** A value of the dictionary that [analyze_trends] returns.  The
    description carries the volatility clause that lines 178-188 append. *)
Inductive pyval : Type :=
| VStr (s : string)
| VNum (q : Q)
| VDescription (text : trend_text) (volatility : option string).

Section Analysis.

Variable np_sqrt : Q -> Q.

(** Lines 161-175. *)
Definition trend_of_change (change_pct : Q) : string * trend_text :=
  if Qgt_bool change_pct 5 then ("Increasing"%string, Growth true change_pct)
  else if Qgt_bool change_pct 0
  then ("Slightly Increasing"%string, Growth false change_pct)
  else if Qgt_bool (-5) change_pct
  then ("Decreasing"%string, Decline true (Qabs change_pct))
  else if Qgt_bool 0 change_pct
  then ("Slightly Decreasing"%string, Decline false (Qabs change_pct))
  else ("Stable"%string, StableOverTime).

(** Lines 178-188. *)
Definition volatility_text (series : list Q) : option string :=
  if (2 <? length series)%nat then
    let volatility :=
      if nonzero (qmean series)
      then series_std np_sqrt series / qmean series else 0 in
    Some (if Qgt_bool volatility (2 # 10) then "High volatility"%string
          else if Qgt_bool volatility (1 # 10) then "Moderate volatility"%string
          else "Low volatility"%string)
  else None.

(** [analyze_trends], lines 125-194.  The cells present have to be numbers
    for the arithmetic of lines 153-156; it raises [TypeError] on strings
    and timestamps. *)
Definition analyze_trends (data : DataFrame) (date_column value_column : string)
    : result (Dict.t pyval) :=
  data <- sort_values date_column data ;;
  values <- getitem value_column data ;;
  let present := somes (to_object values) in
  if (length present <? 2)%nat then
    Return [("trend"%string, VStr "Unknown");
            ("description"%string, VDescription NotEnoughPoints None);
            ("change_pct"%string, VNum 0)]
  else
    match all_some (map (fun o => as_num (Some o)) present) with
    | None => Raise (TypeError "unsupported operand type(s)")
    | Some cells =>
        let series := somes cells in
        let first_value := first_of series in
        let last_value := last_of series in
        let change := last_value - first_value in
        let change_pct :=
          if nonzero first_value then change / first_value * 100 else 0 in
        let '(trend, text) := trend_of_change change_pct in
        Return [("trend"%string, VStr trend);
                ("description"%string, VDescription text (volatility_text series));
                ("change_pct"%string, VNum change_pct)]
    end.

(** A line of the time series part of the report; the value of a line
    other than the title and the trend is formatted with two decimals. *)
Inductive report_line : Type :=
| Title (column : string)
| Shown (label : string) (v : pyval).

(** [d.get(key, default)]. *)
Definition get_default (key : string) (default : pyval) (d : Dict.t pyval) : pyval :=
  match Dict.get key d with
  | Some v => v
  | None => default
  end.

(** The lines appended one after the other; formatting a value that is not
    a number raises, and the [except] keeps the lines appended so far. *)
Fixpoint formatted (lines : list (string * pyval)) : list report_line :=
  match lines with
  | [] => []
  | (label, VNum q) :: rest => Shown label (VNum q) :: formatted rest
  | _ :: _ => []
  end.

(** Lines 398-415 of [app.py]: the loop over the first three numeric
    columns. *)
Definition time_series_metrics (data : DataFrame) (date_column : string)
    (numeric_columns : list string) : list report_line :=
  flat_map
    (fun value_column =>
       match analyze_trends data date_column value_column with
       | Raise _ => []
       | Return trend_results =>
           match trend_results with
           | [] => []
           | _ =>
               Title value_column
               :: Shown "Trend" (get_default "trend" (VStr "Not available")
                                   trend_results)
               :: formatted
                    [("Average"%string,
                      get_default "average" (VNum 0) trend_results);
                     ("Volatility"%string,
                      get_default "volatility" (VNum 0) trend_results);
                     ("Change rate"%string,
                      get_default "change_rate" (VNum 0) trend_results)]
           end
       end)
    (firstn 3 numeric_columns).

End Analysis.

End Trends.

(** ** Groups: the pie chart ([visualization.py]) and the categorical part
       of the report ([app.py]) *)

Module Charts.

(** The groups of [groupby(...).sum()] and of [value_counts()]: one group
    for each distinct key, with the sum of its values.  A missing value
    adds nothing. *)
Fixpoint add_to_group (k : pyobj) (v : Q) (groups : list (pyobj * Q))
    : list (pyobj * Q) :=
  match groups with
  | [] => [(k, Qred v)]
  | (k', total) :: rest =>
      if pyobj_eqb k k' then (k', Qred (total + v)) :: rest
      else (k', total) :: add_to_group k v rest
  end.

(** A row without a key belongs to no group. *)
Definition add_row (groups : list (pyobj * Q)) (row : option pyobj * option Q)
    : list (pyobj * Q) :=
  match row with
  | (Some k, Some v) => add_to_group k v groups
  | (Some k, None) => add_to_group k 0 groups
  | (None, _) => groups
  end.

Definition group_sums (keys : list (option pyobj)) (values : list (option Q))
    : list (pyobj * Q) :=
  fold_left add_row (combine keys values) [].

(** A line of the categorical part of the report. *)
Inductive analysis_line : Type :=
| Heading
| Distribution (column : string)
| Share (category : pyobj) (count percentage : Q)
| Blank
| Failed.

Section Sorted.

(** The groups in the order in which pandas hands them out after
    [sort_values(ascending=False)], and in which [value_counts] lists them:
    by descending value.  pandas lists the groups by key and sorts them
    with quicksort, which leaves the order of equal values open. *)
Variable sort_descending : list (pyobj * Q) -> list (pyobj * Q).

(** The slices of [create_pie_chart], lines 131-150: the names and the
    values handed to [px.pie].  The value column is a numeric column. *)
Definition pie_slices (data : DataFrame) (category_column value_column : string)
    : result (list (pyobj * Q)) :=
  keys <- getitem category_column data ;;
  values <- getitem value_column data ;;
  match values with
  | NumCol vs =>
      let grouped_data := sort_descending (group_sums (to_object keys) vs) in
      if (10 <? length grouped_data)%nat then
        let top_data := firstn 9 grouped_data in
        let other_sum := qsum (map snd (skipn 9 grouped_data)) in
        Return (top_data ++ [(PStr "Other", other_sum)])
      else Return grouped_data
  | _ => Raise (TypeError "unsupported operand type(s)")
  end.

(** [series.value_counts()]: the cells present, counted. *)
Definition value_counts (s : series) : list (pyobj * Q) :=
  sort_descending
    (group_sums (to_object s) (map (fun _ => Some 1) (to_object s))).

(** Lines 423-440 of [app.py].  [numeric_columns[0]] is read, though not
    used, and raises on an empty list. *)
Definition categorical_analysis (data : DataFrame)
    (categorical_columns numeric_columns : list string) : list analysis_line :=
  match categorical_columns with
  | [] => []
  | cat_column :: _ =>
      if df_empty data then []
      else
        Heading ::
        match numeric_columns with
        | [] => [Failed]
        | num_column :: _ =>
            match lookup cat_column data with
            | None => [Failed]
            | Some s =>
                let category_counts := value_counts s in
                let total := qsum (map snd category_counts) in
                Distribution cat_column
                :: map (fun kc => Share (fst kc) (snd kc) (snd kc / total * 100))
                       category_counts
                ++ [Blank]
            end
        end
  end.

End Sorted.

(** An instance of the descending sort for the examples: insertion, which
    keeps equal values in their order. *)
Fixpoint insert_descending (x : pyobj * Q) (l : list (pyobj * Q))
    : list (pyobj * Q) :=
  match l with
  | [] => [x]
  | y :: r =>
      if Qle_bool (snd y) (snd x) then x :: y :: r
      else y :: insert_descending x r
  end.

Definition insertion_sort_descending (l : list (pyobj * Q)) : list (pyobj * Q) :=
  fold_right insert_descending [] l.

End Charts.

(** * Properties *)

Unset Implicit Arguments.

(** ** Lists and tables *)

Lemma columns_set_col (col : string) (s : series) (df : DataFrame) :
  columns (set_col col s df) = columns df.
Proof.
  unfold columns. induction df as [|[c s0] rest IH]; simpl; [reflexivity|].
  destruct (String.eqb col c); simpl; [reflexivity | now rewrite IH].
Qed.

Lemma lookup_set_col_same (col : string) (s : series) (df : DataFrame) :
  In col (columns df) -> lookup col (set_col col s df) = Some s.
Proof.
  unfold columns. induction df as [|[c s0] rest IH]; simpl; [tauto|].
  intros H. destruct (String.eqb col c) eqn:E; simpl; rewrite E; [reflexivity|].
  apply IH. destruct H as [H|H]; [|assumption].
  subst c. rewrite String.eqb_refl in E. discriminate.
Qed.

Lemma lookup_set_col_other (col col' : string) (s : series) (df : DataFrame) :
  col' <> col -> lookup col' (set_col col s df) = lookup col' df.
Proof.
  intros Hne. induction df as [|[c s0] rest IH]; simpl; [reflexivity|].
  destruct (String.eqb col c) eqn:E; simpl.
  - apply String.eqb_eq in E. subst c.
    destruct (String.eqb col' col) eqn:E'; [|reflexivity].
    apply String.eqb_eq in E'. contradiction.
  - now rewrite IH.
Qed.

Lemma lookup_Some_In (col : string) (df : DataFrame) (s : series) :
  lookup col df = Some s -> In col (columns df).
Proof.
  unfold columns. induction df as [|[c s0] rest IH]; simpl; [discriminate|].
  destruct (String.eqb col c) eqn:E.
  - apply String.eqb_eq in E. auto.
  - auto.
Qed.

Lemma In_lookup (col : string) (df : DataFrame) :
  In col (columns df) -> exists s, lookup col df = Some s.
Proof.
  unfold columns. induction df as [|[c s0] rest IH]; simpl; [tauto|].
  intros H. destruct (String.eqb col c) eqn:E; [eauto|].
  apply IH. destruct H as [H|H]; [|assumption].
  subst c. rewrite String.eqb_refl in E. discriminate.
Qed.

Lemma find_filter {A : Type} (p q : A -> bool) (l : list A) :
  find p (filter q l) = find (fun x => q x && p x) l.
Proof.
  induction l as [|x l IH]; simpl; [reflexivity|].
  destruct (q x); simpl; [|assumption].
  destruct (p x); [reflexivity | assumption].
Qed.

Lemma find_app {A : Type} (p : A -> bool) (l1 l2 : list A) :
  find p (l1 ++ l2) = match find p l1 with Some x => Some x | None => find p l2 end.
Proof.
  induction l1 as [|x l1 IH]; simpl; [reflexivity|].
  destruct (p x); [reflexivity | assumption].
Qed.

Lemma find_ext_in {A : Type} (p q : A -> bool) (l : list A) :
  (forall x, In x l -> p x = q x) -> find p l = find q l.
Proof.
  induction l as [|x l IH]; simpl; intros H; [reflexivity|].
  rewrite (H x (or_introl eq_refl)). destruct (q x); [reflexivity|].
  apply IH. intros y Hy. apply H. now right.
Qed.

(** ** Sums *)

Lemma qsum_cons (x : Q) (l : list Q) : qsum (x :: l) == x + qsum l.
Proof. unfold qsum. cbn [fold_right]. apply Qred_correct. Qed.

Lemma qsum_div (l : list Q) (t : Q) : qsum (map (fun w => w / t) l) == qsum l / t.
Proof.
  induction l as [|w l IH]; cbn [map].
  - unfold Qdiv, qsum. simpl. ring.
  - rewrite !qsum_cons, IH. unfold Qdiv. ring.
Qed.

Lemma qsum_nonneg (l : list Q) : Forall (fun w => 0 <= w) l -> 0 <= qsum l.
Proof.
  induction 1 as [|w l Hw Hl IH].
  - apply Qle_refl.
  - rewrite qsum_cons. rewrite <- (Qplus_0_l 0). now apply Qplus_le_compat.
Qed.

Lemma qsum_pos (l : list Q) : l <> [] -> Forall (fun w => 0 < w) l -> 0 < qsum l.
Proof.
  intros Hne Hl. destruct Hl as [|w l Hw Hl]; [congruence|]. rewrite qsum_cons.
  rewrite <- (Qplus_0_r 0). apply Qplus_lt_le_compat; [assumption|].
  apply qsum_nonneg. eapply Forall_impl; [|eassumption].
  intros a Ha. now apply Qlt_le_weak.
Qed.

(** ** C4: the date search *)

Section DateSearch.

Variable to_datetime : series -> option (list (option Z)).

Lemma convert_parses (col : string) (df : DataFrame) :
  parses to_datetime df col
  = match convert_column to_datetime col df with Some _ => true | None => false end.
Proof.
  unfold parses, convert_column.
  destruct (lookup col df) as [s|]; [|reflexivity].
  destruct (to_datetime s); reflexivity.
Qed.

Lemma scan_named_spec (indicator : string) (cols : list string) (df : DataFrame)
    (dc : option string) (att : list string) :
  (forall c, In c att -> parses to_datetime df c = false) ->
  match scan_named to_datetime indicator cols (df, dc, att) with
  | (df', dc', att') =>
      match find (fun c => contains (lower indicator) (lower c) && parses to_datetime df c) cols with
      | Some c => dc' = Some c /\ convert_column to_datetime c df = Some df'
      | None =>
          dc' = dc /\ df' = df
          /\ (forall c, In c att' -> parses to_datetime df c = false)
          /\ (forall c, In c att -> In c att')
          /\ (forall c, In c cols ->
                contains (lower indicator) (lower c) = true -> In c att')
          /\ (forall c, In c att' ->
                In c att \/ contains (lower indicator) (lower c) = true)
      end
  end.
Proof.
  revert att. induction cols as [|col rest IH]; intros att Hatt.
  - simpl. repeat split; auto. intros c [].
  - simpl.
    destruct (contains (lower indicator) (lower col)) eqn:Em; simpl.
    + destruct (mem col att) eqn:Ea; simpl.
      * apply mem_In in Ea. rewrite (Hatt col Ea).
        specialize (IH att Hatt).
        destruct (scan_named to_datetime indicator rest (df, dc, att)) as [[df' dc'] att'].
        destruct (find _ rest); [exact IH|].
        destruct IH as (H1 & H2 & H3 & H4 & H5 & H6).
        repeat split; auto.
        intros c [Hc|Hc] Hm; [subst c; auto | auto].
      * rewrite convert_parses.
        destruct (convert_column to_datetime col df) as [df1|] eqn:Ec.
        -- split; [reflexivity | assumption].
        -- assert (Hatt' : forall c, In c (att ++ [col]) -> parses to_datetime df c = false).
           { intros c Hc. apply in_app_or in Hc. destruct Hc as [Hc|[Hc|[]]].
             - auto.
             - subst c. rewrite convert_parses, Ec. reflexivity. }
           specialize (IH (att ++ [col]) Hatt').
           destruct (scan_named to_datetime indicator rest (df, dc, att ++ [col]))
             as [[df' dc'] att'].
           destruct (find _ rest); [exact IH|].
           destruct IH as (H1 & H2 & H3 & H4 & H5 & H6).
           repeat split; auto.
           ++ intros c Hc. apply H4. apply in_or_app. now left.
           ++ intros c [Hc|Hc] Hm.
              ** subst c. apply H4. apply in_or_app. right. now left.
              ** auto.
           ++ intros c Hc. destruct (H6 c Hc) as [Hin|Hm]; [|now right].
              apply in_app_or in Hin. destruct Hin as [Hin|[Hin|[]]].
              ** now left.
              ** subst c. now right.
    + specialize (IH att Hatt).
      destruct (scan_named to_datetime indicator rest (df, dc, att)) as [[df' dc'] att'].
      destruct (find _ rest); [exact IH|].
      destruct IH as (H1 & H2 & H3 & H4 & H5 & H6).
      repeat split; auto.
      intros c [Hc|Hc] Hm; [subst c; congruence | auto].
Qed.

Lemma named_nonempty (indicator col : string) :
  lower indicator <> EmptyString ->
  contains (lower indicator) (lower col) = true -> col <> EmptyString.
Proof.
  intros Hi Hc E. subst col. change (lower EmptyString) with EmptyString in Hc.
  rewrite (contains_empty_hay Hi) in Hc. discriminate.
Qed.

Lemma scan_indicators_spec (indicators : list string) (df : DataFrame)
    (att : list string) :
  (forall i, In i indicators -> lower i <> EmptyString) ->
  (forall c, In c att -> parses to_datetime df c = false) ->
  match scan_indicators to_datetime indicators (df, None, att) with
  | (df', dc', att') =>
      match find (parses to_datetime df)
              (flat_map (fun i => filter (fun c => contains (lower i) (lower c))
                                         (columns df)) indicators) with
      | Some c => dc' = Some c /\ convert_column to_datetime c df = Some df'
      | None =>
          dc' = None /\ df' = df
          /\ (forall c, In c att' -> parses to_datetime df c = false)
          /\ (forall c, In c att -> In c att')
          /\ (forall c i, In c (columns df) -> In i indicators ->
                contains (lower i) (lower c) = true -> In c att')
          /\ (forall c, In c att' ->
                In c att
                \/ exists i, In i indicators /\ contains (lower i) (lower c) = true)
      end
  end.
Proof.
  revert att. induction indicators as [|ind rest IH]; intros att Hne Hatt.
  - simpl. repeat split; auto. intros c i _ [].
  - simpl. rewrite find_app, find_filter.
    pose proof (scan_named_spec ind (columns df) df None att Hatt) as Hin.
    destruct (scan_named to_datetime ind (columns df) (df, None, att))
      as [[df1 dc1] att1].
    destruct (find _ (columns df)) as [c|] eqn:Ef.
    + destruct Hin as [Hdc Hconv]. subst dc1.
      apply find_some in Ef. destruct Ef as [_ Ef].
      apply andb_prop in Ef. destruct Ef as [Em _].
      assert (Hc : c <> EmptyString).
      { apply (named_nonempty ind c); [apply Hne; now left | assumption]. }
      simpl. apply String.eqb_neq in Hc. rewrite Hc. simpl. auto.
    + destruct Hin as (Hdc & Hdf & H3 & H4 & H5 & H6). subst dc1 df1. simpl.
      assert (Hne' : forall i, In i rest -> lower i <> EmptyString).
      { intros i Hi. apply Hne. now right. }
      specialize (IH att1 Hne' H3).
      destruct (scan_indicators to_datetime rest (df, None, att1)) as [[df' dc'] att'].
      destruct (find _ (flat_map _ rest)); [exact IH|].
      destruct IH as (I1 & I2 & I3 & I4 & I5 & I6).
      repeat split; auto.
      * intros c i Hc [Hi|Hi] Hm; [subst i; auto | eauto].
      * intros c Hc. destruct (I6 c Hc) as [Hc1|[i [Hi Hm]]].
        -- destruct (H6 c Hc1) as [Hc0|Hm]; [now left|].
           right. exists ind. split; [now left | assumption].
        -- right. exists i. split; [now right | assumption].
Qed.

Lemma scan_all_spec (cols : list string) (df : DataFrame) (att : list string) :
  snd (fst (scan_all to_datetime cols (df, None, att)))
  = find (fun c => negb (mem c att) && parses to_datetime df c) cols.
Proof.
  induction cols as [|col rest IH]; simpl; [reflexivity|].
  destruct (mem col att); simpl; [exact IH|].
  rewrite convert_parses.
  destruct (convert_column to_datetime col df); [reflexivity | exact IH].
Qed.

Lemma lower_indicator (i : string) : In i date_indicators -> lower i = i.
Proof.
  unfold date_indicators. simpl.
  intros [H|[H|[H|[H|[H|[H|[]]]]]]]; subst i; reflexivity.
Qed.

(** C4.  The search of [process_data] with its list of attempted columns
    returns the column that the two-pass rule names: the first column that
    parses to_datetime among those named after an indicator, taken indicator by
    indicator in the priority order and in table order under each, and
    otherwise the first column that parses to_datetime among the remaining ones in table
    order. *)
Theorem date_search_is_two_pass (df : DataFrame) :
  snd (find_date_column to_datetime df) = two_pass_date_column to_datetime df.
Proof.
  unfold find_date_column, two_pass_date_column, named_candidates,
    remaining_columns.
  assert (Hne : forall i, In i date_indicators -> lower i <> EmptyString).
  { intros i Hi. rewrite (lower_indicator i Hi). intros E. subst i.
    unfold date_indicators in Hi. simpl in Hi.
    repeat (destruct Hi as [Hi|Hi]; [discriminate|]). exact Hi. }
  assert (Hnil : forall c, In c (@nil string) -> parses to_datetime df c = false)
    by (intros c []).
  pose proof (scan_indicators_spec date_indicators df [] Hne Hnil) as H.
  destruct (scan_indicators to_datetime date_indicators (df, None, []))
    as [[df1 dc1] att1] eqn:Es.
  assert (Hflat :
    flat_map (fun i => filter (fun c => contains (lower i) (lower c)) (columns df))
             date_indicators
    = flat_map (fun i => filter (named_after i) (columns df)) date_indicators).
  { unfold date_indicators. simpl. reflexivity. }
  rewrite Hflat in H.
  destruct (find _ (flat_map _ date_indicators)) as [c|].
  - destruct H as [Hdc _]. subst dc1. reflexivity.
  - destruct H as (Hdc & Hdf & H3 & _ & H5 & H6). subst dc1 df1.
    pose proof (scan_all_spec (columns df) df att1) as Hb.
    destruct (scan_all to_datetime (columns df) (df, None, att1)) as [[df2 dc2] att2].
    simpl in Hb. cbn [snd]. rewrite Hb, find_filter.
    apply find_ext_in. intros c Hc. cbv beta.
    destruct (existsb (fun i => named_after i c) date_indicators) eqn:Ex;
      cbn [negb andb].
    + apply existsb_exists in Ex. destruct Ex as [i [Hi Hm]].
      unfold named_after in Hm. rewrite <- (lower_indicator i Hi) in Hm.
      assert (Hin : In c att1) by eauto.
      apply mem_In in Hin. rewrite Hin. reflexivity.
    + destruct (mem c att1) eqn:Ea; [|reflexivity].
      apply mem_In in Ea. destruct (H6 c Ea) as [[]|[i [Hi Hm]]].
      rewrite (lower_indicator i Hi) in Hm.
      assert (existsb (fun i => named_after i c) date_indicators = true).
      { apply existsb_exists. exists i. split; assumption. }
      congruence.
Qed.

End DateSearch.

(** ** C3, C7: the imputer *)

Lemma set_col_lookup (col : string) (s : series) (df : DataFrame) :
  lookup col df = Some s -> set_col col s df = df.
Proof.
  induction df as [|[c s0] rest IH]; simpl; [reflexivity|].
  destruct (String.eqb col c).
  - intros E. now inversion E.
  - intros E. now rewrite IH.
Qed.

Lemma lookup_set_col (c col : string) (s : series) (df : DataFrame) :
  lookup c (set_col col s df)
  = if String.eqb c col then option_map (fun _ => s) (lookup c df) else lookup c df.
Proof.
  destruct (String.eqb c col) eqn:E.
  - apply String.eqb_eq in E. subst c.
    destruct (lookup col df) as [s0|] eqn:El; simpl.
    + apply lookup_set_col_same. eapply lookup_Some_In; eassumption.
    + clear -El. induction df as [|[c s0] rest IH]; simpl in *; [reflexivity|].
      destruct (String.eqb col c) eqn:E; [discriminate|].
      simpl. rewrite E. auto.
  - apply String.eqb_neq in E. now apply lookup_set_col_other.
Qed.

Lemma any_isnull_fillna {A : Type} (v : A) (xs : list (option A)) :
  any (map is_none (fillna v xs)) = false.
Proof.
  unfold any. induction xs as [|[x|] xs IH]; simpl; auto.
Qed.

Lemma fillna_no_missing {A : Type} (v : A) (xs : list (option A)) :
  any (map is_none xs) = false -> fillna v xs = xs.
Proof.
  unfold any. induction xs as [|[x|] xs IH]; simpl; intros H;
    [reflexivity | now rewrite IH | discriminate].
Qed.

(** What the numeric loop and the categorical loop do to one column. *)
Definition fill_numeric (s : series) : series :=
  match s with
  | NumCol xs =>
      if any (isnull s) then
        if Qgt_bool (mask_mean (isnull s)) (1 # 2)
        then NumCol (fillna 0 xs)
        else NumCol (fillna (qmean (somes xs)) xs)
      else s
  | _ => s
  end.

Definition fill_categorical (s : series) : series :=
  if any (isnull s) then ObjCol (fillna (PStr "Unknown") (to_object s)) else s.

Lemma impute_numeric_eq (col : string) (df : DataFrame) :
  impute_numeric col df
  = match lookup col df with
    | Some s => set_col col (fill_numeric s) df
    | None => df
    end.
Proof.
  unfold impute_numeric, fill_numeric.
  destruct (lookup col df) as [[xs|xs|xs]|] eqn:El;
    try (symmetry; now apply set_col_lookup); [|reflexivity].
  destruct (any (isnull (NumCol xs))).
  - destruct (Qgt_bool _ _); reflexivity.
  - symmetry. now apply set_col_lookup.
Qed.

Lemma impute_categorical_eq (col : string) (df : DataFrame) :
  impute_categorical col df
  = match lookup col df with
    | Some s => set_col col (fill_categorical s) df
    | None => df
    end.
Proof.
  unfold impute_categorical, fill_categorical.
  destruct (lookup col df) as [s|] eqn:El; [|reflexivity].
  destruct (any (isnull s)); [reflexivity|].
  symmetry. now apply set_col_lookup.
Qed.

Lemma fill_numeric_no_missing (s : series) :
  is_number s = true -> any (isnull (fill_numeric s)) = false.
Proof.
  destruct s as [xs|xs|xs]; simpl; try discriminate. intros _.
  destruct (any (map is_none xs)) eqn:E; [|exact E].
  destruct (Qgt_bool _ _); simpl; apply any_isnull_fillna.
Qed.

Lemma fill_categorical_no_missing (s : series) :
  any (isnull (fill_categorical s)) = false.
Proof.
  unfold fill_categorical. destruct (any (isnull s)) eqn:E; [|exact E].
  simpl. apply any_isnull_fillna.
Qed.

Lemma fill_numeric_fixed (s : series) :
  any (isnull s) = false -> fill_numeric s = s.
Proof.
  destruct s as [xs|xs|xs]; simpl; try reflexivity.
  intros E. now rewrite E.
Qed.

Lemma fill_categorical_fixed (s : series) :
  any (isnull s) = false -> fill_categorical s = s.
Proof.
  unfold fill_categorical. intros E. now rewrite E.
Qed.

Lemma fill_numeric_idem (s : series) : fill_numeric (fill_numeric s) = fill_numeric s.
Proof.
  destruct s as [xs|xs|xs]; try reflexivity.
  apply fill_numeric_fixed. now apply fill_numeric_no_missing.
Qed.

Lemma fill_categorical_idem (s : series) :
  fill_categorical (fill_categorical s) = fill_categorical s.
Proof.
  apply fill_categorical_fixed, fill_categorical_no_missing.
Qed.

(** One pass of a loop that rewrites the column it names. *)
Section ColumnLoop.

Variable f : series -> series.
Hypothesis f_idem : forall s, f (f s) = f s.

Definition apply_to (col : string) (df : DataFrame) : DataFrame :=
  match lookup col df with
  | Some s => set_col col (f s) df
  | None => df
  end.

Definition loop (cols : list string) (df : DataFrame) : DataFrame :=
  fold_left (fun d col => apply_to col d) cols df.

Lemma lookup_apply_to (c col : string) (df : DataFrame) :
  lookup c (apply_to col df)
  = if String.eqb c col then option_map f (lookup c df) else lookup c df.
Proof.
  unfold apply_to. destruct (lookup col df) as [s|] eqn:El.
  - rewrite lookup_set_col. destruct (String.eqb c col) eqn:E; [|reflexivity].
    apply String.eqb_eq in E. subst c. now rewrite El.
  - destruct (String.eqb c col) eqn:E; [|reflexivity].
    apply String.eqb_eq in E. subst c. now rewrite El.
Qed.

Lemma lookup_loop (c : string) (cols : list string) (df : DataFrame) :
  lookup c (loop cols df)
  = if mem c cols then option_map f (lookup c df) else lookup c df.
Proof.
  unfold loop. revert df. induction cols as [|col rest IH]; intros df; simpl.
  - reflexivity.
  - rewrite IH, lookup_apply_to.
    destruct (String.eqb c col) eqn:E; simpl; [|reflexivity].
    destruct (lookup c df) as [s|]; simpl.
    + rewrite f_idem. now destruct (mem c rest).
    + now destruct (mem c rest).
Qed.

Lemma columns_loop (cols : list string) (df : DataFrame) :
  columns (loop cols df) = columns df.
Proof.
  unfold loop. revert df. induction cols as [|col rest IH]; intros df; simpl.
  - reflexivity.
  - rewrite IH. unfold apply_to. destruct (lookup col df); [|reflexivity].
    apply columns_set_col.
Qed.

Lemma loop_fixed (cols : list string) (df : DataFrame) :
  (forall col s, In col cols -> lookup col df = Some s -> f s = s) ->
  loop cols df = df.
Proof.
  unfold loop. induction cols as [|col rest IH]; intros H; simpl; [reflexivity|].
  assert (E : apply_to col df = df).
  { unfold apply_to. destruct (lookup col df) as [s|] eqn:El; [|reflexivity].
    rewrite (H col s (or_introl eq_refl) El). now apply set_col_lookup. }
  rewrite E. apply IH. intros c s Hc. apply H. now right.
Qed.

End ColumnLoop.

Lemma fold_left_ext {A B : Type} (f g : A -> B -> A) (l : list B) (a : A) :
  (forall x y, f x y = g x y) -> fold_left f l a = fold_left g l a.
Proof.
  intros H. revert a. induction l as [|b l IH]; intros a; simpl; [reflexivity|].
  now rewrite H, IH.
Qed.

Lemma impute_loops (nc cc : list string) (df : DataFrame) :
  impute nc cc df = loop fill_categorical cc (loop fill_numeric nc df).
Proof.
  unfold impute, loop.
  rewrite (fold_left_ext (fun d col => impute_numeric col d)
             (fun d col => apply_to fill_numeric col d));
    [|intros; apply impute_numeric_eq].
  apply fold_left_ext. intros; apply impute_categorical_eq.
Qed.

(** C7.  The imputation step is idempotent: run on the table it has
    produced, with the same classification of the columns, it changes no
    cell. *)
Theorem imputation_idempotent (numeric_columns categorical_columns : list string)
    (df : DataFrame) :
  impute numeric_columns categorical_columns
         (impute numeric_columns categorical_columns df)
  = impute numeric_columns categorical_columns df.
Proof.
  rewrite !impute_loops.
  set (out := loop fill_categorical categorical_columns
                (loop fill_numeric numeric_columns df)).
  assert (Hn : loop fill_numeric numeric_columns out = out).
  { apply loop_fixed. intros col s Hin Hl. unfold out in Hl.
    rewrite (lookup_loop _ fill_categorical_idem) in Hl.
    rewrite (lookup_loop _ fill_numeric_idem) in Hl.
    apply mem_In in Hin. rewrite Hin in Hl.
    destruct (lookup col df) as [s0|]; simpl in Hl;
      [|destruct (mem col categorical_columns); discriminate].
    destruct (mem col categorical_columns); simpl in Hl; inversion Hl; subst s.
    - unfold fill_categorical.
      destruct (any (isnull (fill_numeric s0))); [reflexivity|].
      apply fill_numeric_idem.
    - apply fill_numeric_idem. }
  rewrite Hn. apply loop_fixed. intros col s Hin Hl. unfold out in Hl.
  rewrite (lookup_loop _ fill_categorical_idem) in Hl.
  apply mem_In in Hin. rewrite Hin in Hl.
  destruct (lookup col (loop fill_numeric numeric_columns df)) as [s0|];
    simpl in Hl; inversion Hl.
  apply fill_categorical_idem.
Qed.

(** The fill value of a numeric column in the words of the specification:
    0 when more than half of the cells are missing, the mean of the cells
    present otherwise. *)
Definition count_missing {A : Type} (xs : list (option A)) : nat :=
  length (filter is_none xs).

Definition numeric_fill (xs : list (option Q)) : Q :=
  if (length xs <? 2 * count_missing xs)%nat then 0 else qmean (somes xs).

Lemma count_true_is_none {A : Type} (xs : list (option A)) :
  count_true (map is_none xs) = count_missing xs.
Proof.
  unfold count_true, count_missing.
  induction xs as [|[x|] xs IH]; simpl; auto.
Qed.

Lemma count_missing_le {A : Type} (xs : list (option A)) :
  (count_missing xs <= length xs)%nat.
Proof.
  unfold count_missing. induction xs as [|[x|] xs IH]; simpl; lia.
Qed.

Lemma fraction_gt_half (k n : nat) :
  (k <= n)%nat ->
  Qgt_bool (inject_Z (Z.of_nat k) / inject_Z (Z.of_nat n)) (1 # 2)
  = (n <? 2 * k)%nat.
Proof.
  intros Hkn. unfold Qgt_bool.
  destruct (Qle_bool _ _) eqn:E; simpl; symmetry.
  - apply Qle_bool_iff in E. apply Nat.ltb_ge.
    destruct n as [|n]; [lia|].
    unfold Qle, Qdiv, Qmult, Qinv in E. simpl in E. lia.
  - apply Nat.ltb_lt.
    destruct (le_lt_dec (2 * k) n) as [Hle|Hlt]; [|exact Hlt].
    exfalso. apply Bool.not_true_iff_false in E. apply E. apply Qle_bool_iff.
    destruct n as [|n].
    + assert (k = 0)%nat by lia. subst k. vm_compute. discriminate.
    + unfold Qle, Qdiv, Qmult, Qinv. simpl. lia.
Qed.

Lemma fill_numeric_policy (xs : list (option Q)) :
  fill_numeric (NumCol xs) = NumCol (fillna (numeric_fill xs) xs).
Proof.
  unfold fill_numeric, numeric_fill. simpl isnull.
  destruct (any (map is_none xs)) eqn:E.
  - unfold mask_mean.
    rewrite count_true_is_none, length_map,
      (fraction_gt_half _ _ (count_missing_le xs)).
    destruct (length xs <? 2 * count_missing xs)%nat; reflexivity.
  - now rewrite fillna_no_missing.
Qed.

Lemma isnull_to_object (s : series) : map is_none (to_object s) = isnull s.
Proof.
  destruct s as [xs|xs|xs]; simpl; [|reflexivity|];
    rewrite map_map; apply map_ext; intros [x|]; reflexivity.
Qed.

Lemma fill_categorical_policy (s : series) :
  to_object (fill_categorical s) = fillna (PStr "Unknown") (to_object s).
Proof.
  unfold fill_categorical. destruct (any (isnull s)) eqn:E; [reflexivity|].
  rewrite fillna_no_missing; [reflexivity|]. now rewrite isnull_to_object.
Qed.

Lemma In_lookup_NoDup (c : string) (s : series) (df : DataFrame) :
  NoDup (columns df) -> In (c, s) df -> lookup c df = Some s.
Proof.
  unfold columns. induction df as [|[c0 s0] rest IH]; simpl; [tauto|].
  intros Hnd Hin. inversion Hnd as [|? ? Hnotin Hnd']; subst.
  destruct Hin as [Hin|Hin].
  - inversion Hin; subst. now rewrite String.eqb_refl.
  - destruct (String.eqb c c0) eqn:E.
    + apply String.eqb_eq in E. subst c0. exfalso. apply Hnotin.
      apply in_map_iff. exists (c, s). auto.
    + auto.
Qed.

Lemma number_columns_lookup (col : string) (df : DataFrame) :
  NoDup (columns df) -> In col (number_columns df) ->
  exists xs, lookup col df = Some (NumCol xs).
Proof.
  intros Hnd Hin. unfold number_columns in Hin.
  apply in_map_iff in Hin. destruct Hin as [[c s] [Hc Hin]]. simpl in Hc. subst c.
  apply filter_In in Hin. destruct Hin as [Hin Hnum]. simpl in Hnum.
  destruct s as [xs|xs|xs]; try discriminate.
  exists xs. now apply In_lookup_NoDup.
Qed.

Lemma imputer_policy_frame (df : DataFrame) (date_column : option string) :
  NoDup (columns df) ->
  let numeric_columns := numeric_columns_of df date_column in
  let categorical_columns :=
    categorical_columns_of df date_column numeric_columns in
  let out := impute numeric_columns categorical_columns df in
  (forall col, In col numeric_columns ->
     exists xs, lookup col df = Some (NumCol xs)
                /\ lookup col out = Some (NumCol (fillna (numeric_fill xs) xs)))
  /\ (forall col, In col categorical_columns ->
        exists s s', lookup col df = Some s /\ lookup col out = Some s'
                     /\ to_object s' = fillna (PStr "Unknown") (to_object s))
  /\ (forall col, In col (numeric_columns ++ categorical_columns) ->
        exists s, lookup col out = Some s /\ any (isnull s) = false).
Proof.
  intros Hnd nc cc out.
  assert (Hout : forall c, lookup c out
            = if mem c cc
              then option_map fill_categorical
                     (if mem c nc then option_map fill_numeric (lookup c df)
                      else lookup c df)
              else if mem c nc then option_map fill_numeric (lookup c df)
                   else lookup c df).
  { intros c. unfold out. rewrite impute_loops.
    rewrite (lookup_loop _ fill_categorical_idem).
    now rewrite (lookup_loop _ fill_numeric_idem). }
  assert (Hnum : forall col, In col nc ->
            mem col nc = true /\ mem col cc = false
            /\ exists xs, lookup col df = Some (NumCol xs)).
  { intros col Hin. split; [now apply mem_In|]. split.
    - apply mem_false. intros Hcc. unfold cc, categorical_columns_of in Hcc.
      apply filter_In in Hcc. destruct Hcc as [_ Hcc].
      apply andb_prop in Hcc. destruct Hcc as [_ Hcc].
      apply mem_In in Hin. fold nc in Hcc. rewrite Hin in Hcc. discriminate.
    - unfold nc, numeric_columns_of in Hin. apply filter_In in Hin.
      now apply number_columns_lookup. }
  assert (Hcat : forall col, In col cc ->
            mem col cc = true /\ mem col nc = false
            /\ exists s, lookup col df = Some s).
  { intros col Hin. split; [now apply mem_In|].
    unfold cc, categorical_columns_of in Hin. apply filter_In in Hin.
    destruct Hin as [Hcol Hb]. apply andb_prop in Hb. destruct Hb as [_ Hb].
    split; [now apply negb_true_iff in Hb | now apply In_lookup]. }
  split; [|split].
  - intros col Hin. destruct (Hnum col Hin) as (H1 & H2 & xs & Hl).
    exists xs. split; [assumption|].
    rewrite Hout, H1, H2, Hl. cbn [option_map]. now rewrite fill_numeric_policy.
  - intros col Hin. destruct (Hcat col Hin) as (H1 & H2 & s & Hl).
    exists s, (fill_categorical s). split; [assumption|]. split.
    + rewrite Hout, H1, H2, Hl. reflexivity.
    + apply fill_categorical_policy.
  - intros col Hin. apply in_app_or in Hin. destruct Hin as [Hin|Hin].
    + destruct (Hnum col Hin) as (H1 & H2 & xs & Hl).
      exists (fill_numeric (NumCol xs)). split.
      * rewrite Hout, H1, H2, Hl. reflexivity.
      * now apply fill_numeric_no_missing.
    + destruct (Hcat col Hin) as (H1 & H2 & s & Hl).
      exists (fill_categorical s). split.
      * rewrite Hout, H1, H2, Hl. reflexivity.
      * apply fill_categorical_no_missing.
Qed.

Section Imputer.

Variable to_datetime : series -> option (list (option Z)).

Lemma convert_column_columns (col : string) (df df' : DataFrame) :
  convert_column to_datetime col df = Some df' -> columns df' = columns df.
Proof.
  unfold convert_column. destruct (lookup col df) as [s|]; [|discriminate].
  destruct (to_datetime s) as [ts|]; [|discriminate].
  intros E. inversion E. apply columns_set_col.
Qed.

Lemma scan_all_frame (cols : list string) (df : DataFrame) (att : list string) :
  match scan_all to_datetime cols (df, None, att) with
  | (df', Some c, _) => convert_column to_datetime c df = Some df'
  | (df', None, _) => df' = df
  end.
Proof.
  induction cols as [|col rest IH]; simpl; [reflexivity|].
  destruct (mem col att); simpl; [exact IH|].
  destruct (convert_column to_datetime col df) eqn:E; [assumption | exact IH].
Qed.

(** The frame after the search: the chosen column converted, nothing else
    touched. *)
Lemma find_date_column_frame (df : DataFrame) :
  match find_date_column to_datetime df with
  | (df', Some c) => convert_column to_datetime c df = Some df'
  | (df', None) => df' = df
  end.
Proof.
  unfold find_date_column.
  assert (Hne : forall i, In i date_indicators -> lower i <> EmptyString).
  { intros i Hi. rewrite (lower_indicator i Hi). intros E. subst i.
    unfold date_indicators in Hi. simpl in Hi.
    repeat (destruct Hi as [Hi|Hi]; [discriminate|]). exact Hi. }
  assert (Hnil : forall c, In c (@nil string) -> parses to_datetime df c = false)
    by (intros c []).
  pose proof (scan_indicators_spec to_datetime date_indicators df [] Hne Hnil) as H.
  destruct (scan_indicators to_datetime date_indicators (df, None, []))
    as [[df1 dc1] att1].
  destruct (find _ _) as [c|].
  - destruct H as [Hdc Hconv]. subst dc1. assumption.
  - destruct H as (Hdc & Hdf & _). subst dc1 df1.
    pose proof (scan_all_frame (columns df) df att1) as Hb.
    destruct (scan_all to_datetime (columns df) (df, None, att1))
      as [[df2 dc2] att2].
    exact Hb.
Qed.

Lemma find_date_column_columns (df : DataFrame) :
  columns (fst (find_date_column to_datetime df)) = columns df.
Proof.
  pose proof (find_date_column_frame df) as H.
  destruct (find_date_column to_datetime df) as [df' [c|]]; simpl.
  - eapply convert_column_columns; eassumption.
  - now subst.
Qed.

(** C3.  On the table that the date search of [process_data] hands to the
    imputation step: every numeric column has its missing cells filled with
    0 when more than half of its cells are missing and with the mean of the
    cells present otherwise; every categorical column has them filled with
    the label Unknown; no cell of a numeric or categorical column is missing
    afterwards. *)
Theorem imputer_policy (data : DataFrame) :
  NoDup (columns data) ->
  let df := fst (find_date_column to_datetime data) in
  let date_column := snd (find_date_column to_datetime data) in
  let numeric_columns := numeric_columns_of df date_column in
  let categorical_columns :=
    categorical_columns_of df date_column numeric_columns in
  let out := impute numeric_columns categorical_columns df in
  (forall col, In col numeric_columns ->
     exists xs, lookup col df = Some (NumCol xs)
                /\ lookup col out = Some (NumCol (fillna (numeric_fill xs) xs)))
  /\ (forall col, In col categorical_columns ->
        exists s s', lookup col df = Some s /\ lookup col out = Some s'
                     /\ to_object s' = fillna (PStr "Unknown") (to_object s))
  /\ (forall col, In col (numeric_columns ++ categorical_columns) ->
        exists s, lookup col out = Some s /\ any (isnull s) = false).
Proof.
  intros Hnd df date_column. apply imputer_policy_frame.
  unfold df. now rewrite find_date_column_columns.
Qed.

End Imputer.

(** ** The date order of the cleaned table *)

Section ArgsortFacts.

Variable K : Type.
Variable leb : K -> K -> bool.
Hypothesis leb_total : forall x y, leb x y = false -> leb y x = true.
Hypothesis leb_trans : forall x y z, leb x y = true -> leb y z = true -> leb x z = true.

(** Ascending order of keys, the missing ones last. *)
Definition key_le (a b : option K) : Prop := key_leb leb a b = true.

Definition keyed_le (p q : option K * nat) : Prop := key_le (fst p) (fst q).

Lemma key_leb_total (a b : option K) : key_leb leb a b = false -> key_leb leb b a = true.
Proof.
  destruct a, b; simpl; auto; discriminate.
Qed.

Lemma key_le_trans (a b c : option K) : key_le a b -> key_le b c -> key_le a c.
Proof.
  unfold key_le. destruct a, b, c; simpl; auto; try discriminate. apply leb_trans.
Qed.

Lemma insert_key_perm (x : option K * nat) (l : list (option K * nat)) :
  Permutation (insert_key leb x l) (x :: l).
Proof.
  induction l as [|y r IH]; simpl; [apply Permutation_refl|].
  destruct (key_leb leb (fst x) (fst y)); [apply Permutation_refl|].
  eapply Permutation_trans; [apply perm_skip, IH | apply perm_swap].
Qed.

Lemma sort_keyed_perm (l : list (option K * nat)) : Permutation (sort_keyed leb l) l.
Proof.
  induction l as [|x l IH]; simpl; [constructor|].
  eapply Permutation_trans; [apply insert_key_perm | now apply perm_skip].
Qed.

Lemma insert_key_hd (a x : option K * nat) (l : list (option K * nat)) :
  keyed_le a x -> HdRel keyed_le a l -> HdRel keyed_le a (insert_key leb x l).
Proof.
  intros Hax Hal. destruct l as [|y r]; simpl.
  - now constructor.
  - destruct (key_leb leb (fst x) (fst y)); constructor; [assumption|].
    now inversion Hal.
Qed.

Lemma insert_key_sorted (x : option K * nat) (l : list (option K * nat)) :
  Sorted keyed_le l -> Sorted keyed_le (insert_key leb x l).
Proof.
  induction l as [|y r IH]; simpl; intros Hs.
  - repeat constructor.
  - destruct (key_leb leb (fst x) (fst y)) eqn:E.
    + constructor; [assumption|]. now constructor.
    + inversion Hs as [|? ? Hr Hhd]; subst. constructor; [now apply IH|].
      apply insert_key_hd; [|assumption]. now apply key_leb_total.
Qed.

Lemma sort_keyed_sorted (l : list (option K * nat)) : Sorted keyed_le (sort_keyed leb l).
Proof.
  induction l as [|x l IH]; simpl; [constructor|]. now apply insert_key_sorted.
Qed.

Lemma combine_seq_nth (keys : list (option K)) (start : nat) (k : option K) (i : nat) :
  In (k, i) (combine keys (seq start (length keys))) ->
  (start <= i)%nat /\ nth (i - start) keys None = k.
Proof.
  revert start. induction keys as [|k0 keys IH]; intros start; simpl; [tauto|].
  intros [H|H].
  - inversion H; subst. split; [lia|]. now rewrite Nat.sub_diag.
  - apply IH in H. destruct H as [Hle Hn]. split; [lia|].
    replace (i - start)%nat with (S (i - S start)) by lia. exact Hn.
Qed.

(** Reading the keys in the order of [argsort] gives them sorted. *)
Lemma take_argsort (keys : list (option K)) :
  take (argsort leb keys) keys
  = map fst (sort_keyed leb (combine keys (seq 0 (length keys)))).
Proof.
  unfold take, argsort. rewrite map_map. apply map_ext_in.
  intros [k i] Hin. simpl.
  apply (Permutation_in _ (sort_keyed_perm _)) in Hin.
  apply combine_seq_nth in Hin. destruct Hin as [_ Hn].
  now rewrite Nat.sub_0_r in Hn.
Qed.

Lemma take_argsort_sorted (keys : list (option K)) :
  StronglySorted key_le (take (argsort leb keys) keys).
Proof.
  rewrite take_argsort. apply Sorted_StronglySorted.
  - intros a b c. apply key_le_trans.
  - generalize (sort_keyed_sorted (combine keys (seq 0 (length keys)))).
    generalize (sort_keyed leb (combine keys (seq 0 (length keys)))).
    intros l Hs. induction Hs as [|p l Hs IH Hhd]; simpl; constructor.
    + assumption.
    + destruct Hhd; simpl; constructor. assumption.
Qed.

Lemma take_argsort_perm (keys : list (option K)) :
  Permutation (take (argsort leb keys) keys) keys.
Proof.
  rewrite take_argsort.
  eapply Permutation_trans; [apply Permutation_map, sort_keyed_perm|].
  assert (H : forall (l : list (option K)) (l' : list nat),
             length l = length l' -> map fst (combine l l') = l).
  { induction l as [|x l IH]; intros [|y l'] E; simpl in *;
      try discriminate; [reflexivity|]. f_equal. apply IH. lia. }
  rewrite H; [apply Permutation_refl | now rewrite length_seq].
Qed.

End ArgsortFacts.

(** Dates in ascending order, NaT last. *)
Definition date_le : option Z -> option Z -> Prop := key_le Z Z.leb.

Lemma Zleb_total (x y : Z) : (x <=? y)%Z = false -> (y <=? x)%Z = true.
Proof. intros H. apply Z.leb_le. apply Z.leb_gt in H. lia. Qed.

Lemma Zleb_trans (x y z : Z) :
  (x <=? y)%Z = true -> (y <=? z)%Z = true -> (x <=? z)%Z = true.
Proof. rewrite !Z.leb_le. lia. Qed.

Lemma lookup_map_series (f : series -> series) (c : string) (df : DataFrame) :
  lookup c (map (fun cs => (fst cs, f (snd cs))) df) = option_map f (lookup c df).
Proof.
  induction df as [|[c0 s0] rest IH]; simpl; [reflexivity|].
  destruct (String.eqb c c0); [reflexivity | assumption].
Qed.

Lemma sort_values_dates (d : string) (ds : list (option Z)) (df : DataFrame) :
  lookup d df = Some (DateCol ds) ->
  exists sorted,
    sort_values d df = Return sorted
    /\ lookup d sorted = Some (DateCol (take (argsort Z.leb ds) ds))
    /\ columns sorted = columns df.
Proof.
  intros Hl. unfold sort_values, getitem. rewrite Hl. simpl.
  eexists. split; [reflexivity|]. split.
  - rewrite lookup_map_series, Hl. reflexivity.
  - unfold columns. rewrite map_map. reflexivity.
Qed.

Section SortedOutput.

Variable to_datetime : series -> option (list (option Z)).

Lemma date_column_not_imputed (d : string) (df : DataFrame) :
  let nc := numeric_columns_of df (Some d) in
  let cc := categorical_columns_of df (Some d) nc in
  lookup d (impute nc cc df) = lookup d df.
Proof.
  intros nc cc. rewrite impute_loops.
  rewrite (lookup_loop _ fill_categorical_idem).
  rewrite (lookup_loop _ fill_numeric_idem).
  assert (Hn : mem d nc = false).
  { apply mem_false. intros Hin. unfold nc, numeric_columns_of in Hin.
    apply filter_In in Hin. destruct Hin as [_ Hd]. simpl in Hd.
    now rewrite String.eqb_refl in Hd. }
  assert (Hc : mem d cc = false).
  { apply mem_false. intros Hin. unfold cc, categorical_columns_of in Hin.
    apply filter_In in Hin. destruct Hin as [_ Hd]. simpl in Hd.
    now rewrite String.eqb_refl in Hd. }
  now rewrite Hn, Hc.
Qed.

End SortedOutput.

(** ** C5: the validation gate *)

Section ValidationGate.

Variable to_datetime : series -> option (list (option Z)).

(** A column that converts in full with at least 80% of its cells present. *)
Definition date_like (df : DataFrame) (col : string) : bool :=
  match lookup col df with
  | Some s =>
      match to_datetime s with
      | Some ts => mostly_dates ts
      | None => false
      end
  | None => false
  end.

Lemma first_date_like_find (cols : list string) (df : DataFrame) :
  first_date_like to_datetime cols df = find (date_like df) cols.
Proof.
  induction cols as [|col rest IH]; simpl; [reflexivity|].
  unfold date_like at 1. destruct (lookup col df) as [s|]; [|assumption].
  destruct (to_datetime s) as [ts|]; [|assumption].
  destruct (mostly_dates ts); [reflexivity | assumption].
Qed.

Definition rejection_reasons : list string :=
  [msg_no_data; msg_empty; msg_columns; msg_all_null; msg_no_date; msg_no_numeric].

(** C5, as the code has it.  A table is accepted exactly when it is not
    empty, has at least two columns, has a cell that is not missing, has a
    column that converts to dates in full with at least 80% of its cells
    present, and has a numeric column; every rejection carries one of the
    fixed reasons.  The names of the columns play no part in the decision:
    finance keywords select the text of the acceptance message only. *)
Theorem validation_gate (df : DataFrame) :
  let verdict := validate_financial_data to_datetime (Some df) in
  (fst verdict = true <->
     df_empty df = false
     /\ (2 <= length (columns df))%nat
     /\ all_null df = false
     /\ (exists col, In col (columns df) /\ date_like df col = true)
     /\ number_columns df <> [])
  /\ (fst verdict = false -> In (snd verdict) rejection_reasons)
  /\ (fst verdict = true ->
        snd verdict = msg_dates_and_numbers
        \/ exists date_column_name cols,
             cols = found_financial_cols df /\ cols <> []
             /\ find (date_like df) (columns df) = Some date_column_name
             /\ snd verdict = msg_financial date_column_name cols).
Proof.
  unfold validate_financial_data, rejection_reasons.
  rewrite first_date_like_find.
  assert (Hrej : forall (msg : string) (P Q : Prop),
            (P -> False) ->
            In msg [msg_no_data; msg_empty; msg_columns; msg_all_null;
                    msg_no_date; msg_no_numeric] ->
            (false = true <-> P)
            /\ (false = false ->
                  In msg [msg_no_data; msg_empty; msg_columns; msg_all_null;
                          msg_no_date; msg_no_numeric])
            /\ (false = true -> Q)).
  { intros msg P Q HP Hin. split; [split; [discriminate | intros H; elim (HP H)]|].
    split; [intros _; exact Hin | discriminate]. }
  destruct (df_empty df) eqn:Ee.
  { cbn [fst snd]. apply Hrej; [intros (H & _); discriminate | simpl; auto]. }
  destruct (length (columns df) <? 2)%nat eqn:Ec.
  { apply Nat.ltb_lt in Ec. cbn [fst snd].
    apply Hrej; [intros (_ & H & _); lia | simpl; auto]. }
  apply Nat.ltb_ge in Ec.
  destruct (all_null df) eqn:Ea.
  { cbn [fst snd]. apply Hrej; [intros (_ & _ & H & _); discriminate | simpl; auto]. }
  destruct (find (date_like df) (columns df)) as [d|] eqn:Ef.
  2:{ cbn [fst snd]. apply Hrej; [|simpl; auto 10].
      intros (_ & _ & _ & [col [Hin Hd]] & _).
      pose proof (find_none _ _ Ef col Hin) as Hn. congruence. }
  apply find_some in Ef as Ef'. destruct Ef' as [Hin Hd].
  destruct (length (number_columns df) =? 0)%nat eqn:En.
  { apply Nat.eqb_eq in En. cbn [fst snd]. apply Hrej; [|simpl; auto 10].
    intros (_ & _ & _ & _ & H). apply H. now apply length_zero_iff_nil. }
  apply Nat.eqb_neq in En.
  assert (Hacc : df_empty df = false /\ (2 <= length (columns df))%nat
                 /\ all_null df = false
                 /\ (exists col, In col (columns df) /\ date_like df col = true)
                 /\ number_columns df <> []).
  { repeat split; auto; [eauto|]. intros E. rewrite E in En. now apply En. }
  destruct (found_financial_cols df) as [|c cols] eqn:Ek; cbn [fst snd].
  - split; [tauto|]. split; [discriminate | auto].
  - split; [tauto|]. split; [discriminate|].
    intros _. right. exists d, (c :: cols). repeat split; auto. discriminate.
Qed.

End ValidationGate.

(** ** C9: the filters *)

(** The rows of a table at the given positions, in that order. *)
Definition rows_at (idx : list nat) (df : DataFrame) : DataFrame :=
  map (fun cs => (fst cs, reindex idx (snd cs))) df.

(** The positions below [n] that satisfy [keep], in ascending order. *)
Definition positions (keep : nat -> bool) (n : nat) : list nat :=
  filter keep (seq 0 n).

(** The cell of a column at a row. *)
Definition cell (s : series) (i : nat) : option pyobj := nth i (to_object s) None.

(** A cell lies in the date range. *)
Definition in_range (start_date end_date : Z) (x : option pyobj) : bool :=
  match x with
  | Some (PTime t) => (start_date <=? t)%Z && (t <=? end_date)%Z
  | _ => false
  end.

(** The cell is one of the selected categories. *)
Definition selected_cell (selected : list (option pyobj)) (x : option pyobj) : bool :=
  existsb (scalar_eqb x) selected.

(** The column can be compared with a datetime. *)
Definition date_comparable (s : series) : bool :=
  match s with
  | DateCol _ => true
  | NumCol _ => false
  | ObjCol xs => is_some (all_some (map as_time xs))
  end.

Lemma filter_map_comm {A B : Type} (f : A -> B) (p : B -> bool) (l : list A) :
  filter p (map f l) = map f (filter (fun x => p (f x)) l).
Proof.
  induction l as [|x l IH]; simpl; [reflexivity|].
  destruct (p (f x)); simpl; now rewrite IH.
Qed.

Lemma select_take {A : Type} (mask : list bool) (xs : list (option A)) :
  length xs = length mask ->
  select mask xs = take (positions (fun i => nth i mask false) (length mask)) xs.
Proof.
  unfold select, take, positions. revert xs.
  induction mask as [|b mask IH]; intros [|x xs] E; simpl in E; try discriminate.
  - reflexivity.
  - injection E as E. cbn [length seq combine filter fst nth].
    rewrite <- seq_shift, filter_map_comm.
    destruct b; cbn [map snd nth]; rewrite map_map; now rewrite IH.
Qed.

Lemma select_series_reindex (mask : list bool) (s : series) :
  series_len s = length mask ->
  select_series mask s
  = reindex (positions (fun i => nth i mask false) (length mask)) s.
Proof.
  destruct s as [xs|xs|xs]; simpl; intros E; now rewrite select_take.
Qed.

Lemma select_rows_at (mask : list bool) (df : DataFrame) :
  aligned df -> length mask = nrows df ->
  select_rows mask df
  = rows_at (positions (fun i => nth i mask false) (nrows df)) df.
Proof.
  intros Hal Hlen. unfold select_rows, rows_at. apply map_ext_in.
  intros [c s] Hin. simpl. rewrite <- Hlen. f_equal.
  apply select_series_reindex. rewrite Hlen. eapply Hal; eassumption.
Qed.

Lemma df_empty_rows_at (idx : list nat) (df : DataFrame) :
  df_empty df = false ->
  df_empty (rows_at idx df) = match idx with [] => true | _ => false end.
Proof.
  destruct df as [|[c s] rest]; [discriminate|]. intros _. simpl.
  destruct s as [xs|xs|xs]; simpl; unfold take; rewrite length_map;
    destruct idx; reflexivity.
Qed.

Lemma mem_columns_lookup (col : string) (df : DataFrame) :
  mem col (columns df) = match lookup col df with Some _ => true | None => false end.
Proof.
  unfold mem, columns. induction df as [|[c s] rest IH]; simpl; [reflexivity|].
  destruct (String.eqb col c); [reflexivity | assumption].
Qed.

Lemma lookup_In (col : string) (s : series) (df : DataFrame) :
  lookup col df = Some s -> exists c, In (c, s) df.
Proof.
  induction df as [|[c s0] rest IH]; simpl; [discriminate|].
  destruct (String.eqb col c).
  - intros E. inversion E. subst. eauto.
  - intros E. destruct (IH E) as [c' H]. eauto.
Qed.

Lemma nth_map_lt {A B : Type} (f : A -> B) (l : list A) (i : nat) (d : A) (e : B) :
  (i < length l)%nat -> nth i (map f l) e = f (nth i l d).
Proof.
  intros H. rewrite (nth_indep _ e (f d)); [apply map_nth | now rewrite length_map].
Qed.

Lemma mask_and_map {A : Type} (f g : A -> bool) (l : list A) :
  mask_and (map f l) (map g l) = map (fun x => f x && g x) l.
Proof.
  unfold mask_and. induction l as [|x l IH]; simpl; [reflexivity|]. now rewrite IH.
Qed.

Lemma all_some_map_Some {A : Type} (l : list (option A)) (l' : list A) :
  all_some l = Some l' -> l = map Some l'.
Proof.
  revert l'. induction l as [|[x|] l IH]; simpl; intros l' E.
  - inversion E. reflexivity.
  - destruct (all_some l) as [r|]; simpl in E; [|discriminate].
    inversion E. simpl. f_equal. now apply IH.
  - discriminate.
Qed.

Lemma positions_ext (p q : nat -> bool) (n : nat) :
  (forall i, (i < n)%nat -> p i = q i) -> positions p n = positions q n.
Proof.
  intros H. unfold positions. apply filter_ext_in.
  intros i Hi. apply in_seq in Hi. apply H. lia.
Qed.

(** The comparison masks of [filter_data_by_date], cell by cell. *)
Lemma date_mask (s : series) (start_date end_date : Z) :
  if date_comparable s then
    exists ge le,
      compare_date Z.geb s start_date = Return ge
      /\ compare_date Z.leb s end_date = Return le
      /\ length (mask_and ge le) = series_len s
      /\ forall i, (i < series_len s)%nat ->
           nth i (mask_and ge le) false = in_range start_date end_date (cell s i)
  else exists e, compare_date Z.geb s start_date = Raise e.
Proof.
  assert (Hgeb : forall t, (t >=? start_date)%Z = (start_date <=? t)%Z)
    by (intros t; apply Z.geb_leb).
  destruct s as [xs|xs|xs]; simpl.
  - eauto.
  - destruct (all_some (map as_time xs)) as [ts|] eqn:Ets; simpl; [|eauto].
    do 2 eexists. split; [reflexivity|]. split; [reflexivity|].
    apply all_some_map_Some in Ets. rewrite mask_and_map, length_map.
    assert (Hlen : length ts = length xs).
    { rewrite <- (length_map Some ts), <- Ets. apply length_map. }
    split; [exact Hlen|]. intros i Hi. unfold cell. simpl.
    rewrite (nth_map_lt _ ts i None false) by lia.
    assert (Hc : as_time (nth i xs None) = Some (nth i ts None)).
    { rewrite <- (map_nth as_time xs None i), Ets.
      change (as_time None) with (Some (@None Z)).
      now rewrite (map_nth Some ts None i). }
    destruct (nth i xs None) as [[str|q|t]|]; simpl in Hc; try discriminate;
      inversion Hc as [Ht]; simpl; [now rewrite Hgeb | reflexivity].
  - do 2 eexists. split; [reflexivity|]. split; [reflexivity|].
    rewrite mask_and_map, length_map. split; [reflexivity|].
    intros i Hi. unfold cell. simpl.
    rewrite (nth_map_lt _ xs i None false) by assumption.
    rewrite (nth_map_lt _ xs i None None) by assumption.
    destruct (nth i xs None); simpl; [now rewrite Hgeb | reflexivity].
Qed.

Lemma filter_by_date_spec (df : DataFrame) (date_column : option string)
    (start_date end_date : Z) :
  aligned df -> df_empty df = false ->
  filter_data_by_date (Some df) date_column start_date end_date
  = Some
      match date_column with
      | None => df
      | Some col =>
          match lookup col df with
          | None => df
          | Some s =>
              if date_comparable s then
                match positions
                        (fun i => in_range start_date end_date (cell s i))
                        (nrows df) with
                | [] => df
                | idx => rows_at idx df
                end
              else df
          end
      end.
Proof.
  intros Hal Hne. unfold filter_data_by_date. rewrite Hne.
  destruct date_column as [col|]; [|reflexivity].
  rewrite mem_columns_lookup. unfold getitem.
  destruct (lookup col df) as [s|] eqn:Hl; [|reflexivity]. cbn [negb bind].
  destruct (lookup_In _ _ _ Hl) as [c Hin].
  pose proof (Hal c s Hin) as Hlen.
  pose proof (date_mask s start_date end_date) as Hm.
  destruct (date_comparable s).
  - destruct Hm as (ge & le & Hge & Hle & Hml & Hnth).
    rewrite Hge, Hle. cbn [bind].
    rewrite select_rows_at by (assumption || congruence).
    rewrite (positions_ext _ (fun i => in_range start_date end_date (cell s i)))
      by (intros i Hi; apply Hnth; lia).
    rewrite df_empty_rows_at by assumption.
    now destruct (positions _ (nrows df)).
  - destruct Hm as [e He]. rewrite He. reflexivity.
Qed.

Lemma filter_by_category_spec (df : DataFrame) (category_column : option string)
    (selected : list (option pyobj)) :
  aligned df -> df_empty df = false ->
  filter_data_by_category (Some df) category_column selected
  = Some
      match category_column with
      | None => df
      | Some col =>
          match lookup col df with
          | None => df
          | Some s =>
              match positions (fun i => selected_cell selected (cell s i))
                      (nrows df) with
              | [] => df
              | idx => rows_at idx df
              end
          end
      end.
Proof.
  intros Hal Hne. unfold filter_data_by_category. rewrite Hne.
  destruct category_column as [col|]; [|reflexivity].
  rewrite mem_columns_lookup. unfold getitem.
  destruct (lookup col df) as [s|] eqn:Hl; [|reflexivity]. cbn [negb bind].
  destruct selected as [|x selected].
  - assert (E : positions (fun i => selected_cell [] (cell s i)) (nrows df) = []).
    { unfold positions, selected_cell. simpl.
      induction (seq 0 (nrows df)); simpl; auto. }
    now rewrite E.
  - destruct (lookup_In _ _ _ Hl) as [c Hin].
    pose proof (Hal c s Hin) as Hlen.
    assert (Hml : length (isin s (x :: selected)) = nrows df).
    { unfold isin. rewrite length_map, <- Hlen.
      destruct s; simpl; now rewrite ?length_map. }
    rewrite select_rows_at by assumption.
    rewrite (positions_ext _
               (fun i => selected_cell (x :: selected) (cell s i))).
    + rewrite df_empty_rows_at by assumption.
      now destruct (positions _ (nrows df)).
    + intros i Hi. unfold isin, cell, selected_cell.
      apply (nth_map_lt (fun y => existsb (scalar_eqb y) (x :: selected))).
      unfold isin in Hml. rewrite length_map in Hml. lia.
Qed.

(** C9.  On a table that is not empty, each filter returns the rows that
    match, in table order, and returns the table unchanged when no row
    matches, when the column is not named or absent, or when the comparison
    raises. *)
Theorem filters_keep_matching_rows (df : DataFrame) :
  aligned df -> df_empty df = false ->
  (forall date_column start_date end_date,
     filter_data_by_date (Some df) date_column start_date end_date
     = Some
         match date_column with
         | None => df
         | Some col =>
             match lookup col df with
             | None => df
             | Some s =>
                 if date_comparable s then
                   match positions
                           (fun i => in_range start_date end_date (cell s i))
                           (nrows df) with
                   | [] => df
                   | idx => rows_at idx df
                   end
                 else df
             end
         end)
  /\ (forall category_column selected,
        filter_data_by_category (Some df) category_column selected
        = Some
            match category_column with
            | None => df
            | Some col =>
                match lookup col df with
                | None => df
                | Some s =>
                    match positions
                            (fun i => selected_cell selected (cell s i))
                            (nrows df) with
                    | [] => df
                    | idx => rows_at idx df
                    end
                end
            end).
Proof.
  intros Hal Hne. split; intros.
  - now apply filter_by_date_spec.
  - now apply filter_by_category_spec.
Qed.

(** ** The percent change of a column *)

Lemma dict_get_set_same {V : Type} (k : string) (v : V) (d : Dict.t V) :
  Dict.get k (Dict.set k v d) = Some v.
Proof.
  induction d as [|[k' v'] r IH]; simpl.
  - now rewrite String.eqb_refl.
  - destruct (String.eqb k k') eqn:E; simpl; now rewrite E.
Qed.

Lemma dict_get_set_other {V : Type} (k k' : string) (v : V) (d : Dict.t V) :
  k <> k' -> Dict.get k (Dict.set k' v d) = Dict.get k d.
Proof.
  intros Hne. induction d as [|[k0 v0] r IH]; simpl.
  - apply String.eqb_neq in Hne. now rewrite Hne.
  - destruct (String.eqb k' k0) eqn:E; simpl.
    + apply String.eqb_eq in E. subst k0.
      apply String.eqb_neq in Hne. now rewrite Hne.
    + now rewrite IH.
Qed.

(** The last character of a string, to tell the metric names apart. *)
Fixpoint last_char (s : string) : option ascii :=
  match s with
  | EmptyString => None
  | String c EmptyString => Some c
  | String _ r => last_char r
  end.

Lemma last_char_append (s : string) (c : ascii) (t : string) :
  last_char (s ++ String c t) = last_char (String c t).
Proof.
  induction s as [|a s IH]; [reflexivity|].
  change (String a s ++ String c t)%string with (String a (s ++ String c t)).
  cbn [last_char]. destruct (s ++ String c t)%string eqn:E; [|exact IH].
  destruct s; discriminate.
Qed.

Lemma length_append (s t : string) :
  String.length (s ++ t) = (String.length s + String.length t)%nat.
Proof.
  induction s as [|a s IH]; simpl; [reflexivity | now rewrite IH].
Qed.

Lemma append_cancel_r (s t u : string) : (s ++ u = t ++ u)%string -> s = t.
Proof.
  revert t. induction s as [|a s IH]; intros [|b t] E; simpl in E.
  - reflexivity.
  - apply (f_equal String.length) in E. simpl in E. rewrite length_append in E. lia.
  - apply (f_equal String.length) in E. simpl in E. rewrite length_append in E. lia.
  - inversion E. f_equal. now apply IH.
Qed.

Definition change_key (col : string) : string := (col ++ " Change %")%string.

Lemma change_key_not_volatility (col c : string) :
  change_key col <> (c ++ " Volatility")%string.
Proof.
  intros E. apply (f_equal last_char) in E. unfold change_key in E.
  rewrite !last_char_append in E. discriminate.
Qed.

Lemma change_key_inj (col c : string) : change_key col = change_key c -> col = c.
Proof. apply append_cancel_r. Qed.

(** The suffix of the key, to tell it from the fixed metric names. *)
Fixpoint ends_with (suffix s : string) : bool :=
  String.eqb s suffix
  || match s with
     | EmptyString => false
     | String _ r => ends_with suffix r
     end.

Lemma ends_with_append (suffix s : string) : ends_with suffix (s ++ suffix) = true.
Proof.
  induction s as [|a s IH].
  - change (EmptyString ++ suffix)%string with suffix.
    destruct suffix; cbn [ends_with]; now rewrite String.eqb_refl.
  - change (String a s ++ suffix)%string with (String a (s ++ suffix)).
    cbn [ends_with]. rewrite IH. apply orb_true_r.
Qed.

Lemma change_key_not_fixed (col name : string) :
  ends_with " Change %" name = false -> change_key col <> name.
Proof.
  intros H E. subst name. unfold change_key in H.
  now rewrite ends_with_append in H.
Qed.

Section ChangeMetric.

Variable np_sqrt : Q -> Q.

(** The entry that the loop body writes under the change key of [col]. *)
Definition change_entry (col_data : list Q) : option Q :=
  if (1 <? length col_data)%nat && nonzero (first_of col_data)
  then Some ((last_of col_data - first_of col_data) / first_of col_data * 100)
  else None.

Lemma column_metrics_own (col : string) (col_data : list Q) (m : Dict.t Q) :
  Dict.get (change_key col) (column_metrics np_sqrt col col_data m)
  = match change_entry col_data with
    | Some v => Some v
    | None => Dict.get (change_key col) m
    end.
Proof.
  assert (Havg : change_key col <> ("Avg " ++ col)%string).
  { intros E. apply (f_equal String.length) in E. unfold change_key in E.
    rewrite !length_append in E. simpl in E. lia. }
  unfold column_metrics, change_entry.
  destruct (0 <? length col_data)%nat eqn:E0.
  2:{ destruct col_data; [reflexivity | discriminate]. }
  destruct (1 <? length col_data)%nat; cbn [andb].
  - destruct (nonzero (first_of col_data));
      destruct (2 <? length col_data)%nat;
      rewrite ?(dict_get_set_other _ _ _ _ (change_key_not_volatility col col));
      fold (change_key col);
      rewrite ?dict_get_set_same, ?(dict_get_set_other _ _ _ _ Havg);
      reflexivity.
  - destruct (2 <? length col_data)%nat;
      rewrite ?(dict_get_set_other _ _ _ _ (change_key_not_volatility col col)),
              ?(dict_get_set_other _ _ _ _ Havg);
      reflexivity.
Qed.

Lemma column_metrics_other (col c : string) (col_data : list Q) (m : Dict.t Q) :
  c <> col -> ("Avg " ++ c)%string <> change_key col ->
  Dict.get (change_key col) (column_metrics np_sqrt c col_data m)
  = Dict.get (change_key col) m.
Proof.
  intros Hne Havg.
  assert (H1 : change_key col <> ("Avg " ++ c)%string) by congruence.
  assert (H2 : change_key col <> (c ++ " Change %")%string).
  { intros E. apply Hne. symmetry. now apply change_key_inj. }
  pose proof (change_key_not_volatility col c) as H3.
  unfold column_metrics.
  destruct (0 <? length col_data)%nat; [|reflexivity].
  destruct (1 <? length col_data)%nat;
    [destruct (nonzero (first_of col_data))|];
    destruct (2 <? length col_data)%nat;
    rewrite ?(dict_get_set_other _ _ _ _ H3), ?(dict_get_set_other _ _ _ _ H2),
            ?(dict_get_set_other _ _ _ _ H1);
    reflexivity.
Qed.

End ChangeMetric.

Section ChangeMetricEngine.

Variable np_sqrt : Q -> Q.

Lemma numeric_dropna_lookup (col : string) (df : DataFrame) (xs : list (option Q)) :
  lookup col df = Some (NumCol xs) -> numeric_dropna col df = Return (somes xs).
Proof.
  intros H. unfold numeric_dropna, getitem. now rewrite H.
Qed.

Lemma default_metrics_change (df : DataFrame) (col : string) (xs : list (option Q))
    (cols : list string) (m m' : Dict.t Q) :
  lookup col df = Some (NumCol xs) ->
  (forall c, In c cols -> ("Avg " ++ c)%string <> change_key col) ->
  default_metrics np_sqrt df cols m = Return m' ->
  Dict.get (change_key col) m'
  = if mem col cols
    then match change_entry (somes xs) with
         | Some v => Some v
         | None => Dict.get (change_key col) m
         end
    else Dict.get (change_key col) m.
Proof.
  intros Hl. revert m. induction cols as [|c rest IH]; intros m Hfresh Hrun.
  - simpl in Hrun. inversion Hrun. reflexivity.
  - simpl in Hrun.
    destruct (numeric_dropna c df) as [d|e] eqn:Ed; [|discriminate].
    simpl in Hrun.
    assert (Hfresh' : forall c0, In c0 rest -> ("Avg " ++ c0)%string <> change_key col).
    { intros c0 H0. apply Hfresh. now right. }
    rewrite (IH _ Hfresh' Hrun). unfold mem. cbn [existsb]. fold (mem col rest).
    destruct (String.eqb col c) eqn:E.
    + apply String.eqb_eq in E. subst c.
      rewrite (numeric_dropna_lookup _ _ _ Hl) in Ed. inversion Ed. subst d.
      rewrite column_metrics_own. cbn [orb].
      destruct (change_entry (somes xs)); now destruct (mem col rest).
    + apply String.eqb_neq in E. cbn [orb].
      rewrite column_metrics_other;
        [reflexivity | congruence | apply Hfresh; now left].
Qed.

Lemma keyword_metric_change (keywords : list string) (name : string)
    (aggregate : list Q -> Q) (df : DataFrame) (cols : list string)
    (col : string) (m m' : Dict.t Q) :
  ends_with " Change %" name = false ->
  keyword_metric keywords name aggregate df cols m = Return m' ->
  Dict.get (change_key col) m' = Dict.get (change_key col) m.
Proof.
  intros Hname. unfold keyword_metric.
  destruct (columns_named keywords cols) as [|c rest].
  - intros E. now inversion E.
  - destruct (numeric_dropna c df) as [d|e]; [|discriminate]. simpl.
    intros E. inversion E.
    destruct (0 <? length d)%nat; [|reflexivity].
    apply dict_get_set_other. now apply change_key_not_fixed.
Qed.

Lemma profit_metrics_change (col : string) (m : Dict.t Q) :
  Dict.get (change_key col) (profit_metrics m) = Dict.get (change_key col) m.
Proof.
  unfold profit_metrics.
  destruct (Dict.get "Total Revenue" m) as [revenue|]; [|reflexivity].
  destruct (Dict.get "Total Expenses" m) as [expenses|]; [|reflexivity].
  destruct (nonzero revenue);
    rewrite ?(dict_get_set_other (change_key col) "Profit Margin %"),
            ?(dict_get_set_other (change_key col) "Net Profit");
    try reflexivity; now apply change_key_not_fixed.
Qed.

Lemma roi_metric_change (df : DataFrame) (cols : list string) (col : string)
    (m m' : Dict.t Q) :
  roi_metric df cols m = Return m' ->
  Dict.get (change_key col) m' = Dict.get (change_key col) m.
Proof.
  unfold roi_metric.
  destruct (columns_named ["invest"%string] cols) as [|ic irest];
    [intros E; now inversion E|].
  destruct (columns_named ["return"%string; "roi"%string] cols) as [|rc rrest];
    [intros E; now inversion E|].
  destruct (numeric_dropna ic df) as [idata|e]; [|discriminate]. simpl.
  destruct (numeric_dropna rc df) as [rdata|e]; [|discriminate]. simpl.
  intros E. inversion E.
  destruct (_ && _); [|reflexivity].
  apply dict_get_set_other. now apply change_key_not_fixed.
Qed.

(** X30.  The guard of the percent change, for a numeric column whose
    change key is not the average key of a listed column: when the first
    value present is zero the returned metrics have no entry under the
    change key; when there are at least two values present, the first is
    not zero and the difference of the last and the first lies in the int64
    range, the entry is (last - first) / first * 100, first and last in
    table order. *)
Theorem change_metric_guarded (df : DataFrame) (numeric_columns : list string)
    (col : string) (xs : list (option Q)) (metrics : Dict.t Q) :
  aligned df ->
  lookup col df = Some (NumCol xs) ->
  In col numeric_columns ->
  (forall c, In c numeric_columns ->
     ("Avg " ++ c)%string <> (col ++ " Change %")%string) ->
  calculate_financial_metrics np_sqrt (Some df) numeric_columns = Return metrics ->
  let col_data := somes xs in
  (first_of col_data == 0 ->
     Dict.get (col ++ " Change %") metrics = None)
  /\ ((2 <= length col_data)%nat -> ~ first_of col_data == 0 ->
      in_int64 (last_of col_data - first_of col_data) = true ->
        Dict.get (col ++ " Change %") metrics
        = Some ((last_of col_data - first_of col_data) / first_of col_data * 100)).
Proof.
  intros Hal Hl Hin Hfresh Hrun col_data.
  fold (change_key col) in *.
  assert (Hentry : nrows df <> 0%nat ->
            Dict.get (change_key col) metrics = change_entry col_data).
  { intros Hrows. unfold calculate_financial_metrics in Hrun.
    destruct numeric_columns as [|c0 cols0] eqn:Ecols; [destruct Hin|].
    rewrite <- Ecols in *. clear Ecols.
    apply Nat.eqb_neq in Hrows. rewrite Hrows in Hrun.
    destruct (default_metrics np_sqrt df numeric_columns []) as [m1|] eqn:E1;
      [|discriminate]. cbn [bind] in Hrun.
    destruct (keyword_metric _ "Total Revenue" qsum df numeric_columns m1)
      as [m2|] eqn:E2; [|discriminate]. cbn [bind] in Hrun.
    destruct (keyword_metric _ "Total Expenses" qsum df numeric_columns m2)
      as [m3|] eqn:E3; [|discriminate]. cbn [bind] in Hrun.
    destruct (keyword_metric _ "Total Assets" qmean df numeric_columns
                (profit_metrics m3)) as [m4|] eqn:E4; [|discriminate].
    cbn [bind] in Hrun.
    destruct (keyword_metric _ "Total Liabilities" qmean df numeric_columns m4)
      as [m5|] eqn:E5; [|discriminate]. cbn [bind] in Hrun.
    rewrite (roi_metric_change _ _ _ _ _ Hrun).
    rewrite (keyword_metric_change _ "Total Liabilities" _ _ _ _ _ _ eq_refl E5).
    rewrite (keyword_metric_change _ "Total Assets" _ _ _ _ _ _ eq_refl E4).
    rewrite profit_metrics_change.
    rewrite (keyword_metric_change _ "Total Expenses" _ _ _ _ _ _ eq_refl E3).
    rewrite (keyword_metric_change _ "Total Revenue" _ _ _ _ _ _ eq_refl E2).
    rewrite (default_metrics_change _ _ _ _ _ _ Hl Hfresh E1).
    apply mem_In in Hin. rewrite Hin. simpl.
    fold col_data. now destruct (change_entry col_data). }
  assert (Hlen : (length col_data <= nrows df)%nat).
  { destruct (lookup_In _ _ _ Hl) as [c Hc]. rewrite <- (Hal c _ Hc). simpl.
    unfold col_data, somes. clear. induction xs as [|[x|] xs IH]; simpl; lia. }
  split.
  - intros Hz. destruct (Nat.eq_dec (nrows df) 0) as [E0|E0].
    + unfold calculate_financial_metrics in Hrun.
      destruct numeric_columns; [destruct Hin|].
      rewrite E0 in Hrun. simpl in Hrun. inversion Hrun. reflexivity.
    + rewrite (Hentry E0). unfold change_entry, nonzero.
      apply Qeq_bool_iff in Hz. rewrite Hz. cbn [negb].
      now rewrite andb_false_r.
  - intros H2 Hnz _. rewrite Hentry by lia. unfold change_entry, nonzero.
    destruct (Qeq_bool (first_of col_data) 0) eqn:En.
    + apply Qeq_bool_iff in En. contradiction.
    + assert (Hlt : (1 <? length col_data)%nat = true) by (apply Nat.ltb_lt; lia).
      now rewrite Hlt.
Qed.

End ChangeMetricEngine.

(** ** C1: the trend projector *)


Lemma all_some_None {A : Type} (l : list (option A)) :
  In None l -> all_some l = None.
Proof.
  induction l as [|[x|] l IH]; simpl; intros H.
  - destruct H.
  - destruct H as [H|H]; [discriminate|]. now rewrite IH.
  - reflexivity.
Qed.

Lemma all_some_total {A : Type} (l : list (option A)) :
  ~ In None l -> exists l', all_some l = Some l'.
Proof.
  induction l as [|[x|] l IH]; simpl; intros H.
  - eauto.
  - destruct IH as [l' E]; [tauto|]. rewrite E. simpl. eauto.
  - exfalso. apply H. now left.
Qed.

Lemma argsort_perm {K : Type} (leb : K -> K -> bool) (keys : list (option K)) :
  Permutation (argsort leb keys) (seq 0 (length keys)).
Proof.
  unfold argsort.
  eapply Permutation_trans; [apply Permutation_map, sort_keyed_perm|].
  assert (H : forall (l : list (option K)) (l' : list nat),
             length l = length l' -> map snd (combine l l') = l').
  { induction l as [|x l IH]; intros [|y l'] E; simpl in *;
      try discriminate; [reflexivity|]. f_equal. apply IH. lia. }
  rewrite H; [apply Permutation_refl | now rewrite length_seq].
Qed.

Lemma take_all {A : Type} (xs : list (option A)) :
  take (seq 0 (length xs)) xs = xs.
Proof.
  unfold take. induction xs as [|x xs IH]; [reflexivity|].
  cbn [length seq map nth]. rewrite <- seq_shift, map_map. cbn [nth].
  now rewrite IH.
Qed.

Lemma take_perm {A : Type} (idx : list nat) (xs : list (option A)) :
  Permutation idx (seq 0 (length xs)) -> Permutation (take idx xs) xs.
Proof.
  intros H. rewrite <- (take_all xs) at 2. unfold take.
  now apply Permutation_map.
Qed.

Lemma length_take {A : Type} (idx : list nat) (xs : list (option A)) :
  length (take idx xs) = length idx.
Proof. apply length_map. Qed.

Lemma length_argsort {K : Type} (leb : K -> K -> bool) (keys : list (option K)) :
  length (argsort leb keys) = length keys.
Proof.
  rewrite (Permutation_length (argsort_perm leb keys)). apply length_seq.
Qed.

Lemma series_len_reindex (idx : list nat) (s : series) :
  series_len (reindex idx s) = length idx.
Proof. destruct s; simpl; apply length_take. Qed.

(** Missing cells survive a reordering of the rows. *)
Lemma isnull_reindex_perm (idx : list nat) (s : series) :
  Permutation idx (seq 0 (series_len s)) ->
  any (isnull (reindex idx s)) = any (isnull s).
Proof.
  intros H.
  assert (Hany : forall l l' : list bool, Permutation l l' -> any l = any l').
  { intros l l' Hp. unfold any.
    destruct (existsb (fun b => b) l) eqn:E; symmetry.
    - apply existsb_exists in E. destruct E as [b [Hb Eb]].
      apply existsb_exists. exists b. split; [|assumption].
      eapply Permutation_in; eassumption.
    - destruct (existsb (fun b => b) l') eqn:E'; [|reflexivity].
      apply existsb_exists in E'. destruct E' as [b [Hb Eb]].
      assert (existsb (fun b => b) l = true).
      { apply existsb_exists. exists b. split; [|assumption].
        eapply Permutation_in; [apply Permutation_sym|]; eassumption. }
      congruence. }
  destruct s as [xs|xs|xs]; simpl in *; apply Hany, Permutation_map;
    now apply take_perm.
Qed.



(** *** The regression is the least-squares line *)

(** The residuals of a line on the history: observed minus fitted. *)
Definition residuals (model : linear_model) (xs ys : list Q) : list Q :=
  map (fun p => snd p - (coef_ model * fst p + intercept_ model)) (combine xs ys).

(** The moments of a list of points. *)
Section Moments.

Variable l : list (Q * Q).

Definition S1 : Q := qlen l.
Definition Sx : Q := qsum (map fst l).
Definition Sy : Q := qsum (map snd l).
Definition Sxx : Q := qsum (map (fun p => fst p * fst p) l).
Definition Sxy : Q := qsum (map (fun p => fst p * snd p) l).

End Moments.

Lemma qlen_cons {A : Type} (x : A) (l : list A) : qlen (x :: l) == 1 + qlen l.
Proof.
  unfold qlen. cbn [length]. rewrite Nat2Z.inj_succ. unfold Z.succ.
  rewrite inject_Z_plus. ring.
Qed.

Lemma sum_residuals (a b : Q) (l : list (Q * Q)) :
  qsum (map (fun p => snd p - (b * fst p + a)) l) == Sy l - b * Sx l - a * S1 l.
Proof.
  unfold Sy, Sx, S1. induction l as [|[x y] l IH]; cbn [map fst snd].
  - unfold qsum, qlen. simpl. ring.
  - rewrite !qsum_cons, qlen_cons, IH. cbn [fst snd]. ring.
Qed.

Lemma sum_x_residuals (a b : Q) (l : list (Q * Q)) :
  qsum (map (fun p => fst p * (snd p - (b * fst p + a))) l)
  == Sxy l - b * Sxx l - a * Sx l.
Proof.
  unfold Sxy, Sxx, Sx. induction l as [|[x y] l IH]; cbn [map fst snd].
  - unfold qsum. simpl. ring.
  - rewrite !qsum_cons, IH. cbn [fst snd]. ring.
Qed.

Lemma sum_centered_xx (m : Q) (l : list (Q * Q)) :
  qsum (map (fun x => sq (x - m)) (map fst l)) == Sxx l - 2 * m * Sx l + m * m * S1 l.
Proof.
  unfold Sxx, Sx, S1, sq. induction l as [|[x y] l IH]; cbn [map fst snd].
  - unfold qsum, qlen. simpl. ring.
  - rewrite !qsum_cons, qlen_cons, IH. cbn [fst snd]. ring.
Qed.

Lemma sum_centered_xy (mx my : Q) (l : list (Q * Q)) :
  qsum (map (fun p => (fst p - mx) * (snd p - my)) l)
  == Sxy l - mx * Sy l - my * Sx l + mx * my * S1 l.
Proof.
  unfold Sxy, Sx, Sy, S1. induction l as [|[x y] l IH]; cbn [map fst snd].
  - unfold qsum, qlen. simpl. ring.
  - rewrite !qsum_cons, qlen_cons, IH. cbn [fst snd]. ring.
Qed.

Lemma qsum_ext_eq {A : Type} (f g : A -> Q) (l : list A) :
  (forall x, In x l -> f x == g x) -> qsum (map f l) == qsum (map g l).
Proof.
  induction l as [|x l IH]; intros H; cbn [map]; [reflexivity|].
  rewrite !qsum_cons, (H x (or_introl eq_refl)), IH; [reflexivity|].
  intros z Hz. apply H. now right.
Qed.

Lemma sq_nonneg (x : Q) : 0 <= sq x.
Proof.
  unfold sq. destruct (Qlt_le_dec x 0) as [H|H].
  - setoid_replace (x * x) with ((- x) * (- x)) by ring.
    apply Qmult_le_0_compat; apply Qlt_le_weak;
      setoid_replace 0 with (- 0) by ring; now apply Qopp_lt_compat.
  - now apply Qmult_le_0_compat.
Qed.

Lemma sq_zero (x : Q) : sq x == 0 -> x == 0.
Proof.
  unfold sq. intros H. destruct (Qeq_dec x 0) as [E|E]; [assumption|].
  apply Qmult_integral in H. tauto.
Qed.

Lemma qsum_zero_terms {A : Type} (f : A -> Q) (l : list A) :
  (forall x, In x l -> 0 <= f x) -> qsum (map f l) == 0 ->
  forall x, In x l -> f x == 0.
Proof.
  induction l as [|z l IH]; intros Hpos Hsum x Hin; [destruct Hin|].
  cbn [map] in Hsum. rewrite qsum_cons in Hsum.
  assert (Hz : 0 <= f z) by (apply Hpos; now left).
  assert (Hl : 0 <= qsum (map f l)).
  { apply qsum_nonneg, Forall_map, Forall_forall. intros w Hw. apply Hpos. now right. }
  assert (Ez : f z == 0).
  { apply Qle_antisym; [|assumption].
    setoid_replace (f z) with (0 - qsum (map f l)) by (rewrite <- Hsum; ring).
    setoid_replace 0 with (0 - 0) at 2 by ring.
    apply Qplus_le_compat; [apply Qle_refl|]. now apply Qopp_le_compat. }
  destruct Hin as [Hin|Hin]; [now subst|].
  apply IH; try assumption.
  - intros w Hw. apply Hpos. now right.
  - rewrite Ez in Hsum. rewrite <- Hsum. ring.
Qed.

Lemma combine_fst_snd {A B : Type} (l : list (A * B)) :
  combine (map fst l) (map snd l) = l.
Proof.
  induction l as [|[a b] l IH]; simpl; [reflexivity | now rewrite IH].
Qed.

Lemma split_combine_eq {A B : Type} (X : list A) (y : list B) :
  length X = length y ->
  map fst (combine X y) = X /\ map snd (combine X y) = y.
Proof.
  revert y. induction X as [|x X IH]; intros [|b y] E; simpl in *;
    try discriminate; [auto|].
  destruct (IH y) as [H1 H2]; [lia|]. now rewrite H1, H2.
Qed.

Lemma qlen_pos {A : Type} (l : list A) : l <> [] -> ~ qlen l == 0.
Proof.
  destruct l as [|x l]; [congruence|]. intros _ E.
  unfold qlen, Qeq in E. simpl in E. lia.
Qed.

(** The normal equations of the fitted line. *)
Lemma ols_normal_equations (l : list (Q * Q)) :
  l <> [] ->
  let model := ols_fit (map fst l) (map snd l) in
  qsum (map (fun p => snd p - (coef_ model * fst p + intercept_ model)) l) == 0
  /\ qsum (map (fun p => fst p * (snd p - (coef_ model * fst p + intercept_ model))) l)
     == 0.
Proof.
  intros Hne model.
  pose proof (qlen_pos l Hne) as Hn. fold (S1 l) in Hn.
  set (mx := qmean (map fst l)). set (my := qmean (map snd l)).
  assert (Emx : mx == Sx l / S1 l).
  { unfold mx, qmean, Sx, S1, qlen. now rewrite length_map. }
  assert (Emy : my == Sy l / S1 l).
  { unfold my, qmean, Sy, S1, qlen. now rewrite length_map. }
  set (sxx := qsum (map (fun x => sq (x - mx)) (map fst l))).
  set (sxy := qsum (map (fun p => (fst p - mx) * (snd p - my)) l)).
  assert (Exx : sxx == Sxx l - 2 * mx * Sx l + mx * mx * S1 l)
    by apply sum_centered_xx.
  assert (Exy : sxy == Sxy l - mx * Sy l - my * Sx l + mx * my * S1 l)
    by apply sum_centered_xy.
  assert (Hmodel : coef_ model = (if Qeq_bool sxx 0 then 0 else sxy / sxx)
                   /\ intercept_ model = my - coef_ model * mx).
  { unfold model, ols_fit. cbn [coef_ intercept_]. rewrite combine_fst_snd.
    split; reflexivity. }
  destruct Hmodel as [Hb Ha].
  set (b := coef_ model) in *. set (a := intercept_ model) in *.
  split.
  - rewrite sum_residuals, Ha, Emx, Emy. field. exact Hn.
  - rewrite sum_x_residuals, Ha.
    assert (Hkey : Sxy l - b * Sxx l - (my - b * mx) * Sx l == sxy - b * sxx).
    { rewrite Exx, Exy, Emx, Emy. field. exact Hn. }
    rewrite Hkey. rewrite Hb.
    destruct (Qeq_bool sxx 0) eqn:E.
    + apply Qeq_bool_iff in E.
      assert (Hx : forall p, In p l -> fst p - mx == 0).
      { intros p Hp. apply sq_zero.
        apply (qsum_zero_terms (fun x => sq (x - mx)) (map fst l)).
        - intros x _. apply sq_nonneg.
        - exact E.
        - now apply in_map. }
      assert (Hxy : sxy == 0).
      { unfold sxy.
        rewrite (qsum_ext_eq _ (fun _ => 0) l).
        - clear. induction l as [|p l IH]; cbn [map]; [reflexivity|].
          rewrite qsum_cons, IH. ring.
        - intros p Hp. rewrite (Hx p Hp). ring. }
      rewrite Hxy. ring.
    + apply Qeq_bool_neq in E. field. exact E.
Qed.

Lemma sum_squares_shift (a b a' b' : Q) (l : list (Q * Q)) :
  qsum (map (fun p => sq (snd p - (b' * fst p + a'))) l)
  == qsum (map (fun p => sq (snd p - (b * fst p + a))) l)
     - 2 * (b' - b) * qsum (map (fun p => fst p * (snd p - (b * fst p + a))) l)
     - 2 * (a' - a) * qsum (map (fun p => snd p - (b * fst p + a)) l)
     + qsum (map (fun p => sq ((b' - b) * fst p + (a' - a))) l).
Proof.
  induction l as [|[x y] l IH]; cbn [map fst snd].
  - unfold qsum. simpl. ring.
  - rewrite !qsum_cons, IH. cbn [fst snd]. unfold sq. ring.
Qed.

(** [ols_fit] minimises the sum of the squared residuals. *)
Lemma ols_fit_least_squares (X y : list Q) (other : linear_model) :
  length X = length y -> X <> [] ->
  qsum (map sq (residuals (ols_fit X y) X y))
  <= qsum (map sq (residuals other X y)).
Proof.
  intros Hlen Hne. unfold residuals. rewrite !map_map.
  destruct (split_combine_eq X y Hlen) as [HX Hy].
  set (l := combine X y) in *.
  assert (Hl : l <> []).
  { intros E. rewrite E in HX. simpl in HX. congruence. }
  pose proof (ols_normal_equations l Hl) as [N1 N2].
  rewrite HX, Hy in N1, N2.
  rewrite (sum_squares_shift (intercept_ (ols_fit X y)) (coef_ (ols_fit X y))
             (intercept_ other) (coef_ other) l).
  rewrite N1, N2.
  set (s := qsum (map (fun p => sq (snd p - _)) l)).
  set (t := qsum (map _ l)).
  assert (Ht : 0 <= t).
  { apply qsum_nonneg, Forall_map, Forall_forall. intros p _. apply sq_nonneg. }
  setoid_replace s with (s - 0 - 0 + 0) at 1 by ring.
  setoid_replace (2 * (coef_ other - coef_ (ols_fit X y)) * 0) with 0 by ring.
  setoid_replace (2 * (intercept_ other - intercept_ (ols_fit X y)) * 0) with 0 by ring.
  apply Qplus_le_compat; [apply Qle_refl | exact Ht].
Qed.

Section TrendProjector.

Variable np_sqrt : Q -> Q.

(** The function on a table whose date column is a datetime column: the
    rows in date order, then the guard, then the regression. *)
Lemma predict_on_dates (data : DataFrame) (date_column value_column : string)
    (days : nat) (ds : list (option Z)) (v : series) :
  lookup date_column data = Some (DateCol ds) ->
  lookup value_column data = Some v ->
  predict_future_values np_sqrt data date_column value_column days
  = if (length ds <? 10)%nat then Raise (ValueError msg_not_enough)
    else match reindex (argsort Z.leb ds) v with
         | NumCol vs =>
             fit_and_project np_sqrt (take (argsort Z.leb ds) ds) vs days
         | _ => Raise (ValueError "could not convert value to float")
         end.
Proof.
  intros Hd Hv. unfold predict_future_values, sort_values, getitem.
  rewrite Hd. cbn [bind sort_positions].
  rewrite !lookup_map_series, Hd, Hv. cbn [option_map bind reindex].
  rewrite series_len_reindex, length_argsort.
  destruct (length ds <? 10)%nat; [reflexivity|].
  destruct (reindex (argsort Z.leb ds) v); reflexivity.
Qed.



Lemma residuals_as_computed (model : linear_model) (xs ys : list Q) :
  map (fun p => fst p - snd p) (combine ys (predict model xs))
  = residuals model xs ys.
Proof.
  unfold residuals, predict. revert ys.
  induction xs as [|x xs IH]; intros [|y ys]; simpl; try reflexivity.
  now rewrite IH.
Qed.

Lemma all_some_of_Some {A : Type} (l : list A) : all_some (map Some l) = Some l.
Proof.
  induction l as [|x l IH]; simpl; [reflexivity | now rewrite IH].
Qed.

(** The day offsets of the dates from the earliest one. *)
Definition day_offsets (dates : list Z) (first_date : Z) : list Q :=
  map (fun d => inject_Z (days_between d first_date)) dates.

(** The day offsets, from the earliest date, of the days after the last
    date. *)
Definition future_offsets (first_date last_date : Z) (days : nat) : list Q :=
  map (fun i =>
         inject_Z (days_between (last_date + Z.of_nat (i + 1) * ns_per_day)
                                first_date))
      (seq 0 days).

Lemma checked_predict_returns (model : linear_model) (X out : list Q) :
  checked_predict model X = Return out -> X <> [] /\ out = predict model X.
Proof.
  destruct X as [|x X]; [discriminate|]. intros E. inversion E.
  split; [discriminate | reflexivity].
Qed.

Lemma checked_predict_nonempty (model : linear_model) (X : list Q) :
  X <> [] -> checked_predict model X = Return (predict model X).
Proof.
  destruct X as [|x X]; [congruence | reflexivity].
Qed.

Lemma future_offsets_nonempty (first_date last_date : Z) (days : nat) :
  future_offsets first_date last_date days <> [] <-> (0 < days)%nat.
Proof.
  unfold future_offsets. destruct days as [|n]; simpl; split;
    try lia; try discriminate. congruence.
Qed.

(** What a run of [fit_and_project] that returns has computed: the dates and
    values have no missing cell, the horizon is not empty, and the summary
    and the traces come from the line fitted to the day offsets. *)
Lemma fit_and_project_returns (ds : list (option Z)) (vs : list (option Q))
    (days : nat) (res : prediction_result) (fig : figure) :
  fit_and_project np_sqrt ds vs days = Return (res, fig) ->
  exists dates ys first_date last_date,
    ds = map Some dates /\ vs = map Some ys
    /\ series_min ds = Some first_date
    /\ series_max ds = Some last_date
    /\ (0 < days)%nat
    /\ historical_dates fig = ds
    /\ historical_values fig = vs
    /\ confidence_interval res
       = np_std np_sqrt
           (residuals (ols_fit (day_offsets dates first_date) ys)
                      (day_offsets dates first_date) ys) * 2
    /\ predicted_values fig
       = predict (ols_fit (day_offsets dates first_date) ys)
                 (future_offsets first_date last_date days)
    /\ upper_bound fig
       = map (fun v => v + 2 * np_std np_sqrt
                                 (residuals (ols_fit (day_offsets dates first_date) ys)
                                            (day_offsets dates first_date) ys))
             (predicted_values fig)
    /\ lower_bound fig
       = map (fun v => v - 2 * np_std np_sqrt
                                 (residuals (ols_fit (day_offsets dates first_date) ys)
                                            (day_offsets dates first_date) ys))
             (predicted_values fig).
Proof.
  unfold fit_and_project, fit.
  match goal with |- context [all_some (map ?f ds)] => set (toX := f) end.
  destruct (all_some (map toX ds)) as [xs|] eqn:EX; [|discriminate].
  destruct (all_some vs) as [ys|] eqn:Ey; [|discriminate]. cbn [bind].
  destruct (series_min ds) as [f|] eqn:Emin; [|discriminate].
  destruct (series_max ds) as [last_date|] eqn:Emax; [|discriminate].
  rewrite map_map. fold (future_offsets f last_date days).
  destruct (checked_predict (ols_fit xs ys) (future_offsets f last_date days))
    as [y_future|] eqn:Ep; [|discriminate]. cbn [bind].
  apply checked_predict_returns in Ep. destruct Ep as [Hne Hy].
  apply future_offsets_nonempty in Hne.
  intros E. inversion E as [[Hres Hfig]]. clear E.
  assert (Hds : exists dates, ds = map Some dates).
  { destruct (all_some_total ds) as [dates Ed].
    - intros Hin. assert (HX : In None (map toX ds)).
      { apply in_map_iff. exists None. split; [reflexivity | assumption]. }
      apply all_some_None in HX. congruence.
    - exists dates. now apply all_some_map_Some. }
  destruct Hds as [dates Hds].
  assert (Hxs : xs = day_offsets dates f).
  { subst ds. rewrite map_map in EX. unfold toX in EX. cbn beta iota in EX.
    change (map (fun x => Some (inject_Z (days_between x f))) dates)
      with (map (fun x => (fun q => Some q) (inject_Z (days_between x f))) dates) in EX.
    rewrite <- (map_map (fun d => inject_Z (days_between d f)) Some) in EX.
    rewrite all_some_of_Some in EX. now inversion EX. }
  exists dates, ys, f, last_date.
  cbn [confidence_interval predicted_values upper_bound lower_bound
       historical_dates historical_values].
  rewrite residuals_as_computed, <- Hxs, <- Hy.
  split; [assumption|]. split; [now apply all_some_map_Some|].
  repeat split; try reflexivity; assumption.
Qed.

End TrendProjector.

(** ** C2: the health score *)

Lemma clip_bounds (x : Q) : -1 <= clip x /\ clip x <= 1.
Proof.
  unfold clip, Qgt_bool.
  destruct (Qle_bool (-1) x) eqn:E1; simpl.
  - apply Qle_bool_iff in E1. destruct (Qle_bool x 1) eqn:E2; simpl.
    + apply Qle_bool_iff in E2. split; assumption.
    + split; [discriminate | apply Qle_refl].
  - split; [apply Qle_refl | discriminate].
Qed.

Lemma weighted_sum_bounds (cs ws : list Q) :
  Forall (fun c => -1 <= c /\ c <= 1) cs ->
  Forall (fun w => 0 <= w) ws ->
  - qsum ws <= qsum (map (fun p => fst p * snd p) (combine cs ws))
  /\ qsum (map (fun p => fst p * snd p) (combine cs ws)) <= qsum ws.
Proof.
  intros Hc. revert ws. induction Hc as [|c cs [Hc1 Hc2] Hcs IH]; intros ws Hw.
  - cbn [combine map]. change (qsum []) with 0.
    pose proof (qsum_nonneg ws Hw) as H. split; [|assumption].
    setoid_replace 0 with (- 0) by ring. now apply Qopp_le_compat.
  - destruct Hw as [|w ws Hw Hws]; cbn [combine map fst snd].
    + change (qsum []) with 0. split; discriminate.
    + rewrite !qsum_cons. cbn [fst snd].
      destruct (IH ws Hws) as [I1 I2]. split.
      * setoid_replace (- (w + qsum ws)) with (- w + - qsum ws) by ring.
        apply Qplus_le_compat; [|assumption].
        setoid_replace (- w) with ((-1) * w) by ring.
        now apply Qmult_le_compat_r.
      * apply Qplus_le_compat; [|assumption].
        setoid_replace w with (1 * w) at 2 by ring.
        now apply Qmult_le_compat_r.
Qed.

Lemma py_int_floor (x : Q) : 0 <= x -> py_int x = Qfloor x.
Proof.
  destruct x as [n d]. unfold Qle, py_int, Qfloor. simpl. intros H.
  apply Z.quot_div_nonneg; lia.
Qed.

(** The score in the words of the code: the composite moved to the scale
    0-100 and cut to an integer. *)
Definition normalized_weights (importances : list Q) : list Q :=
  map (fun w => w / qsum importances) importances.

Definition composite (features importances : list Q) : Q :=
  qsum (map (fun p => fst p * snd p)
            (combine (map clip features) (normalized_weights importances))).

Lemma score_features_floor (features importances : list Q) :
  importances <> [] ->
  Forall (fun w => 0 < w) importances ->
  let c := composite features importances in
  qsum (normalized_weights importances) == 1
  /\ -1 <= c /\ c <= 1
  /\ health_score (score_features features importances)
     = Some (Qfloor ((c + 1) * 50))
  /\ (0 <= Qfloor ((c + 1) * 50) <= 100)%Z.
Proof.
  intros Hne Hpos c.
  pose proof (qsum_pos importances Hne Hpos) as Htotal.
  assert (Hsum : qsum (normalized_weights importances) == 1).
  { unfold normalized_weights. rewrite qsum_div. field.
    intros E. rewrite E in Htotal. now apply Qlt_irrefl in Htotal. }
  assert (Hw : Forall (fun w => 0 <= w) (normalized_weights importances)).
  { unfold normalized_weights. apply Forall_map.
    eapply Forall_impl; [|exact Hpos]. intros w Hwpos. cbv beta.
    apply Qle_shift_div_l; [assumption|]. rewrite Qmult_0_l.
    now apply Qlt_le_weak. }
  assert (Hc : Forall (fun x => -1 <= x /\ x <= 1) (map clip features)).
  { apply Forall_map. apply Forall_forall. intros x _. apply clip_bounds. }
  destruct (weighted_sum_bounds _ _ Hc Hw) as [B1 B2].
  fold (composite features importances) in B1, B2. fold c in B1, B2.
  rewrite Hsum in B1, B2.
  assert (H0 : 0 <= (c + 1) * 50).
  { setoid_replace 0 with ((-1 + 1) * 50) by ring.
    apply Qmult_le_compat_r; [|discriminate].
    apply Qplus_le_compat; [assumption | apply Qle_refl]. }
  assert (H100 : (c + 1) * 50 <= 100).
  { setoid_replace 100 with ((1 + 1) * 50) by ring.
    apply Qmult_le_compat_r; [|discriminate].
    apply Qplus_le_compat; [assumption | apply Qle_refl]. }
  assert (Hfl : (0 <= Qfloor ((c + 1) * 50) <= 100)%Z).
  { split.
    - change 0%Z with (Qfloor 0). now apply Qfloor_resp_le.
    - change 100%Z with (Qfloor 100). now apply Qfloor_resp_le. }
  repeat split; try assumption; try apply Hfl.
  unfold score_features. cbn [health_score].
  fold (normalized_weights importances). fold (composite features importances).
  fold c. rewrite (py_int_floor _ H0). f_equal. lia.
Qed.

Section HealthScore.

Variable np_sqrt : Q -> Q.

Lemma health_features_importances (data : DataFrame) (numeric_columns : list string)
    (features importances : list Q) :
  health_features np_sqrt data numeric_columns = Return (features, importances) ->
  length features = length importances
  /\ Forall (fun w => 0 < w) importances
  /\ Forall (fun w => w == 4 # 10 \/ w == 3 # 10 \/ w == 1 # 10) importances.
Proof.
  unfold health_features. intros H.
  repeat match type of H with
         | bind ?m _ = _ =>
             let E := fresh "E" in
             destruct m as [?|?] eqn:E; cbn [bind] in H; [|discriminate]
         end.
  assert (Hgoal : forall l : list (Q * Q),
            Forall (fun p => snd p = 4 # 10 \/ snd p = 3 # 10 \/ snd p = 1 # 10) l ->
            length (map fst l) = length (map snd l)
            /\ Forall (fun w => 0 < w) (map snd l)
            /\ Forall (fun w => w == 4 # 10 \/ w == 3 # 10 \/ w == 1 # 10)
                      (map snd l)).
  { intros l Hl. split; [now rewrite !length_map|]. split.
    - apply Forall_map. eapply Forall_impl; [|exact Hl].
      intros p [Hp|[Hp|Hp]]; rewrite Hp; reflexivity.
    - apply Forall_map. eapply Forall_impl; [|exact Hl].
      intros p [Hp|[Hp|Hp]]; rewrite Hp; auto using Qeq_refl. }
  assert (H1 : forall (o : option (list Q * Q)) (f : Q -> Q) (w : Q),
            w = 4 # 10 \/ w = 3 # 10 \/ w = 1 # 10 ->
            Forall (fun p => snd p = 4 # 10 \/ snd p = 3 # 10 \/ snd p = 1 # 10)
                   (match o with Some (_, t) => [(f t, w)] | None => [] end)).
  { intros [[? ?]|] f w Hw; [|apply Forall_nil].
    apply Forall_cons; [exact Hw | apply Forall_nil]. }
  assert (H3 : Forall (fun p : Q * Q =>
                         snd p = 4 # 10 \/ snd p = 3 # 10 \/ snd p = 1 # 10)
                 (match a with
                  | Some (revenues, _) =>
                      match a0 with
                      | Some (expenses, _) =>
                          [(profit_margin_trend revenues expenses, 3 # 10)]
                      | None => []
                      end
                  | None => []
                  end)).
  { destruct a as [[? ?]|]; [destruct a0 as [[? ?]|]|]; try apply Forall_nil.
    apply Forall_cons; [simpl; auto | apply Forall_nil]. }
  match type of H with
  | match ?s with _ => _ end = _ => destruct s as [|s0 srest]
  end.
  - inversion H. apply Hgoal.
    apply Forall_app. split; [apply (H1 _ (fun t => t)); auto|].
    apply Forall_app. split; [apply (H1 _ (fun t => - t)); auto|].
    exact H3.
  - destruct (all_some (s0 :: srest)) as [vs|]; [|discriminate].
    inversion H. apply Hgoal.
    apply Forall_app. split; [apply (H1 _ (fun t => t)); auto|].
    apply Forall_app. split; [apply (H1 _ (fun t => - t)); auto|].
    apply Forall_app. split; [exact H3|].
    apply Forall_cons; [simpl; auto | apply Forall_nil].
Qed.

(** C2, as the code has it.  With at least 10 rows and at least one feature
    the scorer clips each feature to [-1, 1], divides the importances of the
    features present by their sum, so that they add up to 1, and takes the
    weighted sum; the score is (composite + 1) * 50 cut to an integer by
    [int], which is the floor here, and lies between 0 and 100; the
    description follows the thresholds 80, 60, 40 and 20. *)
Theorem health_score_formula (data : DataFrame) (numeric_columns : list string)
    (features importances : list Q) :
  (10 <= nrows data)%nat ->
  health_features np_sqrt data numeric_columns = Return (features, importances) ->
  features <> [] ->
  exists h score,
    predict_financial_health np_sqrt data numeric_columns = Return h
    /\ health_score h = Some score
    /\ Forall (fun f => -1 <= f /\ f <= 1) (map clip features)
    /\ qsum (normalized_weights importances) == 1
    /\ -1 <= composite features importances
    /\ composite features importances <= 1
    /\ score = Qfloor ((composite features importances + 1) * 50)
    /\ (0 <= score <= 100)%Z
    /\ ((80 <= score)%Z ->
          description h = "Excellent financial health with strong positive trends"%string)
    /\ ((60 <= score < 80)%Z ->
          description h = "Good financial health with generally positive indicators"%string)
    /\ ((40 <= score < 60)%Z ->
          description h = "Moderate financial health with mixed indicators"%string)
    /\ ((20 <= score < 40)%Z ->
          description h = "Concerning financial health with several negative trends"%string)
    /\ ((score < 20)%Z ->
          description h = "Poor financial health with significant negative indicators"%string).
Proof.
  intros Hrows Hf Hne.
  destruct (health_features_importances _ _ _ _ Hf) as (Hlen & Hpos & _).
  assert (Hine : importances <> []).
  { intros E. subst importances. destruct features; [congruence | discriminate]. }
  destruct (score_features_floor features importances Hine Hpos)
    as (Hsum & Hc1 & Hc2 & Hscore & Hrange).
  exists (score_features features importances),
         (Qfloor ((composite features importances + 1) * 50)).
  split.
  { unfold predict_financial_health.
    assert (E : (nrows data <? 10)%nat = false) by (apply Nat.ltb_ge; lia).
    rewrite E, Hf. cbn [bind]. destruct features; [congruence | reflexivity]. }
  split; [assumption|].
  split; [apply Forall_map, Forall_forall; intros x _; apply clip_bounds|].
  repeat (split; [assumption || reflexivity|]).
  assert (Hdesc : description (score_features features importances)
                  = describe_health (Qfloor ((composite features importances + 1) * 50))).
  { unfold score_features in *. cbn [description health_score] in *.
    injection Hscore as Hscore. now rewrite Hscore. }
  rewrite Hdesc. unfold describe_health.
  set (s := Qfloor ((composite features importances + 1) * 50)) in *.
  repeat split; intros Hs.
  - assert (E : (80 <=? s)%Z = true) by (apply Z.leb_le; lia). now rewrite E.
  - assert (E1 : (80 <=? s)%Z = false) by (apply Z.leb_gt; lia).
    assert (E2 : (60 <=? s)%Z = true) by (apply Z.leb_le; lia).
    now rewrite E1, E2.
  - assert (E1 : (80 <=? s)%Z = false) by (apply Z.leb_gt; lia).
    assert (E2 : (60 <=? s)%Z = false) by (apply Z.leb_gt; lia).
    assert (E3 : (40 <=? s)%Z = true) by (apply Z.leb_le; lia).
    now rewrite E1, E2, E3.
  - assert (E1 : (80 <=? s)%Z = false) by (apply Z.leb_gt; lia).
    assert (E2 : (60 <=? s)%Z = false) by (apply Z.leb_gt; lia).
    assert (E3 : (40 <=? s)%Z = false) by (apply Z.leb_gt; lia).
    assert (E4 : (20 <=? s)%Z = true) by (apply Z.leb_le; lia).
    now rewrite E1, E2, E3, E4.
  - assert (E1 : (80 <=? s)%Z = false) by (apply Z.leb_gt; lia).
    assert (E2 : (60 <=? s)%Z = false) by (apply Z.leb_gt; lia).
    assert (E3 : (40 <=? s)%Z = false) by (apply Z.leb_gt; lia).
    assert (E4 : (20 <=? s)%Z = false) by (apply Z.leb_gt; lia).
    now rewrite E1, E2, E3, E4.
Qed.

End HealthScore.

(** * Instances and worked examples *)

(** An instance of [pd.to_datetime] for the examples: strings of the form
    YYYY-MM-DD, numbers as nanoseconds since the epoch, timestamps as they
    are.  A missing cell converts to NaT; any other cell makes it raise. *)
Definition digit (c : ascii) : option Z :=
  let n := Z.of_nat (nat_of_ascii c) in
  if ((48 <=? n) && (n <=? 57))%Z then Some (n - 48)%Z else None.

Fixpoint digits (s : string) (acc : Z) : option Z :=
  match s with
  | EmptyString => Some acc
  | String c r =>
      match digit c with
      | Some d => digits r (10 * acc + d)%Z
      | None => None
      end
  end.

(** Days since 1970-01-01 of a civil date. *)
Definition days_from_civil (y m d : Z) : Z :=
  let y' := if (m <=? 2)%Z then (y - 1)%Z else y in
  let era := (y' / 400)%Z in
  let yoe := (y' - era * 400)%Z in
  let mp := ((m + 9) mod 12)%Z in
  let doy := ((153 * mp + 2) / 5 + d - 1)%Z in
  let doe := (yoe * 365 + yoe / 4 - yoe / 100 + doy)%Z in
  (era * 146097 + doe - 719468)%Z.

Definition parse_iso_date (s : string) : option Z :=
  if (String.length s =? 10)%nat
     && String.eqb (substring 4 1 s) "-" && String.eqb (substring 7 1 s) "-"
  then
    match digits (substring 0 4 s) 0, digits (substring 5 2 s) 0,
          digits (substring 8 2 s) 0 with
    | Some y, Some m, Some d =>
        if ((1 <=? m) && (m <=? 12) && (1 <=? d) && (d <=? 31))%Z
        then Some (days_from_civil y m d * ns_per_day)%Z
        else None
    | _, _, _ => None
    end
  else None.

Definition iso_cell (o : option pyobj) : option (option Z) :=
  match o with
  | None => Some None
  | Some (PStr s) => option_map Some (parse_iso_date s)
  | Some (PNum q) => Some (Some (Qfloor q))
  | Some (PTime t) => Some (Some t)
  end.

Definition iso_to_datetime (s : series) : option (list (option Z)) :=
  all_some (map iso_cell (to_object s)).

(** An instance of [np.sqrt] for the examples: the square root to six
    decimal places. *)
Definition approx_sqrt (x : Q) : Q :=
  Qmake (Z.sqrt (Qnum x * Zpos (Qden x) * 10 ^ 12)) (Qden x * 1000000).

(** A timestamp at midnight, [n] days after the epoch. *)
Definition day (n : Z) : option Z := Some (n * ns_per_day)%Z.

Definition num (n : Z) : option Q := Some (inject_Z n).

Definition str (s : string) : option pyobj := Some (PStr s).

Ltac solve_nodup :=
  repeat (apply NoDup_cons; [simpl; intuition discriminate|]); apply NoDup_nil.

Ltac solve_aligned :=
  let c := fresh "c" in
  let s := fresh "s" in
  let H := fresh "H" in
  intros c s H; simpl in H;
  repeat (destruct H as [H|H]; [inversion H; reflexivity|]); destruct H.

(** ** The trend projector on short histories *)





(** ** The health score of a steady growth *)

(** Ten rows of revenue growing by 2 from 119: slope 2, mean 128, so the
    only feature is 1/64 with weight 1, and (composite + 1) * 50 is
    50.78125. *)
Definition steady_growth : DataFrame :=
  [("revenue"%string,
    NumCol (map num [119; 121; 123; 125; 127; 129; 131; 133; 135; 137]%Z))].

(** Python's [round]: to the nearest integer, halves to the even one. *)
Definition py_round (x : Q) : Z :=
  let f := Qfloor x in
  let r := x - inject_Z f in
  if Qgt_bool (1 # 2) r then f
  else if Qgt_bool r (1 # 2) then (f + 1)%Z
  else if Z.even f then f else (f + 1)%Z.

(** The score as the specification words it. *)
Definition rounded_score (features importances : list Q) : Z :=
  Z.max 0 (Z.min 100 (py_round ((composite features importances + 1) * 50))).

(** C2, counterexample.  The score of [steady_growth] is 50, the value that
    [int] cuts from 50.78125; rounding would give 51. *)
Lemma health_score_is_truncated :
  match predict_financial_health approx_sqrt steady_growth ["revenue"%string],
        health_features approx_sqrt steady_growth ["revenue"%string] with
  | Return h, Return (features, importances) =>
      health_score h = Some 50%Z
      /\ (composite features importances + 1) * 50 == 50.78125
      /\ rounded_score features importances = 51%Z
  | _, _ => False
  end.
Proof.
  vm_compute. repeat split.
Qed.

Definition steady_growth_features : list Q :=
  match health_features approx_sqrt steady_growth ["revenue"%string] with
  | Return (features, _) => features
  | Raise _ => []
  end.

Lemma health_score_formula_witness :
  (10 <= nrows steady_growth)%nat
  /\ health_features approx_sqrt steady_growth ["revenue"%string]
     = Return (steady_growth_features, [4 # 10])
  /\ steady_growth_features <> []
  /\ exists h score,
       predict_financial_health approx_sqrt steady_growth ["revenue"%string]
       = Return h
       /\ health_score h = Some score
       /\ score = Qfloor ((composite steady_growth_features [4 # 10] + 1) * 50).
Proof.
  assert (H1 : (10 <= nrows steady_growth)%nat) by (vm_compute; lia).
  assert (H2 : health_features approx_sqrt steady_growth ["revenue"%string]
               = Return (steady_growth_features, [4 # 10]))
    by (vm_compute; reflexivity).
  assert (H3 : steady_growth_features <> []) by (vm_compute; discriminate).
  split; [exact H1|]. split; [exact H2|]. split; [exact H3|].
  destruct (health_score_formula approx_sqrt steady_growth ["revenue"%string]
              steady_growth_features [4 # 10] H1 H2 H3)
    as (h & score & Hh & Hs & _ & _ & _ & _ & Hfloor & _).
  exists h, score. repeat split; assumption.
Defined.

(** ** A forecast with its band *)

(** Fifteen daily rows, revenue growing by 2 from 100. *)
Definition fifteen_days : DataFrame :=
  [("date"%string,
    DateCol (map day [19723; 19724; 19725; 19726; 19727; 19728; 19729; 19730;
                      19731; 19732; 19733; 19734; 19735; 19736; 19737]%Z));
   ("revenue"%string,
    NumCol (map num [100; 102; 104; 106; 108; 110; 112; 114; 116; 118; 120;
                     122; 124; 126; 128]%Z))].

Definition week_ahead : result (prediction_result * figure) :=
  predict_future_values approx_sqrt fifteen_days "date" "revenue" 7.

Definition week_ahead_result : prediction_result :=
  match week_ahead with
  | Return (res, _) => res
  | Raise _ =>
      {| average_prediction := None; percent_change := None;
         trend_description := Stable; confidence_interval := 0 |}
  end.

Definition week_ahead_figure : figure :=
  match week_ahead with
  | Return (_, fig) => fig
  | Raise _ =>
      {| historical_dates := []; historical_values := [];
         predicted_dates := []; predicted_values := [];
         upper_bound := []; lower_bound := [] |}
  end.

(** The line through the history is exact, so the band has width 0 and the
    forecast continues the growth: 130, ..., 142, on average 136, which is
    6.25% above the last value. *)
Example week_ahead_forecast :
  week_ahead = Return (week_ahead_result, week_ahead_figure)
  /\ Forall2 Qeq (predicted_values week_ahead_figure)
                 [130; 132; 134; 136; 138; 140; 142]
  /\ confidence_interval week_ahead_result == 0
  /\ match percent_change week_ahead_result with
     | Some p => p == 6.25
     | None => False
     end
  /\ match trend_description week_ahead_result with
     | StrongUp p => p == 6.25
     | _ => False
     end.
Proof.
  split; [vm_compute; reflexivity|].
  split; [vm_compute; repeat constructor|].
  vm_compute. repeat split; reflexivity.
Qed.

(** ** Imputation of a small ledger *)

(** One numeric column with a quarter of its cells missing, one with three
    quarters, a category with a gap. *)
Definition ledger : DataFrame :=
  [("date"%string,
    ObjCol [str "2024-01-03"; str "2024-01-01"; str "2024-01-04"; str "2024-01-02"]);
   ("amount"%string, NumCol [num 10; None; num 20; num 30]);
   ("bonus"%string, NumCol [None; None; num 8; None]);
   ("category"%string, ObjCol [str "rent"; None; str "food"; str "rent"])].

Definition ledger_out : DataFrame :=
  match process_data iso_to_datetime (Some ledger) with
  | (Some out, _, _, _) => out
  | _ => []
  end.

(** The mean of 10, 20 and 30 fills [amount], 0 fills [bonus], Unknown fills
    [category], and the rows come out in date order. *)
Example ledger_processed :
  process_data iso_to_datetime (Some ledger)
  = (Some ledger_out, Some "date"%string,
     ["amount"; "bonus"]%string, ["category"%string])
  /\ lookup "date" ledger_out
     = Some (DateCol [day 19723; day 19724; day 19725; day 19726])
  /\ match lookup "amount" ledger_out with
     | Some (NumCol [Some a; Some b; Some c; Some d]) =>
         a == 20 /\ b == 30 /\ c == 10 /\ d == 20
     | _ => False
     end
  /\ lookup "bonus" ledger_out = Some (NumCol [num 0; num 0; num 0; num 8])
  /\ lookup "category" ledger_out
     = Some (ObjCol [str "Unknown"; str "rent"; str "rent"; str "food"]).
Proof.
  vm_compute. repeat split; reflexivity.
Qed.

Lemma imputer_policy_witness :
  NoDup (columns ledger)
  /\ (let df := fst (find_date_column iso_to_datetime ledger) in
      let date_column := snd (find_date_column iso_to_datetime ledger) in
      let numeric_columns := numeric_columns_of df date_column in
      let categorical_columns :=
        categorical_columns_of df date_column numeric_columns in
      let out := impute numeric_columns categorical_columns df in
      forall col, In col (numeric_columns ++ categorical_columns) ->
        exists s, lookup col out = Some s /\ any (isnull s) = false).
Proof.
  assert (H : NoDup (columns ledger)) by solve_nodup.
  split; [exact H|].
  exact (proj2 (proj2 (imputer_policy iso_to_datetime ledger H))).
Defined.

(** ** Validation and finance keywords *)

Definition revenue_only : DataFrame :=
  [("revenue"%string, NumCol [num 100; num 200])].

Definition named_but_undated : DataFrame :=
  [("revenue"%string, ObjCol [str "high"; str "low"]);
   ("cost"%string, ObjCol [str "low"; str "high"])].

(** C5, counterexample.  Columns named after finance keywords do not
    override a rejection: a single column named revenue is rejected for the
    number of columns, and two columns named revenue and cost that hold no
    date are rejected for the missing date column. *)
Lemma finance_keywords_do_not_override :
  found_financial_cols revenue_only = ["revenue"%string]
  /\ validate_financial_data iso_to_datetime (Some revenue_only)
     = (false, msg_columns)
  /\ found_financial_cols named_but_undated = ["revenue"; "cost"]%string
  /\ validate_financial_data iso_to_datetime (Some named_but_undated)
     = (false, msg_no_date).
Proof.
  vm_compute. repeat split; reflexivity.
Qed.

(** A dated table without any finance keyword in its labels is accepted. *)
Example dates_and_numbers_suffice :
  validate_financial_data iso_to_datetime
    (Some [("when"%string, ObjCol [str "2024-01-01"; str "2024-01-02"]);
           ("n"%string, NumCol [num 1; num 2])])
  = (true, msg_dates_and_numbers).
Proof. vm_compute. reflexivity. Qed.

(** ** Metric labels that clash *)

(** The change key of the column [Avg y] is the average key of the column
    [y Change %]. *)
Definition clash_zero : DataFrame :=
  [("Avg y"%string, NumCol [num 0; num 5]);
   ("y Change %"%string, NumCol [num 1; num 2])].

Definition clash_nonzero : DataFrame :=
  [("Avg y"%string, NumCol [num 1; num 3]);
   ("y Change %"%string, NumCol [num 1; num 2])].

(** C6, on two tables whose labels clash.  The first value of [Avg y] is
    zero and yet the metrics hold an entry under its change key: the
    average 1.5 of the column [y Change %], which line 59 writes under the
    same label.  With first value 1 and last value 3 the entry is again
    1.5, the change of 200% written by line 67 having been replaced. *)
Lemma change_key_can_clash :
  match calculate_financial_metrics approx_sqrt (Some clash_zero)
          ["Avg y"; "y Change %"]%string,
        calculate_financial_metrics approx_sqrt (Some clash_nonzero)
          ["Avg y"; "y Change %"]%string with
  | Return m0, Return m1 =>
      first_of (somes [num 0; num 5]) == 0
      /\ match Dict.get ("Avg y" ++ " Change %") m0 with
         | Some v => v == 1.5
         | None => False
         end
      /\ (last_of (somes [num 1; num 3]) - first_of (somes [num 1; num 3]))
         / first_of (somes [num 1; num 3]) * 100 == 200
      /\ match Dict.get ("Avg y" ++ " Change %") m1 with
         | Some v => v == 1.5
         | None => False
         end
  | _, _ => False
  end.
Proof.
  vm_compute. repeat split; reflexivity.
Qed.

(** A table whose labels do not clash. *)
Definition sales_book : DataFrame :=
  [("sales"%string, NumCol [num 50; None; num 60; num 80]);
   ("refunds"%string, NumCol [num 0; num 2; num 1; num 3])].

Definition sales_metrics : Dict.t Q :=
  match calculate_financial_metrics approx_sqrt (Some sales_book)
          ["sales"; "refunds"]%string with
  | Return m => m
  | Raise _ => []
  end.

(** Sales go from 50 to 80, a change of 60%; refunds start at zero and have
    no change entry. *)
Example sales_book_metrics :
  match Dict.get "sales Change %" sales_metrics with
  | Some v => v == 60
  | None => False
  end
  /\ Dict.get "refunds Change %" sales_metrics = None
  /\ Dict.has "Avg refunds" sales_metrics = true
  /\ Dict.has "refunds Volatility" sales_metrics = true.
Proof.
  vm_compute. repeat split; reflexivity.
Qed.

Lemma change_metric_guarded_witness :
  aligned sales_book
  /\ lookup "sales" sales_book = Some (NumCol [num 50; None; num 60; num 80])
  /\ In "sales"%string ["sales"; "refunds"]%string
  /\ (forall c, In c ["sales"; "refunds"]%string ->
        ("Avg " ++ c)%string <> ("sales" ++ " Change %")%string)
  /\ calculate_financial_metrics approx_sqrt (Some sales_book)
       ["sales"; "refunds"]%string = Return sales_metrics
  /\ (2 <= length (somes [num 50; None; num 60; num 80]))%nat
  /\ ~ first_of (somes [num 50; None; num 60; num 80]) == 0
  /\ in_int64 (last_of (somes [num 50; None; num 60; num 80])
               - first_of (somes [num 50; None; num 60; num 80])) = true
  /\ Dict.get ("sales" ++ " Change %") sales_metrics
     = Some ((last_of (somes [num 50; None; num 60; num 80])
              - first_of (somes [num 50; None; num 60; num 80]))
             / first_of (somes [num 50; None; num 60; num 80]) * 100)
  /\ Dict.get ("refunds" ++ " Change %") sales_metrics = None.
Proof.
  assert (H1 : aligned sales_book) by solve_aligned.
  assert (H2 : lookup "sales" sales_book
               = Some (NumCol [num 50; None; num 60; num 80])) by reflexivity.
  assert (H3 : In "sales"%string ["sales"; "refunds"]%string)
    by (simpl; auto).
  assert (H4 : forall c, In c ["sales"; "refunds"]%string ->
                 ("Avg " ++ c)%string <> ("sales" ++ " Change %")%string).
  { intros c [Hc|[Hc|[]]]; subst c; discriminate. }
  assert (H5 : calculate_financial_metrics approx_sqrt (Some sales_book)
                 ["sales"; "refunds"]%string = Return sales_metrics)
    by (vm_compute; reflexivity).
  assert (H6 : (2 <= length (somes [num 50; None; num 60; num 80]))%nat)
    by (vm_compute; lia).
  assert (H7 : ~ first_of (somes [num 50; None; num 60; num 80]) == 0)
    by (vm_compute; discriminate).
  assert (H8 : in_int64 (last_of (somes [num 50; None; num 60; num 80])
                         - first_of (somes [num 50; None; num 60; num 80])) = true)
    by (vm_compute; reflexivity).
  assert (R2 : lookup "refunds" sales_book
               = Some (NumCol [num 0; num 2; num 1; num 3])) by reflexivity.
  assert (R3 : In "refunds"%string ["sales"; "refunds"]%string)
    by (simpl; auto).
  assert (R4 : forall c, In c ["sales"; "refunds"]%string ->
                 ("Avg " ++ c)%string <> ("refunds" ++ " Change %")%string).
  { intros c [Hc|[Hc|[]]]; subst c; discriminate. }
  repeat (split; [assumption|]). split.
  - exact (proj2 (change_metric_guarded approx_sqrt sales_book
                    ["sales"; "refunds"]%string "sales"
                    [num 50; None; num 60; num 80] sales_metrics H1 H2 H3 H4 H5)
             H6 H7 H8).
  - apply (proj1 (change_metric_guarded approx_sqrt sales_book
                    ["sales"; "refunds"]%string "refunds"
                    [num 0; num 2; num 1; num 3] sales_metrics H1 R2 R3 R4 H5)).
    vm_compute. reflexivity.
Defined.

(** ** Filtering the ledger *)

Definition processed_ledger : DataFrame :=
  [("date"%string, DateCol [day 19723; day 19724; day 19725; day 19726]);
   ("amount"%string, NumCol [num 20; num 30; num 10; num 20]);
   ("category"%string, ObjCol [str "Unknown"; str "rent"; str "rent"; str "food"])].

(** The two middle days; a range without any row; the rent rows; a category
    that does not occur; a column that is absent. *)
Example ledger_filters :
  filter_data_by_date (Some processed_ledger) (Some "date"%string)
    (19724 * ns_per_day) (19725 * ns_per_day)
  = Some [("date"%string, DateCol [day 19724; day 19725]);
          ("amount"%string, NumCol [num 30; num 10]);
          ("category"%string, ObjCol [str "rent"; str "rent"])]
  /\ filter_data_by_date (Some processed_ledger) (Some "date"%string)
       (19800 * ns_per_day) (19900 * ns_per_day)
     = Some processed_ledger
  /\ filter_data_by_category (Some processed_ledger) (Some "category"%string)
       [str "rent"]
     = Some [("date"%string, DateCol [day 19724; day 19725]);
             ("amount"%string, NumCol [num 30; num 10]);
             ("category"%string, ObjCol [str "rent"; str "rent"])]
  /\ filter_data_by_category (Some processed_ledger) (Some "category"%string)
       [str "travel"]
     = Some processed_ledger
  /\ filter_data_by_date (Some processed_ledger) (Some "amount"%string) 0 1
     = Some processed_ledger
  /\ filter_data_by_category (Some processed_ledger) (Some "branch"%string)
       [str "rent"]
     = Some processed_ledger.
Proof.
  vm_compute. repeat split; reflexivity.
Qed.

Lemma filters_keep_matching_rows_witness :
  aligned processed_ledger
  /\ df_empty processed_ledger = false
  /\ filter_data_by_category (Some processed_ledger) (Some "category"%string)
       [str "rent"]
     = Some
         match lookup "category" processed_ledger with
         | None => processed_ledger
         | Some s =>
             match positions (fun i => selected_cell [str "rent"] (cell s i))
                     (nrows processed_ledger) with
             | [] => processed_ledger
             | idx => rows_at idx processed_ledger
             end
         end.
Proof.
  assert (H1 : aligned processed_ledger) by solve_aligned.
  assert (H2 : df_empty processed_ledger = false) by reflexivity.
  split; [exact H1|]. split; [exact H2|].
  exact (proj2 (filters_keep_matching_rows processed_ledger H1 H2)
           (Some "category"%string) [str "rent"]).
Defined.

(** ** Date order of the cleaned table *)

(** A dated column whose label is the empty string. *)
Definition unlabeled : DataFrame :=
  [(""%string, ObjCol [str "2024-01-02"; str "2024-01-01"]);
   ("amount"%string, NumCol [num 1; num 2])].

(** C10, on a table whose dates have the empty label.  The second pass
    names the column with the empty label as the date column; the test
    [if date_column:] of line 166 then reads the label as false, where line
    116 tests [is None], and the table is returned with its dates converted
    but in the order of the upload, the later date first. *)
Lemma empty_label_is_not_sorted :
  process_data iso_to_datetime (Some unlabeled)
  = (Some [(""%string, DateCol [day 19724; day 19723]);
           ("amount"%string, NumCol [num 1; num 2])],
     Some ""%string, ["amount"%string], [])
  /\ ~ StronglySorted date_le [day 19724; day 19723].
Proof.
  split; [vm_compute; reflexivity|].
  intros H. inversion H as [|? ? _ Hall]. inversion Hall as [|? ? Hle _].
  vm_compute in Hle. discriminate.
Qed.

(** ** The date search on small tables *)

(** [date] has priority over [day] whatever the order of the columns; a
    column named after an indicator that does not parse is skipped; without
    any such column the first column that parses is taken. *)
Example date_search_priority :
  snd (find_date_column iso_to_datetime
         [("day"%string, ObjCol [str "2024-01-01"]);
          ("Order Date"%string, ObjCol [str "2024-02-01"])])
  = Some "Order Date"%string
  /\ snd (find_date_column iso_to_datetime
            [("period"%string, ObjCol [str "Q1"]);
             ("booked"%string, ObjCol [str "2024-02-01"]);
             ("year"%string, ObjCol [str "2024-03-01"])])
     = Some "year"%string
  /\ snd (find_date_column iso_to_datetime
            [("label"%string, ObjCol [str "a"]);
             ("booked"%string, ObjCol [str "2024-02-01"]);
             ("amount"%string, NumCol [num 7])])
     = Some "booked"%string
  /\ snd (find_date_column iso_to_datetime
            [("label"%string, ObjCol [str "a"]);
             ("note"%string, ObjCol [str "b"])])
     = None.
Proof.
  vm_compute. repeat split; reflexivity.
Qed.

(** ** A flat business *)

(** Ten rows of constant revenue and expense: every trend is zero, the
    composite is 0 and the score 50. *)
Example flat_business_is_moderate :
  match predict_financial_health approx_sqrt
          [("revenue"%string, NumCol (repeat (num 100) 10));
           ("expense"%string, NumCol (repeat (num 50) 10))]
          ["revenue"; "expense"]%string with
  | Return h =>
      health_score h = Some 50%Z
      /\ description h = "Moderate financial health with mixed indicators"%string
  | Raise _ => False
  end.
Proof.
  vm_compute. repeat split; reflexivity.
Qed.

(** Five rows are too few for the scorer, which returns no score. *)
Example five_rows_have_no_score :
  predict_financial_health approx_sqrt
    [("revenue"%string, NumCol (repeat (num 100) 5))] ["revenue"%string]
  = Return {| health_score := None;
              description := "Not enough data for financial health prediction";
              feature_contributions := [] |}.
Proof. reflexivity. Qed.


(** * Accounts *)

Module AuthFacts.
Import Auth.

Section Accounts.

Variable hash_password : string -> string.

Lemma existsb_eqb_false {A : Type} (f : A -> string) (x : string) (l : list A) :
  existsb (fun a => String.eqb (f a) x) l = false <-> ~ In x (map f l).
Proof.
  induction l as [|a l IH]; simpl; [tauto|].
  rewrite orb_false_iff, IH, String.eqb_neq. tauto.
Qed.

Lemma find_app_new {A : Type} (p : A -> bool) (l : list A) (a : A) :
  find p l = None -> find p (l ++ [a]) = if p a then Some a else None.
Proof.
  intros H. rewrite find_app, H. reflexivity.
Qed.

Lemma find_none_by_name (pw_ok : user -> bool) (name : string) (rows : list user) :
  ~ In name (map username rows) ->
  find (fun u => String.eqb (username u) name && pw_ok u) rows = None.
Proof.
  induction rows as [|u rows IH]; simpl; intros H; [reflexivity|].
  destruct (String.eqb (username u) name) eqn:E.
  - apply String.eqb_eq in E. tauto.
  - simpl. apply IH. tauto.
Qed.

(** What a call of [register_user] does, case by case. *)
Lemma register_cases (db : database) (name mail pw : string) :
  let rows := init_db db in
  let fresh := ~ In name (map username rows) /\ ~ In mail (map email rows)
               /\ (6 <= String.length pw)%nat in
  (fresh /\
   register_user hash_password db name mail pw
   = (Some (rows ++ [{| user_id := next_id rows; username := name;
                        password := hash_password pw; email := mail |}]),
      (true, msg_registered)))
  \/ (~ fresh /\
      exists msg, register_user hash_password db name mail pw
                  = (Some rows, (false, msg))).
Proof.
  intros rows fresh. unfold register_user. fold rows.
  destruct (existsb (fun u => String.eqb (username u) name) rows) eqn:E1.
  { right. split; [|eauto]. intros (H & _).
    apply existsb_eqb_false in H. congruence. }
  destruct (existsb (fun u => String.eqb (email u) mail) rows) eqn:E2.
  { right. split; [|eauto]. intros (_ & H & _).
    apply existsb_eqb_false in H. congruence. }
  destruct (String.length pw <? 6)%nat eqn:E3.
  { right. split; [|eauto]. intros (_ & _ & H). apply Nat.ltb_lt in E3. lia. }
  left. split; [|reflexivity]. apply Nat.ltb_ge in E3.
  apply existsb_eqb_false in E1. apply existsb_eqb_false in E2.
  unfold fresh. repeat split; assumption.
Qed.

(** X1.  A registration succeeds exactly when the username and the email are new
    and the password has at least 6 characters; it then appends one row,
    which holds the hash of the password; a registration that fails leaves
    the rows as they were. *)
Theorem registration_outcome (db : database) (name mail pw : string) :
  let rows := init_db db in
  let after := register_user hash_password db name mail pw in
  (fst (snd after) = true <->
     ~ In name (map username rows) /\ ~ In mail (map email rows)
     /\ (6 <= String.length pw)%nat)
  /\ (fst (snd after) = true ->
        init_db (fst after)
        = rows ++ [{| user_id := next_id rows; username := name;
                      password := hash_password pw; email := mail |}])
  /\ (fst (snd after) = false -> init_db (fst after) = rows).
Proof.
  intros rows after. unfold after.
  destruct (register_cases db name mail pw) as [[Hf E]|[Hf [msg E]]];
    fold rows in E; rewrite E; cbn [fst snd init_db].
  - split; [split; [intros _; exact Hf | reflexivity]|].
    split; [reflexivity | discriminate].
  - split; [split; [discriminate | intros H; elim (Hf H)]|].
    split; [discriminate | reflexivity].
Qed.

(** X2.  After a successful registration the same username and password log in,
    and both [login_user] and [get_user_data] hand out the id, username and
    email that were stored. *)
Theorem register_then_login (db : database) (name mail pw : string) :
  fst (snd (register_user hash_password db name mail pw)) = true ->
  let db' := fst (register_user hash_password db name mail pw) in
  let data := {| data_id := next_id (init_db db); data_username := name;
                 data_email := mail |} in
  login_user hash_password db' name pw = (db', (true, msg_login_ok, Some data))
  /\ get_user_data db' name = (db', Some data).
Proof.
  intros Hok.
  destruct (register_cases db name mail pw) as [[Hf E]|[Hf [msg E]]];
    rewrite E in *; [|discriminate].
  cbn [fst snd]. destruct Hf as (Hname & _).
  unfold login_user, get_user_data. cbn [init_db].
  rewrite find_app_new by (now apply find_none_by_name).
  rewrite (find_app_new (fun u => String.eqb (username u) name)).
  - cbn [username password]. rewrite !String.eqb_refl. split; reflexivity.
  - pose proof (find_none_by_name (fun _ => true) name (init_db db) Hname) as H.
    erewrite find_ext_in; [exact H|]. intros u _. cbv beta.
    now rewrite andb_true_r.
Qed.

(** X3.  After a successful registration, a password with another hash does not
    log in. *)
Theorem wrong_password_rejected (db : database) (name mail pw other : string) :
  fst (snd (register_user hash_password db name mail pw)) = true ->
  hash_password other <> hash_password pw ->
  let db' := fst (register_user hash_password db name mail pw) in
  login_user hash_password db' name other = (db', (false, msg_login_failed, None)).
Proof.
  intros Hok Hhash.
  destruct (register_cases db name mail pw) as [[Hf E]|[Hf [msg E]]];
    rewrite E in *; [|discriminate].
  cbn [fst snd]. destruct Hf as (Hname & _).
  unfold login_user. cbn [init_db].
  rewrite find_app_new by (now apply find_none_by_name).
  cbn [username password]. rewrite String.eqb_refl.
  assert (Hne : String.eqb (hash_password pw) (hash_password other) = false).
  { apply String.eqb_neq. congruence. }
  now rewrite Hne.
Qed.

(** X4.  A login that succeeds keeps succeeding, with the same data, after any
    registration. *)
Theorem registration_keeps_logins (db : database) (name pw : string)
    (data : user_data) (name2 mail2 pw2 : string) :
  snd (login_user hash_password db name pw) = (true, msg_login_ok, Some data) ->
  snd (login_user hash_password
         (fst (register_user hash_password db name2 mail2 pw2)) name pw)
  = (true, msg_login_ok, Some data).
Proof.
  unfold login_user. intros H.
  destruct (find _ (init_db db)) as [u|] eqn:Ef; [|discriminate].
  destruct (register_cases db name2 mail2 pw2) as [[_ E]|[_ [msg E]]];
    rewrite E; cbn [fst init_db].
  - rewrite find_app, Ef. exact H.
  - rewrite Ef. exact H.
Qed.

(** Usernames, emails and ids are pairwise different. *)
Definition consistent (rows : list user) : Prop :=
  NoDup (map username rows) /\ NoDup (map email rows) /\ NoDup (map user_id rows).

Lemma next_id_above (rows : list user) (u : user) :
  In u rows -> (user_id u < next_id rows)%Z.
Proof.
  unfold next_id. induction rows as [|r rows IH]; simpl; intros H; [tauto|].
  destruct H as [H|H]; [subst; lia|]. specialize (IH H). lia.
Qed.

Lemma NoDup_snoc {A : Type} (l : list A) (a : A) :
  NoDup l -> ~ In a l -> NoDup (l ++ [a]).
Proof.
  intros Hl Ha. induction Hl as [|x l Hx Hl IH]; simpl.
  - constructor; [tauto | constructor].
  - constructor.
    + intros Hin. apply in_app_or in Hin. destruct Hin as [Hin|[Hin|[]]];
        [tauto|]. subst. apply Ha. now left.
    + apply IH. intros Hin. apply Ha. now right.
Qed.

(** X5.  Registration keeps the usernames, the emails and the ids of the table
    pairwise different. *)
Theorem registration_keeps_consistency (db : database) (name mail pw : string) :
  consistent (init_db db) ->
  consistent (init_db (fst (register_user hash_password db name mail pw))).
Proof.
  intros (Hn & He & Hi).
  destruct (register_cases db name mail pw) as [[Hf E]|[Hf [msg E]]];
    rewrite E; cbn [fst init_db]; [|repeat split; assumption].
  destruct Hf as (Hname & Hmail & _).
  unfold consistent. rewrite !map_app. cbn [map username email user_id].
  repeat split; apply NoDup_snoc; try assumption.
  intros Hin. apply in_map_iff in Hin. destruct Hin as [u [Hu Hin]].
  apply next_id_above in Hin. lia.
Qed.

End Accounts.

(** A concrete stand-in for the hash, for the examples. *)
Definition tagged (pw : string) : string := ("sha256:" ++ pw)%string.

Lemma registration_keeps_consistency_witness :
  consistent (init_db None)
  /\ consistent
       (init_db (fst (register_user tagged None "ada" "ada@example.org" "secret1"))).
Proof.
  assert (H : consistent (init_db None)).
  { repeat split; constructor. }
  split; [exact H|].
  exact (registration_keeps_consistency tagged None "ada" "ada@example.org"
           "secret1" H).
Defined.

Definition one_user : database :=
  fst (register_user tagged None "ada" "ada@example.org" "secret1").

Lemma register_then_login_witness :
  fst (snd (register_user tagged None "ada" "ada@example.org" "secret1")) = true
  /\ login_user tagged one_user "ada" "secret1"
     = (one_user, (true, msg_login_ok,
                   Some {| data_id := 1; data_username := "ada";
                           data_email := "ada@example.org" |})).
Proof.
  assert (H : fst (snd (register_user tagged None "ada" "ada@example.org"
                          "secret1")) = true) by reflexivity.
  split; [exact H|].
  exact (proj1 (register_then_login tagged None "ada" "ada@example.org"
                  "secret1" H)).
Defined.

Lemma wrong_password_rejected_witness :
  fst (snd (register_user tagged None "ada" "ada@example.org" "secret1")) = true
  /\ tagged "secret2" <> tagged "secret1"
  /\ login_user tagged one_user "ada" "secret2"
     = (one_user, (false, msg_login_failed, None)).
Proof.
  assert (H1 : fst (snd (register_user tagged None "ada" "ada@example.org"
                           "secret1")) = true) by reflexivity.
  assert (H2 : tagged "secret2" <> tagged "secret1") by discriminate.
  split; [exact H1|]. split; [exact H2|].
  exact (wrong_password_rejected tagged None "ada" "ada@example.org"
           "secret1" "secret2" H1 H2).
Defined.

Lemma registration_keeps_logins_witness :
  snd (login_user tagged one_user "ada" "secret1")
  = (true, msg_login_ok,
     Some {| data_id := 1; data_username := "ada";
             data_email := "ada@example.org" |})
  /\ snd (login_user tagged
            (fst (register_user tagged one_user "bob" "bob@example.org" "hunter22"))
            "ada" "secret1")
     = (true, msg_login_ok,
        Some {| data_id := 1; data_username := "ada";
                data_email := "ada@example.org" |}).
Proof.
  assert (H : snd (login_user tagged one_user "ada" "secret1")
              = (true, msg_login_ok,
                 Some {| data_id := 1; data_username := "ada";
                         data_email := "ada@example.org" |})) by reflexivity.
  split; [exact H|].
  exact (registration_keeps_logins tagged one_user "ada" "secret1" _
           "bob" "bob@example.org" "hunter22" H).
Defined.

End AuthFacts.


(** * Trend analysis and the summary report *)

Module TrendFacts.
Import Trends.

Section Analysis.

Variable np_sqrt : Q -> Q.

Definition trend_labels : list string :=
  ["Unknown"; "Increasing"; "Slightly Increasing"; "Decreasing";
   "Slightly Decreasing"; "Stable"]%string.

Lemma trend_of_change_label (change_pct : Q) :
  In (fst (trend_of_change change_pct)) trend_labels.
Proof.
  unfold trend_of_change, trend_labels.
  repeat match goal with |- context [if ?b then _ else _] => destruct b end;
    simpl; tauto.
Qed.

(** The dictionary returned has the three keys of lines 190-194 and no
    other. *)
Lemma analyze_trends_shape (data : DataFrame) (dc vc : string) (r : Dict.t pyval) :
  analyze_trends np_sqrt data dc vc = Return r ->
  exists label text vol pct,
    r = [("trend"%string, VStr label);
         ("description"%string, VDescription text vol);
         ("change_pct"%string, VNum pct)]
    /\ In label trend_labels.
Proof.
  unfold analyze_trends.
  destruct (sort_values dc data) as [sorted|e]; [|discriminate]. cbn [bind].
  destruct (getitem vc sorted) as [values|e]; [|discriminate]. cbn [bind].
  destruct (length (somes (to_object values)) <? 2)%nat.
  - intros E. inversion E. do 4 eexists. split; [reflexivity|].
    unfold trend_labels. simpl. tauto.
  - destruct (all_some _) as [cells|]; [|discriminate].
    match goal with |- context [trend_of_change ?c] =>
      pose proof (trend_of_change_label c) as Hl;
      destruct (trend_of_change c) as [label text] end.
    intros E. inversion E. do 4 eexists. split; [reflexivity | exact Hl].
Qed.

(** X6.  The time series part of the summary report never shows a computed
    figure: [analyze_trends] returns the keys trend, description and
    change_pct, and the report reads the keys average, volatility and
    change_rate, so each of these lines shows the default 0, whatever the
    table; the trend line shows one of the six labels. *)
Theorem report_figures_are_defaults (data : DataFrame) (date_column : string)
    (numeric_columns : list string) (label : string) (v : pyval) :
  In (Shown label v) (time_series_metrics np_sqrt data date_column numeric_columns) ->
  (label = "Trend"%string /\ exists s, v = VStr s /\ In s trend_labels)
  \/ (In label ["Average"; "Volatility"; "Change rate"]%string /\ v = VNum 0).
Proof.
  unfold time_series_metrics. intros Hin. apply in_flat_map in Hin.
  destruct Hin as [c [_ Hin]].
  destruct (analyze_trends np_sqrt data date_column c) as [r|e] eqn:E; [|destruct Hin].
  apply analyze_trends_shape in E.
  destruct E as (s & text & vol & pct & Hr & Hs). subst r.
  cbn in Hin.
  destruct Hin as [H|[H|[H|[H|[H|[]]]]]]; try discriminate; inversion H; subst.
  - left. split; [reflexivity|]. exists s. split; [reflexivity | exact Hs].
  - right. split; [simpl; tauto | reflexivity].
  - right. split; [simpl; tauto | reflexivity].
  - right. split; [simpl; tauto | reflexivity].
Qed.

Lemma somes_map_Some {A : Type} (l : list A) : somes (map Some l) = l.
Proof.
  unfold somes. induction l as [|a l IH]; simpl; [reflexivity | now rewrite IH].
Qed.

Lemma somes_option_map {A B : Type} (f : A -> B) (xs : list (option A)) :
  somes (map (option_map f) xs) = map f (somes xs).
Proof.
  unfold somes. induction xs as [|[a|] xs IH]; simpl; [reflexivity | | exact IH].
  now rewrite IH.
Qed.

Lemma all_some_numbers (qs : list Q) :
  all_some (map (fun o => as_num (Some o)) (map PNum qs)) = Some (map Some qs).
Proof.
  induction qs as [|q qs IH]; [reflexivity|].
  change (all_some (Some (Some q)
                    :: map (fun o => as_num (Some o)) (map PNum qs))
          = Some (Some q :: map Some qs)).
  cbn [all_some]. rewrite IH. reflexivity.
Qed.

(** [analyze_trends] on a numeric value column. *)
Lemma analyze_trends_numeric (data sorted : DataFrame) (dc vc : string)
    (xs : list (option Q)) :
  sort_values dc data = Return sorted ->
  lookup vc sorted = Some (NumCol xs) ->
  analyze_trends np_sqrt data dc vc
  = let series := somes xs in
    if (length series <? 2)%nat then
      Return [("trend"%string, VStr "Unknown");
              ("description"%string, VDescription NotEnoughPoints None);
              ("change_pct"%string, VNum 0)]
    else
      let change_pct :=
        if nonzero (first_of series)
        then (last_of series - first_of series) / first_of series * 100 else 0 in
      Return [("trend"%string, VStr (fst (trend_of_change change_pct)));
              ("description"%string,
               VDescription (snd (trend_of_change change_pct))
                 (volatility_text np_sqrt series));
              ("change_pct"%string, VNum change_pct)].
Proof.
  intros Hs Hl. unfold analyze_trends, getitem. rewrite Hs. cbn [bind].
  rewrite Hl. cbn [bind to_object]. rewrite somes_option_map, length_map.
  cbv zeta. destruct (length (somes xs) <? 2)%nat; [reflexivity|].
  rewrite all_some_numbers, somes_map_Some.
  destruct (trend_of_change _); reflexivity.
Qed.

Lemma trend_of_change_stable (change_pct : Q) :
  fst (trend_of_change change_pct) = "Stable"%string <-> change_pct == 0.
Proof.
  unfold trend_of_change, Qgt_bool.
  destruct (Qle_bool change_pct 5) eqn:E5; cbn [negb].
  2:{ split; [discriminate|]. intros H. rewrite H in E5. discriminate. }
  destruct (Qle_bool change_pct 0) eqn:E0; cbn [negb].
  2:{ split; [discriminate|]. intros H. rewrite H in E0. discriminate. }
  destruct (Qle_bool (-5) change_pct) eqn:E5'; cbn [negb].
  2:{ split; [discriminate|]. intros H. rewrite H in E5'. discriminate. }
  destruct (Qle_bool 0 change_pct) eqn:E0'; cbn [negb fst].
  2:{ split; [discriminate|]. intros H. rewrite H in E0'. discriminate. }
  apply Qle_bool_iff in E0, E0'. split; [intros _ | reflexivity].
  now apply Qle_antisym.
Qed.

(** X7.  On a numeric column with at least two cells present the label is
    Stable exactly when the first cell present, in date order, is zero or
    equals the last one: a series that starts at zero is reported as stable
    with a change of 0 percent, whatever follows. *)
Theorem stable_when_start_is_zero (data sorted : DataFrame) (dc vc : string)
    (xs : list (option Q)) :
  sort_values dc data = Return sorted ->
  lookup vc sorted = Some (NumCol xs) ->
  (2 <= length (somes xs))%nat ->
  exists r, analyze_trends np_sqrt data dc vc = Return r
    /\ (Dict.get "trend" r = Some (VStr "Stable")
        <-> first_of (somes xs) == 0 \/ last_of (somes xs) == first_of (somes xs))
    /\ (first_of (somes xs) == 0 -> Dict.get "change_pct" r = Some (VNum 0)).
Proof.
  intros Hs Hl Hlen. rewrite (analyze_trends_numeric _ _ _ _ _ Hs Hl). cbv zeta.
  assert (E : (length (somes xs) <? 2)%nat = false) by (apply Nat.ltb_ge; lia).
  rewrite E. eexists. split; [reflexivity|].
  set (f := first_of (somes xs)). set (l := last_of (somes xs)).
  cbn [Dict.get String.eqb Ascii.eqb Bool.eqb].
  unfold nonzero. destruct (Qeq_bool f 0) eqn:Ef; cbn [negb].
  - apply Qeq_bool_iff in Ef. split; [|reflexivity].
    split; [intros _; now left | reflexivity].
  - apply Qeq_bool_neq in Ef. split; [|intros H; contradiction].
    split.
    + intros H. right. injection H as H.
      apply trend_of_change_stable in H.
      assert (Hd : (l - f) / f == 0).
      { destruct (Qmult_integral _ _ H) as [H1|H1]; [exact H1 | discriminate]. }
      assert (Hn : l - f == 0).
      { rewrite <- (Qmult_div_r (l - f) f Ef), Hd. ring. }
      setoid_replace l with ((l - f) + f) by ring. rewrite Hn. ring.
    + intros [H|H]; [contradiction|].
      assert (Hc : (l - f) / f * 100 == 0).
      { rewrite H. unfold Qdiv. ring. }
      apply trend_of_change_stable in Hc. now rewrite Hc.
Qed.

End Analysis.

(** A cash book out of date order: the balance starts at zero, the fees go
    from 10 to 11 with a gap. *)
Definition cash_book : DataFrame :=
  [("date"%string, DateCol [day 19724; day 19723; day 19725; day 19726]);
   ("balance"%string, NumCol [num 40; num 0; num 90; num 150]);
   ("fees"%string, NumCol [num 12; num 10; None; num 11])].

Definition cash_book_by_date : DataFrame :=
  [("date"%string, DateCol [day 19723; day 19724; day 19725; day 19726]);
   ("balance"%string, NumCol [num 0; num 40; num 90; num 150]);
   ("fees"%string, NumCol [num 10; num 12; None; num 11])].

Definition cash_report : list report_line :=
  time_series_metrics approx_sqrt cash_book "date" ["balance"; "fees"]%string.

(** The fees rise by 10 percent and the report shows a change rate of 0. *)
Example cash_book_report :
  match analyze_trends approx_sqrt cash_book "date" "fees" with
  | Return r =>
      Dict.get "trend" r = Some (VStr "Increasing")
      /\ match Dict.get "change_pct" r with
         | Some (VNum pct) => pct == 10
         | _ => False
         end
  | Raise _ => False
  end
  /\ nth 5 cash_report (Title "") = Title "fees"
  /\ nth 6 cash_report (Title "") = Shown "Trend" (VStr "Increasing")
  /\ nth 9 cash_report (Title "") = Shown "Change rate" (VNum 0).
Proof.
  vm_compute. repeat split; reflexivity.
Qed.

Lemma report_figures_are_defaults_witness :
  In (Shown "Change rate" (VNum 0)) cash_report
  /\ ((("Change rate" = "Trend")%string
       /\ exists s, VNum 0 = VStr s /\ In s trend_labels)
      \/ (In "Change rate"%string ["Average"; "Volatility"; "Change rate"]%string
          /\ VNum 0 = VNum 0)).
Proof.
  assert (H : In (Shown "Change rate" (VNum 0)) cash_report).
  { vm_compute. do 4 right. left. reflexivity. }
  split; [exact H|].
  exact (report_figures_are_defaults approx_sqrt cash_book "date"
           ["balance"; "fees"]%string "Change rate" (VNum 0) H).
Defined.

Lemma stable_when_start_is_zero_witness :
  sort_values "date" cash_book = Return cash_book_by_date
  /\ lookup "balance" cash_book_by_date
     = Some (NumCol [num 0; num 40; num 90; num 150])
  /\ (2 <= length (somes [num 0; num 40; num 90; num 150]))%nat
  /\ exists r,
       analyze_trends approx_sqrt cash_book "date" "balance" = Return r
       /\ Dict.get "trend" r = Some (VStr "Stable")
       /\ Dict.get "change_pct" r = Some (VNum 0).
Proof.
  assert (H1 : sort_values "date" cash_book = Return cash_book_by_date)
    by (vm_compute; reflexivity).
  assert (H2 : lookup "balance" cash_book_by_date
               = Some (NumCol [num 0; num 40; num 90; num 150])) by reflexivity.
  assert (H3 : (2 <= length (somes [num 0; num 40; num 90; num 150]))%nat)
    by (vm_compute; lia).
  repeat (split; [assumption|]).
  destruct (stable_when_start_is_zero approx_sqrt cash_book cash_book_by_date
              "date" "balance" _ H1 H2 H3) as (r & Hr & Hstable & Hzero).
  exists r. split; [exact Hr|].
  assert (Hf : first_of (somes [num 0; num 40; num 90; num 150]) == 0)
    by reflexivity.
  split; [apply Hstable; now left | now apply Hzero].
Defined.

End TrendFacts.

(** * The metrics engine beyond the percent change *)

Module MetricFacts.

Section Engine.

Variable np_sqrt : Q -> Q.

(** The stages of a run of [calculate_financial_metrics] that returns. *)
Lemma metrics_stages (df : DataFrame) (numeric_columns : list string)
    (m : Dict.t Q) :
  nrows df <> 0%nat -> numeric_columns <> [] ->
  calculate_financial_metrics np_sqrt (Some df) numeric_columns = Return m ->
  exists m1 m2 m3 m4 m5,
    default_metrics np_sqrt df numeric_columns [] = Return m1
    /\ keyword_metric ["revenue"; "income"; "sales"]%string "Total Revenue" qsum
         df numeric_columns m1 = Return m2
    /\ keyword_metric ["expense"; "cost"; "spend"]%string "Total Expenses" qsum
         df numeric_columns m2 = Return m3
    /\ keyword_metric ["asset"]%string "Total Assets" qmean
         df numeric_columns (profit_metrics m3) = Return m4
    /\ keyword_metric ["liab"; "debt"]%string "Total Liabilities" qmean
         df numeric_columns m4 = Return m5
    /\ roi_metric df numeric_columns m5 = Return m.
Proof.
  intros Hrows Hcols Hrun. unfold calculate_financial_metrics in Hrun.
  destruct numeric_columns as [|c0 cols0] eqn:Ecols; [congruence|].
  rewrite <- Ecols in *. clear Ecols.
  apply Nat.eqb_neq in Hrows. rewrite Hrows in Hrun.
  destruct (default_metrics np_sqrt df numeric_columns []) as [m1|];
    [|discriminate]. cbn [bind] in Hrun.
  destruct (keyword_metric _ "Total Revenue" qsum df numeric_columns m1)
    as [m2|] eqn:E2; [|discriminate]. cbn [bind] in Hrun.
  destruct (keyword_metric _ "Total Expenses" qsum df numeric_columns m2)
    as [m3|] eqn:E3; [|discriminate]. cbn [bind] in Hrun.
  destruct (keyword_metric _ "Total Assets" qmean df numeric_columns
              (profit_metrics m3)) as [m4|] eqn:E4; [|discriminate].
  cbn [bind] in Hrun.
  destruct (keyword_metric _ "Total Liabilities" qmean df numeric_columns m4)
    as [m5|] eqn:E5; [|discriminate]. cbn [bind] in Hrun.
  exists m1, m2, m3, m4, m5. repeat split; assumption.
Qed.

(** A run on no table, no row or no numeric column returns the empty
    dictionary. *)
Lemma metrics_trivial (data : option DataFrame) (numeric_columns : list string)
    (m : Dict.t Q) :
  calculate_financial_metrics np_sqrt data numeric_columns = Return m ->
  m = []
  \/ exists df, data = Some df /\ nrows df <> 0%nat /\ numeric_columns <> [].
Proof.
  unfold calculate_financial_metrics.
  destruct data as [df|]; [|intros E; inversion E; now left].
  destruct numeric_columns as [|c cols]; [intros E; inversion E; now left|].
  destruct (nrows df =? 0)%nat eqn:E0; [intros E; inversion E; now left|].
  intros _. right. exists df. apply Nat.eqb_neq in E0.
  repeat split; [assumption | discriminate].
Qed.

Lemma suffix_key_differs (suffix col name : string) :
  ends_with suffix name = false -> (col ++ suffix)%string <> name.
Proof.
  intros H E. subst name. now rewrite ends_with_append in H.
Qed.

(** A name that is no average, change or volatility label. *)
Definition fixed_name (name : string) : Prop :=
  (forall c, ("Avg " ++ c)%string <> name)
  /\ ends_with " Change %" name = false
  /\ ends_with " Volatility" name = false.

Lemma column_metrics_fixed (name c : string) (col_data : list Q) (m : Dict.t Q) :
  fixed_name name ->
  Dict.get name (column_metrics np_sqrt c col_data m) = Dict.get name m.
Proof.
  intros (H1 & H2 & H3).
  assert (N1 : name <> ("Avg " ++ c)%string) by (intros E; apply (H1 c); auto).
  assert (N2 : name <> (c ++ " Change %")%string).
  { intros E. symmetry in E. revert E. now apply suffix_key_differs. }
  assert (N3 : name <> (c ++ " Volatility")%string).
  { intros E. symmetry in E. revert E. now apply suffix_key_differs. }
  unfold column_metrics.
  destruct (0 <? length col_data)%nat; [|reflexivity].
  destruct (1 <? length col_data)%nat;
    [destruct (nonzero (first_of col_data))|];
    destruct (2 <? length col_data)%nat;
    rewrite ?(dict_get_set_other _ _ _ _ N3), ?(dict_get_set_other _ _ _ _ N2),
            ?(dict_get_set_other _ _ _ _ N1);
    reflexivity.
Qed.

Lemma default_metrics_fixed (name : string) (df : DataFrame) (cols : list string)
    (m m' : Dict.t Q) :
  fixed_name name ->
  default_metrics np_sqrt df cols m = Return m' ->
  Dict.get name m' = Dict.get name m.
Proof.
  intros Hn. revert m. induction cols as [|c rest IH]; intros m Hrun.
  - simpl in Hrun. now inversion Hrun.
  - simpl in Hrun. destruct (numeric_dropna c df) as [d|e]; [|discriminate].
    simpl in Hrun. rewrite (IH _ Hrun). now apply column_metrics_fixed.
Qed.

Lemma keyword_metric_other (keywords : list string) (name name' : string)
    (aggregate : list Q -> Q) (df : DataFrame) (cols : list string)
    (m m' : Dict.t Q) :
  name' <> name ->
  keyword_metric keywords name aggregate df cols m = Return m' ->
  Dict.get name' m' = Dict.get name' m.
Proof.
  intros Hne. unfold keyword_metric.
  destruct (columns_named keywords cols) as [|c rest].
  - intros E. now inversion E.
  - destruct (numeric_dropna c df) as [d|e]; [|discriminate]. simpl.
    intros E. inversion E.
    destruct (0 <? length d)%nat; [|reflexivity].
    now apply dict_get_set_other.
Qed.

Lemma roi_metric_other (name : string) (df : DataFrame) (cols : list string)
    (m m' : Dict.t Q) :
  name <> "ROI %"%string ->
  roi_metric df cols m = Return m' ->
  Dict.get name m' = Dict.get name m.
Proof.
  intros Hne. unfold roi_metric.
  destruct (columns_named ["invest"%string] cols) as [|ic irest];
    [intros E; now inversion E|].
  destruct (columns_named ["return"%string; "roi"%string] cols) as [|rc rrest];
    [intros E; now inversion E|].
  destruct (numeric_dropna ic df) as [idata|e]; [|discriminate]. simpl.
  destruct (numeric_dropna rc df) as [rdata|e]; [|discriminate]. simpl.
  intros E. inversion E.
  destruct (_ && _); [|reflexivity].
  now apply dict_get_set_other.
Qed.

Lemma profit_metrics_other (name : string) (m : Dict.t Q) :
  name <> "Net Profit"%string -> name <> "Profit Margin %"%string ->
  Dict.get name (profit_metrics m) = Dict.get name m.
Proof.
  intros H1 H2. unfold profit_metrics.
  destruct (Dict.get "Total Revenue" m) as [revenue|]; [|reflexivity].
  destruct (Dict.get "Total Expenses" m) as [expenses|]; [|reflexivity].
  destruct (nonzero revenue);
    rewrite ?(dict_get_set_other _ _ _ _ H2), ?(dict_get_set_other _ _ _ _ H1);
    reflexivity.
Qed.

Ltac fixed :=
  repeat split; try reflexivity; intros c E; discriminate E.

(** X8.  In every dictionary that [calculate_financial_metrics] returns,
    the two totals and their difference lying in the int64 range when both
    totals are present (no sum and no difference of numpy has wrapped
    around), Net Profit is present exactly when Total Revenue and Total
    Expenses both are, and is their difference; Profit Margin % is present
    exactly when, besides, Total Revenue is not zero, and is the profit
    over the revenue times 100.  No column label can put another value
    under these names. *)
Theorem net_profit_identity (data : option DataFrame)
    (numeric_columns : list string) (m : Dict.t Q) :
  calculate_financial_metrics np_sqrt data numeric_columns = Return m ->
  match Dict.get "Total Revenue" m, Dict.get "Total Expenses" m with
  | Some revenue, Some expenses =>
      in_int64 revenue = true /\ in_int64 expenses = true
      /\ in_int64 (revenue - expenses) = true
  | _, _ => True
  end ->
  Dict.get "Net Profit" m
  = match Dict.get "Total Revenue" m, Dict.get "Total Expenses" m with
    | Some revenue, Some expenses => Some (revenue - expenses)
    | _, _ => None
    end
  /\ Dict.get "Profit Margin %" m
     = match Dict.get "Total Revenue" m, Dict.get "Total Expenses" m with
       | Some revenue, Some expenses =>
           if nonzero revenue
           then Some ((revenue - expenses) / revenue * 100) else None
       | _, _ => None
       end.
Proof.
  intros Hrun _.
  destruct (metrics_trivial _ _ _ Hrun) as [E|(df & Ed & Hrows & Hcols)];
    [subst m; split; reflexivity|].
  subst data.
  destruct (metrics_stages _ _ _ Hrows Hcols Hrun)
    as (m1 & m2 & m3 & m4 & m5 & S1 & S2 & S3 & S4 & S5 & S6).
  assert (After : forall name,
            name <> "Total Assets"%string -> name <> "Total Liabilities"%string ->
            name <> "ROI %"%string ->
            Dict.get name m = Dict.get name (profit_metrics m3)).
  { intros name N1 N2 N3.
    rewrite (roi_metric_other _ _ _ _ _ N3 S6).
    rewrite (keyword_metric_other _ _ _ _ _ _ _ _ N2 S5).
    now rewrite (keyword_metric_other _ _ _ _ _ _ _ _ N1 S4). }
  assert (Before : forall name,
            fixed_name name ->
            name <> "Total Revenue"%string -> name <> "Total Expenses"%string ->
            Dict.get name m3 = None).
  { intros name Hf N1 N2.
    rewrite (keyword_metric_other _ _ _ _ _ _ _ _ N2 S3).
    rewrite (keyword_metric_other _ _ _ _ _ _ _ _ N1 S2).
    now rewrite (default_metrics_fixed _ _ _ _ _ Hf S1). }
  rewrite !After by discriminate.
  rewrite (profit_metrics_other "Total Revenue") by discriminate.
  rewrite (profit_metrics_other "Total Expenses") by discriminate.
  assert (B1 : Dict.get "Net Profit" m3 = None)
    by (apply Before; [fixed | discriminate | discriminate]).
  assert (B2 : Dict.get "Profit Margin %" m3 = None)
    by (apply Before; [fixed | discriminate | discriminate]).
  unfold profit_metrics.
  destruct (Dict.get "Total Revenue" m3) as [revenue|]; [|now rewrite B1, B2].
  destruct (Dict.get "Total Expenses" m3) as [expenses|]; [|now rewrite B1, B2].
  destruct (nonzero revenue).
  - rewrite dict_get_set_same.
    rewrite (dict_get_set_other "Net Profit" "Profit Margin %") by discriminate.
    now rewrite dict_get_set_same.
  - rewrite dict_get_set_same.
    rewrite (dict_get_set_other "Profit Margin %" "Net Profit") by discriminate.
    now rewrite B2.
Qed.

Lemma default_metrics_app (df : DataFrame) (pre post : list string) (m : Dict.t Q) :
  default_metrics np_sqrt df (pre ++ post) m
  = (m' <- default_metrics np_sqrt df pre m ;; default_metrics np_sqrt df post m').
Proof.
  revert m. induction pre as [|c pre IH]; intros m; [reflexivity|].
  cbn [app default_metrics]. destruct (numeric_dropna c df) as [d|e]; [|reflexivity].
  cbn [bind]. apply IH.
Qed.

Lemma default_metrics_returns (df : DataFrame) (cols : list string) (m : Dict.t Q) :
  (forall c, In c cols -> exists xs, lookup c df = Some (NumCol xs)) ->
  exists m', default_metrics np_sqrt df cols m = Return m'.
Proof.
  revert m. induction cols as [|c cols IH]; intros m H; [now exists m|].
  destruct (H c (or_introl eq_refl)) as [xs Hl].
  cbn [default_metrics]. rewrite (numeric_dropna_lookup _ _ _ Hl). cbn [bind].
  apply IH. intros c' Hc'. apply H. now right.
Qed.

Lemma keyword_metric_returns (keywords : list string) (name : string)
    (aggregate : list Q -> Q) (df : DataFrame) (cols : list string)
    (m : Dict.t Q) :
  (forall c, In c cols -> exists xs, lookup c df = Some (NumCol xs)) ->
  exists m', keyword_metric keywords name aggregate df cols m = Return m'.
Proof.
  intros H. unfold keyword_metric.
  destruct (columns_named keywords cols) as [|c rest] eqn:E; [now eexists|].
  assert (Hin : In c cols).
  { assert (Hc : In c (columns_named keywords cols)) by (rewrite E; now left).
    unfold columns_named in Hc. now apply filter_In in Hc. }
  destruct (H c Hin) as [xs Hl]. rewrite (numeric_dropna_lookup _ _ _ Hl).
  cbn [bind]. now eexists.
Qed.

Lemma roi_metric_returns (df : DataFrame) (cols : list string) (m : Dict.t Q) :
  (forall c, In c cols -> exists xs, lookup c df = Some (NumCol xs)) ->
  exists m', roi_metric df cols m = Return m'.
Proof.
  intros H. unfold roi_metric.
  destruct (columns_named ["invest"%string] cols) as [|ic irest] eqn:Ei;
    [now eexists|].
  destruct (columns_named ["return"%string; "roi"%string] cols) as [|rc rrest] eqn:Er;
    [now eexists|].
  assert (Hic : In ic cols).
  { assert (Hc : In ic (columns_named ["invest"%string] cols))
      by (rewrite Ei; now left).
    unfold columns_named in Hc. now apply filter_In in Hc. }
  assert (Hrc : In rc cols).
  { assert (Hc : In rc (columns_named ["return"%string; "roi"%string] cols))
      by (rewrite Er; now left).
    unfold columns_named in Hc. now apply filter_In in Hc. }
  destruct (H ic Hic) as [xs Hx]. destruct (H rc Hrc) as [ys Hy].
  rewrite (numeric_dropna_lookup _ _ _ Hx), (numeric_dropna_lookup _ _ _ Hy).
  cbn [bind]. now eexists.
Qed.

Lemma metrics_return (df : DataFrame)
    (numeric_columns : list string) :
  (forall c, In c numeric_columns -> exists xs, lookup c df = Some (NumCol xs)) ->
  exists m,
    calculate_financial_metrics np_sqrt (Some df) numeric_columns = Return m.
Proof.
  intros Hnum. unfold calculate_financial_metrics.
  destruct numeric_columns as [|c0 cols0] eqn:Ecols; [now eexists|].
  rewrite <- Ecols in *. clear Ecols.
  destruct (nrows df =? 0)%nat; [now eexists|].
  destruct (default_metrics_returns df numeric_columns [] Hnum) as [m1 E1].
  rewrite E1. cbn [bind].
  destruct (keyword_metric_returns ["revenue"; "income"; "sales"]%string
              "Total Revenue" qsum df numeric_columns m1 Hnum) as [m2 E2].
  rewrite E2. cbn [bind].
  destruct (keyword_metric_returns ["expense"; "cost"; "spend"]%string
              "Total Expenses" qsum df numeric_columns m2 Hnum) as [m3 E3].
  rewrite E3. cbn [bind].
  destruct (keyword_metric_returns ["asset"]%string
              "Total Assets" qmean df numeric_columns (profit_metrics m3) Hnum)
    as [m4 E4].
  rewrite E4. cbn [bind].
  destruct (keyword_metric_returns ["liab"; "debt"]%string
              "Total Liabilities" qmean df numeric_columns m4 Hnum) as [m5 E5].
  rewrite E5. cbn [bind].
  apply roi_metric_returns. exact Hnum.
Qed.

(** X9.  When every listed column is a numeric column of the table, the
    metrics engine returns a dictionary: none of its divisions and none of
    its lookups can raise. *)
Theorem metrics_return_on_numeric_columns (df : DataFrame)
    (numeric_columns : list string) :
  (forall c, In c numeric_columns -> exists xs, lookup c df = Some (NumCol xs)) ->
  exists m,
    calculate_financial_metrics np_sqrt (Some df) numeric_columns = Return m.
Proof.
  intros Hnum. destruct (metrics_return df numeric_columns Hnum) as [m Hm].
  now exists m.
Qed.

(** X10.  On a table with rows, a listed column that the table does not
    have makes the engine raise [KeyError] with the label of the first such
    column, the listed columns before it being numeric; no partial
    dictionary is returned. *)
Theorem metrics_absent_column_raises (df : DataFrame) (before after : list string)
    (col : string) :
  nrows df <> 0%nat ->
  (forall c, In c before -> exists xs, lookup c df = Some (NumCol xs)) ->
  lookup col df = None ->
  calculate_financial_metrics np_sqrt (Some df) (before ++ col :: after)
  = Raise (KeyError col).
Proof.
  intros Hrows Hbefore Hl. unfold calculate_financial_metrics.
  destruct (before ++ col :: after) as [|c0 cols0] eqn:Ecols;
    [now destruct before|].
  rewrite <- Ecols. clear Ecols.
  apply Nat.eqb_neq in Hrows. rewrite Hrows.
  rewrite default_metrics_app.
  destruct (default_metrics_returns df before [] Hbefore) as [m1 E1].
  rewrite E1. cbn [bind default_metrics].
  unfold numeric_dropna, getitem. rewrite Hl. reflexivity.
Qed.

(** The change entry of the returned dictionary, on a table whose columns
    have equal length. *)
Lemma metrics_change_entry (df : DataFrame) (numeric_columns : list string)
    (col : string) (xs : list (option Q)) (m : Dict.t Q) :
  aligned df ->
  lookup col df = Some (NumCol xs) ->
  In col numeric_columns ->
  (forall c, In c numeric_columns ->
     ("Avg " ++ c)%string <> (col ++ " Change %")%string) ->
  calculate_financial_metrics np_sqrt (Some df) numeric_columns = Return m ->
  Dict.get (col ++ " Change %") m = change_entry (somes xs).
Proof.
  intros Hal Hl Hin Hfresh Hrun. fold (change_key col) in *.
  destruct (Nat.eq_dec (nrows df) 0) as [E0|E0].
  - unfold calculate_financial_metrics in Hrun.
    destruct numeric_columns; [destruct Hin|].
    rewrite E0 in Hrun. simpl in Hrun. inversion Hrun.
    destruct (lookup_In _ _ _ Hl) as [c Hc]. pose proof (Hal c _ Hc) as Hlen.
    simpl in Hlen. rewrite E0 in Hlen. destruct xs; [reflexivity | discriminate].
  - assert (Hcols : numeric_columns <> []) by (intros E; subst; destruct Hin).
    destruct (metrics_stages _ _ _ E0 Hcols Hrun)
      as (m1 & m2 & m3 & m4 & m5 & S1 & S2 & S3 & S4 & S5 & S6).
    rewrite (roi_metric_change _ _ _ _ _ S6).
    rewrite (keyword_metric_change _ "Total Liabilities" _ _ _ _ _ _ eq_refl S5).
    rewrite (keyword_metric_change _ "Total Assets" _ _ _ _ _ _ eq_refl S4).
    rewrite profit_metrics_change.
    rewrite (keyword_metric_change _ "Total Expenses" _ _ _ _ _ _ eq_refl S3).
    rewrite (keyword_metric_change _ "Total Revenue" _ _ _ _ _ _ eq_refl S2).
    rewrite (default_metrics_change _ _ _ _ _ _ _ Hl Hfresh S1).
    apply mem_In in Hin. rewrite Hin. simpl.
    now destruct (change_entry (somes xs)).
Qed.

(** X11.  On a table in date order whose dates are pairwise different (the
    sort that [analyze_trends] begins with then has one outcome only, the
    table as it stands) the two modules agree on the percent change of a
    numeric column: [analyze_trends] reports under change_pct the value
    that the metrics engine stores under the change label of the column,
    and 0 when the engine stores none (fewer than two cells present, or a
    first cell equal to zero). *)
Theorem change_pct_agrees_with_metrics (df : DataFrame) (date_column : string)
    (numeric_columns : list string) (col : string) (ts : list (option Z))
    (xs : list (option Q)) (m : Dict.t Q) :
  aligned df ->
  lookup date_column df = Some (DateCol ts) ->
  NoDup (somes ts) ->
  sort_values date_column df = Return df ->
  lookup col df = Some (NumCol xs) ->
  In col numeric_columns ->
  (forall c, In c numeric_columns ->
     ("Avg " ++ c)%string <> (col ++ " Change %")%string) ->
  calculate_financial_metrics np_sqrt (Some df) numeric_columns = Return m ->
  exists r,
    Trends.analyze_trends np_sqrt df date_column col = Return r
    /\ Dict.get "change_pct" r
       = Some (Trends.VNum match Dict.get (col ++ " Change %") m with
                           | Some v => v
                           | None => 0
                           end).
Proof.
  intros Hal _ _ Hs Hl Hin Hfresh Hrun.
  rewrite (metrics_change_entry _ _ _ _ _ Hal Hl Hin Hfresh Hrun).
  rewrite (TrendFacts.analyze_trends_numeric np_sqrt _ _ _ _ _ Hs Hl). cbv zeta.
  unfold change_entry.
  destruct (length (somes xs) <? 2)%nat eqn:E.
  - eexists. split; [reflexivity|].
    assert (E1 : (1 <? length (somes xs))%nat = false).
    { apply Nat.ltb_ge. apply Nat.ltb_lt in E. lia. }
    rewrite E1. reflexivity.
  - eexists. split; [reflexivity|].
    assert (E1 : (1 <? length (somes xs))%nat = true).
    { apply Nat.ltb_lt. apply Nat.ltb_ge in E. lia. }
    rewrite E1. cbn [andb].
    now destruct (nonzero (first_of (somes xs))).
Qed.

End Engine.

(** A shop with revenue and costs, in date order. *)
Definition shop : DataFrame :=
  [("date"%string, DateCol [day 19723; day 19724; day 19725; day 19726]);
   ("revenue"%string, NumCol [num 200; num 220; None; num 260]);
   ("cost"%string, NumCol [num 150; num 160; num 170; num 180])].

Definition shop_metrics : Dict.t Q :=
  match calculate_financial_metrics approx_sqrt (Some shop)
          ["revenue"; "cost"]%string with
  | Return m => m
  | Raise _ => []
  end.

(** Revenue 680 against costs 660. *)
Example shop_profit :
  match Dict.get "Total Revenue" shop_metrics,
        Dict.get "Total Expenses" shop_metrics,
        Dict.get "Net Profit" shop_metrics with
  | Some revenue, Some expenses, Some profit =>
      revenue == 680 /\ expenses == 660 /\ profit == 20
  | _, _, _ => False
  end.
Proof.
  vm_compute. repeat split; reflexivity.
Qed.

Lemma shop_runs :
  calculate_financial_metrics approx_sqrt (Some shop) ["revenue"; "cost"]%string
  = Return shop_metrics.
Proof. vm_compute. reflexivity. Qed.

Lemma net_profit_identity_witness :
  calculate_financial_metrics approx_sqrt (Some shop) ["revenue"; "cost"]%string
  = Return shop_metrics
  /\ match Dict.get "Total Revenue" shop_metrics,
           Dict.get "Total Expenses" shop_metrics with
     | Some revenue, Some expenses =>
         in_int64 revenue = true /\ in_int64 expenses = true
         /\ in_int64 (revenue - expenses) = true
     | _, _ => True
     end
  /\ Dict.get "Net Profit" shop_metrics
     = match Dict.get "Total Revenue" shop_metrics,
             Dict.get "Total Expenses" shop_metrics with
       | Some revenue, Some expenses => Some (revenue - expenses)
       | _, _ => None
       end.
Proof.
  assert (H : match Dict.get "Total Revenue" shop_metrics,
                    Dict.get "Total Expenses" shop_metrics with
              | Some revenue, Some expenses =>
                  in_int64 revenue = true /\ in_int64 expenses = true
                  /\ in_int64 (revenue - expenses) = true
              | _, _ => True
              end)
    by (vm_compute; repeat split; reflexivity).
  split; [exact shop_runs|]. split; [exact H|].
  exact (proj1 (net_profit_identity approx_sqrt (Some shop)
                  ["revenue"; "cost"]%string shop_metrics shop_runs H)).
Defined.

Lemma shop_columns_numeric (c : string) :
  In c ["revenue"; "cost"]%string -> exists xs, lookup c shop = Some (NumCol xs).
Proof.
  intros [H|[H|[]]]; subst c; eexists; reflexivity.
Qed.

Lemma metrics_return_on_numeric_columns_witness :
  (forall c, In c ["revenue"; "cost"]%string ->
     exists xs, lookup c shop = Some (NumCol xs))
  /\ exists m,
       calculate_financial_metrics approx_sqrt (Some shop)
         ["revenue"; "cost"]%string = Return m.
Proof.
  split; [exact shop_columns_numeric|].
  exact (metrics_return_on_numeric_columns approx_sqrt shop
           ["revenue"; "cost"]%string shop_columns_numeric).
Defined.

Lemma metrics_absent_column_raises_witness :
  nrows shop <> 0%nat
  /\ (forall c, In c ["revenue"%string] ->
        exists xs, lookup c shop = Some (NumCol xs))
  /\ lookup "profit" shop = None
  /\ calculate_financial_metrics approx_sqrt (Some shop)
       (["revenue"%string] ++ "profit"%string :: ["cost"%string])
     = Raise (KeyError "profit").
Proof.
  assert (H1 : nrows shop <> 0%nat) by discriminate.
  assert (H2 : forall c, In c ["revenue"%string] ->
                 exists xs, lookup c shop = Some (NumCol xs)).
  { intros c [H|[]]; subst c; eexists; reflexivity. }
  assert (H3 : lookup "profit" shop = None) by reflexivity.
  repeat (split; [assumption|]).
  exact (metrics_absent_column_raises approx_sqrt shop ["revenue"%string]
           ["cost"%string] "profit" H1 H2 H3).
Defined.

Lemma change_pct_agrees_with_metrics_witness :
  aligned shop
  /\ lookup "date" shop
     = Some (DateCol [day 19723; day 19724; day 19725; day 19726])
  /\ NoDup (somes [day 19723; day 19724; day 19725; day 19726])
  /\ sort_values "date" shop = Return shop
  /\ lookup "revenue" shop = Some (NumCol [num 200; num 220; None; num 260])
  /\ In "revenue"%string ["revenue"; "cost"]%string
  /\ (forall c, In c ["revenue"; "cost"]%string ->
        ("Avg " ++ c)%string <> ("revenue" ++ " Change %")%string)
  /\ calculate_financial_metrics approx_sqrt (Some shop)
       ["revenue"; "cost"]%string = Return shop_metrics
  /\ exists r,
       Trends.analyze_trends approx_sqrt shop "date" "revenue" = Return r
       /\ Dict.get "change_pct" r
          = Some (Trends.VNum
                    match Dict.get ("revenue" ++ " Change %") shop_metrics with
                    | Some v => v
                    | None => 0
                    end).
Proof.
  assert (H1 : aligned shop) by solve_aligned.
  assert (D1 : lookup "date" shop
               = Some (DateCol [day 19723; day 19724; day 19725; day 19726]))
    by reflexivity.
  assert (D2 : NoDup (somes [day 19723; day 19724; day 19725; day 19726])).
  { vm_compute. solve_nodup. }
  assert (H2 : sort_values "date" shop = Return shop) by (vm_compute; reflexivity).
  assert (H3 : lookup "revenue" shop
               = Some (NumCol [num 200; num 220; None; num 260])) by reflexivity.
  assert (H4 : In "revenue"%string ["revenue"; "cost"]%string) by (simpl; auto).
  assert (H5 : forall c, In c ["revenue"; "cost"]%string ->
                 ("Avg " ++ c)%string <> ("revenue" ++ " Change %")%string).
  { intros c [Hc|[Hc|[]]]; subst c; discriminate. }
  repeat (split; [assumption|]). split; [exact shop_runs|].
  exact (change_pct_agrees_with_metrics approx_sqrt shop "date"
           ["revenue"; "cost"]%string "revenue" _ _ shop_metrics
           H1 D1 D2 H2 H3 H4 H5 shop_runs).
Defined.

End MetricFacts.

(** * Sorting twice *)

Module SortFacts.

Section Keys.

Variable K : Type.
Variable leb : K -> K -> bool.
Hypothesis leb_total : forall x y, leb x y = false -> leb y x = true.

Lemma sort_keyed_of_sorted (l : list (option K * nat)) :
  Sorted (keyed_le K leb) l -> sort_keyed leb l = l.
Proof.
  induction 1 as [|x l Hs IH Hhd]; [reflexivity|].
  cbn [sort_keyed fold_right]. fold (sort_keyed leb l). rewrite IH.
  destruct Hhd as [|y r Hxy]; [reflexivity|].
  cbn [insert_key]. unfold keyed_le, key_le in Hxy. now rewrite Hxy.
Qed.

Lemma sorted_keys_of_pairs (l : list (option K * nat)) :
  Sorted (keyed_le K leb) l -> Sorted (key_le K leb) (map fst l).
Proof.
  induction 1 as [|x l Hs IH Hhd]; simpl; constructor; [assumption|].
  destruct Hhd; simpl; constructor. assumption.
Qed.

Lemma sorted_pairs_of_keys (ks : list (option K)) (idx : list nat) :
  Sorted (key_le K leb) ks -> Sorted (keyed_le K leb) (combine ks idx).
Proof.
  intros Hs. revert idx. induction Hs as [|k ks Hs IH Hhd]; intros idx.
  - constructor.
  - destruct idx as [|i idx]; [constructor|]. cbn [combine].
    constructor; [apply IH|].
    destruct Hhd as [|k' ks' Hk]; [constructor|].
    destruct idx as [|j idx]; constructor. exact Hk.
Qed.

Lemma map_snd_combine {A B : Type} (l : list A) (l' : list B) :
  length l = length l' -> map snd (combine l l') = l'.
Proof.
  revert l'. induction l as [|x l IH]; intros [|y l'] E; simpl in *;
    try discriminate; [reflexivity|]. f_equal. apply IH. lia.
Qed.

(** The positions that sort keys already in order are 0, 1, 2, ... *)
Lemma argsort_of_sorted (ks : list (option K)) :
  Sorted (key_le K leb) ks -> argsort leb ks = seq 0 (length ks).
Proof.
  intros Hs. unfold argsort.
  rewrite sort_keyed_of_sorted by now apply sorted_pairs_of_keys.
  apply map_snd_combine. now rewrite length_seq.
Qed.

Lemma argsort_twice (ks : list (option K)) :
  argsort leb (take (argsort leb ks) ks) = seq 0 (length ks).
Proof.
  rewrite argsort_of_sorted.
  - now rewrite length_take, length_argsort.
  - rewrite take_argsort. apply sorted_keys_of_pairs.
    now apply sort_keyed_sorted.
Qed.

End Keys.

Lemma take_option_map {A B : Type} (f : A -> B) (idx : list nat)
    (xs : list (option A)) :
  take idx (map (option_map f) xs) = map (option_map f) (take idx xs).
Proof.
  unfold take. rewrite map_map. apply map_ext. intros i.
  change (@None B) with (option_map f None). apply map_nth.
Qed.

Section Cells.

(** A reading of the cells of an object column as keys of one type. *)
Variable K : Type.
Variable as_key : option pyobj -> option (option K).
Variable cell_of : K -> pyobj.
Hypothesis as_key_inv : forall o k, as_key o = Some k -> o = option_map cell_of k.
Hypothesis as_key_cell : forall k, as_key (option_map cell_of k) = Some k.

Lemma all_keys_inv (xs : list (option pyobj)) (ks : list (option K)) :
  all_some (map as_key xs) = Some ks -> xs = map (option_map cell_of) ks.
Proof.
  revert ks. induction xs as [|x xs IH]; intros ks; cbn [map all_some].
  - intros E. now inversion E.
  - destruct (as_key x) as [k|] eqn:Ek; [|discriminate].
    destruct (all_some (map as_key xs)) as [ks'|]; [|discriminate].
    intros E. inversion E. cbn [map]. f_equal; [now apply as_key_inv | now apply IH].
Qed.

Lemma all_keys (ks : list (option K)) :
  all_some (map as_key (map (option_map cell_of) ks)) = Some ks.
Proof.
  induction ks as [|k ks IH]; [reflexivity|].
  cbn [map all_some]. now rewrite as_key_cell, IH.
Qed.

Lemma keys_take (idx : list nat) (xs : list (option pyobj)) (ks : list (option K)) :
  all_some (map as_key xs) = Some ks ->
  all_some (map as_key (take idx xs)) = Some (take idx ks)
  /\ length xs = length ks.
Proof.
  intros E. apply all_keys_inv in E. subst xs.
  rewrite take_option_map, all_keys, length_map. now split.
Qed.

End Cells.

Lemma all_some_None_inv {A : Type} (l : list (option A)) :
  all_some l = None -> In None l.
Proof.
  induction l as [|[x|] l IH]; simpl; intros H.
  - discriminate.
  - right. apply IH. now destruct (all_some l).
  - now left.
Qed.

Lemma no_keys_take {K : Type} (as_key : option pyobj -> option (option K))
    (idx : list nat) (xs : list (option pyobj)) :
  Permutation idx (seq 0 (length xs)) ->
  all_some (map as_key xs) = None ->
  all_some (map as_key (take idx xs)) = None.
Proof.
  intros Hp E. apply all_some_None. apply all_some_None_inv in E.
  eapply Permutation_in; [|exact E].
  apply Permutation_map, Permutation_sym. now apply take_perm.
Qed.

Lemma as_str_inv (o : option pyobj) (k : option string) :
  as_str o = Some k -> o = option_map PStr k.
Proof. destruct o as [[s|q|t]|]; simpl; intros E; now inversion E. Qed.

Lemma as_num_inv (o : option pyobj) (k : option Q) :
  as_num o = Some k -> o = option_map PNum k.
Proof. destruct o as [[s|q|t]|]; simpl; intros E; now inversion E. Qed.

Lemma as_time_inv (o : option pyobj) (k : option Z) :
  as_time o = Some k -> o = option_map PTime k.
Proof. destruct o as [[s|q|t]|]; simpl; intros E; now inversion E. Qed.

Lemma as_str_cell (k : option string) : as_str (option_map PStr k) = Some k.
Proof. now destruct k. Qed.

Lemma as_num_cell (k : option Q) : as_num (option_map PNum k) = Some k.
Proof. now destruct k. Qed.

Lemma as_time_cell (k : option Z) : as_time (option_map PTime k) = Some k.
Proof. now destruct k. Qed.

Lemma Qleb_total (x y : Q) : Qle_bool x y = false -> Qle_bool y x = true.
Proof.
  intros H. apply Qle_bool_iff. destruct (Qlt_le_dec y x) as [Hlt|Hle].
  - now apply Qlt_le_weak.
  - apply Qle_bool_iff in Hle. congruence.
Qed.

Lemma String_leb_total (x y : string) :
  String.leb x y = false -> String.leb y x = true.
Proof.
  intros H. destruct (String.leb_total x y); congruence.
Qed.

(** The rows of a column put in the order of its own keys are in order. *)
Lemma sort_positions_twice (s : series) (idx : list nat) :
  sort_positions s = Return idx ->
  sort_positions (reindex idx s) = Return (seq 0 (length idx)).
Proof.
  destruct s as [xs|xs|xs]; cbn [sort_positions reindex].
  - intros E. inversion E.
    now rewrite (argsort_twice _ _ Qleb_total), length_argsort.
  - destruct (all_some (map as_str xs)) as [ks|] eqn:Es.
    { intros E. inversion E. subst idx.
      destruct (keys_take _ _ _ as_str_inv as_str_cell
                  (argsort String.leb ks) _ _ Es) as [Et _].
      rewrite Et.
      now rewrite (argsort_twice _ _ String_leb_total), length_argsort. }
    destruct (all_some (map as_num xs)) as [ks|] eqn:En.
    { intros E. inversion E. subst idx.
      destruct (keys_take _ _ _ as_num_inv as_num_cell
                  (argsort Qle_bool ks) _ _ En) as [Et Hlen].
      rewrite Et, (no_keys_take as_str).
      - now rewrite (argsort_twice _ _ Qleb_total), length_argsort.
      - rewrite Hlen. apply argsort_perm.
      - exact Es. }
    destruct (all_some (map as_time xs)) as [ks|] eqn:Et0; [|discriminate].
    intros E. inversion E. subst idx.
    destruct (keys_take _ _ _ as_time_inv as_time_cell
                (argsort Z.leb ks) _ _ Et0) as [Et Hlen].
    rewrite Et, (no_keys_take as_str), (no_keys_take as_num).
    + now rewrite (argsort_twice _ _ Zleb_total), length_argsort.
    + rewrite Hlen. apply argsort_perm.
    + exact En.
    + rewrite Hlen. apply argsort_perm.
    + exact Es.
  - intros E. inversion E.
    now rewrite (argsort_twice _ _ Zleb_total), length_argsort.
Qed.

Lemma reindex_all (s : series) : reindex (seq 0 (series_len s)) s = s.
Proof. destruct s; simpl; now rewrite take_all. Qed.

(** A table sorted by a column is left as it is by sorting it again. *)
Lemma sort_values_twice (by_ : string) (df sorted : DataFrame) :
  sort_values by_ df = Return sorted -> sort_values by_ sorted = Return sorted.
Proof.
  unfold sort_values, getitem.
  destruct (lookup by_ df) as [s|] eqn:Hl; [|discriminate]. cbn [bind].
  destruct (sort_positions s) as [idx|] eqn:Hp; [|discriminate]. cbn [bind].
  intros E. inversion E. clear E.
  rewrite lookup_map_series, Hl. cbn [option_map bind].
  rewrite (sort_positions_twice _ _ Hp). cbn [bind].
  rewrite map_map. apply f_equal. apply map_ext. intros [c col].
  cbn [fst snd]. apply f_equal.
  rewrite <- (series_len_reindex idx col) at 1. apply reindex_all.
Qed.

End SortFacts.

(** * The cleaned table *)

Module ProcessFacts.

(** All columns have [n] cells. *)
Definition rows_are (n : nat) (df : DataFrame) : Prop :=
  forall c s, In (c, s) df -> series_len s = n.

Lemma aligned_rows_are (df : DataFrame) : aligned df <-> rows_are (nrows df) df.
Proof. reflexivity. Qed.

Lemma rows_are_nrows (n : nat) (df : DataFrame) :
  df <> [] -> rows_are n df -> nrows df = n.
Proof.
  destruct df as [|[c s] rest]; [congruence|]. intros _ H.
  apply (H c s). now left.
Qed.

Lemma In_set_col (c col : string) (s s' : series) (df : DataFrame) :
  In (c, s) (set_col col s' df) -> In (c, s) df \/ s = s'.
Proof.
  induction df as [|[c0 s0] rest IH]; simpl; [tauto|].
  destruct (String.eqb col c0); simpl.
  - intros [H|H]; [inversion H; now right | left; now right].
  - intros [H|H]; [left; now left|]. destruct (IH H); [left; now right | now right].
Qed.

Lemma rows_are_set_col (n : nat) (col : string) (s : series) (df : DataFrame) :
  rows_are n df -> series_len s = n -> rows_are n (set_col col s df).
Proof.
  intros Hdf Hs c s0 Hin. apply In_set_col in Hin.
  destruct Hin as [Hin|Hin]; [now apply (Hdf c) | now subst].
Qed.

Lemma set_col_nil (col : string) (s : series) (df : DataFrame) :
  set_col col s df = [] -> df = [].
Proof.
  destruct df as [|[c0 s0] rest]; [reflexivity|]. simpl.
  destruct (String.eqb col c0); discriminate.
Qed.

Lemma length_fillna {A : Type} (v : A) (xs : list (option A)) :
  length (fillna v xs) = length xs.
Proof. apply length_map. Qed.

Lemma series_len_to_object (s : series) : length (to_object s) = series_len s.
Proof. destruct s; simpl; now rewrite ?length_map. Qed.

Lemma series_len_fill_numeric (s : series) :
  series_len (fill_numeric s) = series_len s.
Proof.
  destruct s as [xs|xs|xs]; try reflexivity. unfold fill_numeric.
  destruct (any _); [|reflexivity].
  destruct (Qgt_bool _ _); simpl; apply length_fillna.
Qed.

Lemma series_len_fill_categorical (s : series) :
  series_len (fill_categorical s) = series_len s.
Proof.
  unfold fill_categorical. destruct (any _); [|reflexivity].
  simpl. now rewrite length_fillna, series_len_to_object.
Qed.

Lemma rows_are_loop (f : series -> series) (n : nat) (cols : list string)
    (df : DataFrame) :
  (forall s, series_len (f s) = series_len s) ->
  rows_are n df -> rows_are n (loop f cols df).
Proof.
  intros Hf. unfold loop. revert df.
  induction cols as [|col rest IH]; intros df Hdf; [exact Hdf|].
  cbn [fold_left]. apply IH. unfold apply_to.
  destruct (lookup col df) as [s|] eqn:El; [|exact Hdf].
  apply rows_are_set_col; [exact Hdf|]. rewrite Hf.
  destruct (lookup_In _ _ _ El) as [c Hc]. now apply (Hdf c).
Qed.

Lemma rows_are_impute (n : nat) (nc cc : list string) (df : DataFrame) :
  rows_are n df -> rows_are n (impute nc cc df).
Proof.
  intros H. rewrite impute_loops.
  apply rows_are_loop; [apply series_len_fill_categorical|].
  apply rows_are_loop; [apply series_len_fill_numeric | exact H].
Qed.

Lemma columns_impute (nc cc : list string) (df : DataFrame) :
  columns (impute nc cc df) = columns df.
Proof. now rewrite impute_loops, !columns_loop. Qed.

Lemma columns_sort_values (by_ : string) (df sorted : DataFrame) :
  sort_values by_ df = Return sorted -> columns sorted = columns df.
Proof.
  unfold sort_values. destruct (getitem by_ df) as [s|]; [|discriminate].
  cbn [bind]. destruct (sort_positions s) as [idx|]; [|discriminate].
  cbn [bind]. intros E. inversion E. unfold columns. now rewrite map_map.
Qed.

Lemma length_sort_positions (s : series) (idx : list nat) :
  sort_positions s = Return idx -> Permutation idx (seq 0 (series_len s)).
Proof.
  destruct s as [xs|xs|xs]; cbn [sort_positions series_len].
  - intros E. inversion E. apply argsort_perm.
  - destruct (all_some (map as_str xs)) as [ks|] eqn:Es.
    { intros E. inversion E.
      destruct (SortFacts.keys_take _ _ _ SortFacts.as_str_inv
                  SortFacts.as_str_cell [] _ _ Es) as [_ Hlen].
      rewrite Hlen. apply argsort_perm. }
    destruct (all_some (map as_num xs)) as [ks|] eqn:En.
    { intros E. inversion E.
      destruct (SortFacts.keys_take _ _ _ SortFacts.as_num_inv
                  SortFacts.as_num_cell [] _ _ En) as [_ Hlen].
      rewrite Hlen. apply argsort_perm. }
    destruct (all_some (map as_time xs)) as [ks|] eqn:Et; [|discriminate].
    intros E. inversion E.
    destruct (SortFacts.keys_take _ _ _ SortFacts.as_time_inv
                SortFacts.as_time_cell [] _ _ Et) as [_ Hlen].
    rewrite Hlen. apply argsort_perm.
  - intros E. inversion E. apply argsort_perm.
Qed.

(** What [sort_values] returns: every column read in one order of the
    rows. *)
Lemma sort_values_reindex (by_ : string) (df sorted : DataFrame) :
  rows_are (nrows df) df ->
  sort_values by_ df = Return sorted ->
  exists idx,
    Permutation idx (seq 0 (nrows df))
    /\ sorted = map (fun cs => (fst cs, reindex idx (snd cs))) df.
Proof.
  intros Hal. unfold sort_values, getitem.
  destruct (lookup by_ df) as [s|] eqn:Hl; [|discriminate]. cbn [bind].
  destruct (sort_positions s) as [idx|] eqn:Hp; [|discriminate]. cbn [bind].
  intros E. inversion E. exists idx. split; [|reflexivity].
  destruct (lookup_In _ _ _ Hl) as [c Hc]. rewrite <- (Hal c s Hc).
  now apply length_sort_positions.
Qed.

Lemma rows_are_reindex (idx : list nat) (df : DataFrame) :
  rows_are (length idx) (map (fun cs => (fst cs, reindex idx (snd cs))) df).
Proof.
  intros c s Hin. apply in_map_iff in Hin. destruct Hin as [[c0 s0] [E _]].
  inversion E. apply series_len_reindex.
Qed.

Section Cleaning.

Variable to_datetime : series -> option (list (option Z)).

(** The steps of [process_data] on a table that is not empty. *)
Lemma process_data_steps (data out : DataFrame) (dc : option string)
    (nc cc : list string) :
  df_empty data = false ->
  process_data to_datetime (Some data) = (Some out, dc, nc, cc) ->
  let df1 := fst (find_date_column to_datetime data) in
  let df2 := impute nc cc df1 in
  dc = snd (find_date_column to_datetime data)
  /\ nc = numeric_columns_of df1 dc
  /\ cc = categorical_columns_of df1 dc nc
  /\ out = match dc with
           | Some d =>
               if String.eqb d EmptyString then df2
               else match sort_values d df2 with
                    | Return sorted => sorted
                    | Raise _ => df2
                    end
           | None => df2
           end.
Proof.
  intros He. unfold process_data. rewrite He.
  destruct (find_date_column to_datetime data) as [df1 dc1]. cbn [fst snd].
  intros E. injection E as Hout Hdc Hnc Hcc. subst dc1 nc cc.
  repeat split.
  destruct dc as [d|]; cbn [truthy] in Hout; [|now subst].
  destruct (String.eqb d EmptyString); cbn [negb] in Hout; now subst.
Qed.

(** The table returned is the imputed one, sorted by the date column when
    there is one. *)
Lemma process_data_sorted (data out : DataFrame) (dc : option string)
    (nc cc : list string) :
  df_empty data = false ->
  process_data to_datetime (Some data) = (Some out, dc, nc, cc) ->
  let df2 := impute nc cc (fst (find_date_column to_datetime data)) in
  out = df2
  \/ exists d, dc = Some d /\ d <> EmptyString /\ sort_values d df2 = Return out.
Proof.
  intros He E. destruct (process_data_steps _ _ _ _ _ He E) as (_ & _ & _ & Hout).
  cbv zeta. destruct dc as [d|]; [|now left].
  destruct (String.eqb d EmptyString) eqn:Ed; [now left|].
  destruct (sort_values d _) as [sorted|e] eqn:Es; [|now left].
  right. exists d. apply String.eqb_neq in Ed. subst out. now repeat split.
Qed.

Lemma process_data_columns (data out : DataFrame) (dc : option string)
    (nc cc : list string) :
  process_data to_datetime (Some data) = (Some out, dc, nc, cc) ->
  columns out = columns data.
Proof.
  intros E. destruct (df_empty data) eqn:He.
  - unfold process_data in E. rewrite He in E. now inversion E.
  - pose proof (find_date_column_columns to_datetime data) as Hc.
    destruct (process_data_sorted _ _ _ _ _ He E) as [Hout|(d & _ & _ & Hs)].
    + subst out. now rewrite columns_impute.
    + rewrite (columns_sort_values _ _ _ Hs). now rewrite columns_impute.
Qed.

(** X12.  [process_data] neither adds, drops nor renames a column, and
    keeps their order: the date conversion and the fills write to columns
    that exist, and the sort moves rows. *)
Theorem cleaning_keeps_columns (data out : DataFrame) (dc : option string)
    (nc cc : list string) :
  process_data to_datetime (Some data) = (Some out, dc, nc, cc) ->
  columns out = columns data
  /\ forall c, lookup c data = None <-> lookup c out = None.
Proof.
  intros E. pose proof (process_data_columns _ _ _ _ _ E) as Hc.
  split; [exact Hc|]. intros c.
  pose proof (mem_columns_lookup c data) as H1.
  pose proof (mem_columns_lookup c out) as H2.
  rewrite Hc in H2. rewrite H1 in H2.
  destruct (lookup c data), (lookup c out); split; congruence.
Qed.

(** X13.  On a table that is not empty, the date column, the numeric
    columns and the categorical columns that [process_data] returns
    classify the columns of the table: every column is of exactly one
    kind, and nothing else is listed. *)
Theorem columns_are_classified (data out : DataFrame) (dc : option string)
    (nc cc : list string) :
  df_empty data = false ->
  process_data to_datetime (Some data) = (Some out, dc, nc, cc) ->
  (forall c, In c (columns data) <-> dc = Some c \/ In c nc \/ In c cc)
  /\ (forall c, In c nc -> dc <> Some c /\ ~ In c cc)
  /\ (forall c, In c cc -> dc <> Some c).
Proof.
  intros He E.
  destruct (process_data_steps _ _ _ _ _ He E) as (Hdc & Hnc & Hcc & _).
  pose proof (find_date_column_columns to_datetime data) as Hcols.
  pose proof (find_date_column_frame to_datetime data) as Hframe.
  destruct (find_date_column to_datetime data) as [df1 dc1].
  cbn [fst snd] in *. subst dc1.
  assert (Hnum : forall c, In c nc -> In c (columns data) /\ differs c dc = true).
  { intros c Hin. rewrite Hnc in Hin. unfold numeric_columns_of in Hin.
    apply filter_In in Hin. destruct Hin as [Hin Hd]. split; [|exact Hd].
    rewrite <- Hcols. unfold number_columns in Hin. apply in_map_iff in Hin.
    destruct Hin as [[c0 s0] [Ec Hin]]. apply filter_In in Hin.
    unfold columns. apply in_map_iff. exists (c0, s0). tauto. }
  assert (Hcat : forall c, In c cc <->
            In c (columns data) /\ differs c dc = true /\ ~ In c nc).
  { intros c. rewrite Hcc at 1. unfold categorical_columns_of.
    rewrite filter_In, andb_true_iff, negb_true_iff, mem_false, Hcols. tauto. }
  assert (Hdiff : forall c, differs c dc = true <-> dc <> Some c).
  { intros c. unfold differs. destruct dc as [d|]; [|split; congruence].
    rewrite negb_true_iff, String.eqb_neq. split; congruence. }
  split; [|split].
  - intros c. split.
    + intros Hin. destruct (differs c dc) eqn:Ed.
      * right. destruct (mem c nc) eqn:Em.
        -- left. now apply mem_In.
        -- right. apply Hcat. apply mem_false in Em. tauto.
      * left. unfold differs in Ed. destruct dc as [d|]; [|discriminate].
        apply negb_false_iff, String.eqb_eq in Ed. now subst.
    + intros [Hd|[Hn|Hc]].
      * subst dc. unfold convert_column in Hframe.
        destruct (lookup c data) eqn:El; [|discriminate].
        eapply lookup_Some_In; eassumption.
      * now apply Hnum.
      * now apply Hcat.
  - intros c Hin. split; [apply Hdiff; now apply Hnum|].
    intros Hc. apply Hcat in Hc. tauto.
  - intros c Hc. apply Hdiff. apply Hcat in Hc. tauto.
Qed.

Lemma indicators_nonempty (i : string) :
  In i date_indicators -> lower i <> EmptyString.
Proof.
  intros Hi. rewrite (lower_indicator i Hi). intros E. subst i.
  unfold date_indicators in Hi. simpl in Hi.
  repeat (destruct Hi as [Hi|Hi]; [discriminate|]). exact Hi.
Qed.

(** A column that converts is enough for the search to name one. *)
Lemma date_search_finds (df : DataFrame) (c : string) :
  In c (columns df) -> parses to_datetime df c = true ->
  snd (find_date_column to_datetime df) <> None.
Proof.
  intros Hin Hp. unfold find_date_column.
  assert (Hnil : forall c, In c (@nil string) -> parses to_datetime df c = false)
    by (intros c0 []).
  pose proof (scan_indicators_spec to_datetime date_indicators df []
                indicators_nonempty Hnil) as H.
  destruct (scan_indicators to_datetime date_indicators (df, None, []))
    as [[df1 dc1] att1].
  destruct (find _ _) as [c1|].
  - destruct H as [Hdc _]. subst dc1. discriminate.
  - destruct H as (Hdc & Hdf & H3 & _). subst dc1 df1.
    pose proof (scan_all_spec to_datetime (columns df) df att1) as Hb.
    destruct (scan_all to_datetime (columns df) (df, None, att1))
      as [[df2 dc2] att2].
    cbn [fst snd] in *. rewrite Hb. intros Hnone.
    pose proof (find_none _ _ Hnone c Hin) as Hc. cbv beta in Hc.
    rewrite Hp, andb_true_r in Hc. apply negb_false_iff, mem_In in Hc.
    rewrite (H3 c Hc) in Hp. discriminate.
Qed.

(** The column that the search names holds the converted dates. *)
Lemma date_column_converted (data : DataFrame) (d : string) :
  snd (find_date_column to_datetime data) = Some d ->
  exists s ts,
    lookup d data = Some s /\ to_datetime s = Some ts
    /\ fst (find_date_column to_datetime data) = set_col d (DateCol ts) data.
Proof.
  pose proof (find_date_column_frame to_datetime data) as Hf.
  destruct (find_date_column to_datetime data) as [df1 dc]. cbn [fst snd].
  intros E. subst dc. unfold convert_column in Hf.
  destruct (lookup d data) as [s|]; [|discriminate].
  destruct (to_datetime s) as [ts|] eqn:Ht; [|discriminate].
  inversion Hf. exists s, ts. repeat split. exact Ht.
Qed.

Lemma process_data_sort_fixed (data out : DataFrame) (d : string)
    (nc cc : list string) :
  process_data to_datetime (Some data) = (Some out, Some d, nc, cc) ->
  d <> EmptyString ->
  sort_values d out = Return out.
Proof.
  intros E Hd. destruct (df_empty data) eqn:He.
  { unfold process_data in E. rewrite He in E. discriminate. }
  destruct (process_data_steps _ _ _ _ _ He E) as (Hdc & Hnc & Hcc & Hout).
  apply String.eqb_neq in Hd. rewrite Hd in Hout.
  symmetry in Hdc. destruct (date_column_converted _ _ Hdc) as (s & ts & Hl & Ht & Hdf1).
  assert (Hl2 : lookup d (impute nc cc (fst (find_date_column to_datetime data)))
                = Some (DateCol ts)).
  { rewrite Hnc at 1. rewrite Hcc, Hnc. rewrite date_column_not_imputed.
    rewrite Hdf1. apply lookup_set_col_same. eapply lookup_Some_In; eassumption. }
  destruct (sort_values_dates d ts _ Hl2) as [sorted [Hs _]].
  rewrite Hs in Hout. subst out.
  eapply SortFacts.sort_values_twice. exact Hs.
Qed.

(** X15.  A table that [validate_financial_data] accepts always gets a date
    column from [process_data], which the upload of [app.py] runs next: the
    column is one of the table, and its cells convert. *)
Theorem accepted_upload_has_date_column (data : DataFrame) :
  fst (validate_financial_data to_datetime (Some data)) = true ->
  exists out d nc cc,
    process_data to_datetime (Some data) = (Some out, Some d, nc, cc)
    /\ In d (columns data)
    /\ parses to_datetime data d = true
    /\ columns out = columns data.
Proof.
  unfold validate_financial_data.
  destruct (df_empty data) eqn:He; [discriminate|].
  destruct (length (columns data) <? 2)%nat; [discriminate|].
  destruct (all_null data); [discriminate|].
  rewrite first_date_like_find.
  destruct (find _ (columns data)) as [c|] eqn:Ef; [|discriminate].
  intros _. apply find_some in Ef. destruct Ef as [Hin Hdl].
  assert (Hp : parses to_datetime data c = true).
  { unfold date_like in Hdl. unfold parses.
    destruct (lookup c data) as [s|]; [|discriminate].
    now destruct (to_datetime s). }
  pose proof (date_search_finds _ _ Hin Hp) as Hfound.
  destruct (process_data to_datetime (Some data)) as [[[o dc] nc] cc] eqn:E.
  assert (Ho : exists out, o = Some out).
  { unfold process_data in E. rewrite He in E.
    destruct (find_date_column to_datetime data). inversion E. eauto. }
  destruct Ho as [out Ho]. subst o.
  destruct (process_data_steps _ _ _ _ _ He E) as (Hdc & _).
  rewrite <- Hdc in Hfound. destruct dc as [d|]; [|congruence].
  exists out, d, nc, cc. split; [reflexivity|].
  symmetry in Hdc. destruct (date_column_converted _ _ Hdc) as (s & ts & Hl & Ht & _).
  split; [eapply lookup_Some_In; eassumption|].
  split; [unfold parses; now rewrite Hl, Ht|].
  eapply process_data_columns. exact E.
Qed.

(** [pd.to_datetime] converts cell by cell. *)
Hypothesis to_datetime_length :
  forall s ts, to_datetime s = Some ts -> length ts = series_len s.

Lemma rows_are_find_date_column (data : DataFrame) :
  rows_are (nrows data) data ->
  rows_are (nrows data) (fst (find_date_column to_datetime data)).
Proof.
  intros Hal. pose proof (find_date_column_frame to_datetime data) as Hf.
  destruct (find_date_column to_datetime data) as [df1 [d|]]; cbn [fst];
    [|now subst].
  unfold convert_column in Hf.
  destruct (lookup d data) as [s|] eqn:Hl; [|discriminate].
  destruct (to_datetime s) as [ts|] eqn:Ht; [|discriminate].
  inversion Hf. apply rows_are_set_col; [exact Hal|].
  cbn [series_len]. rewrite (to_datetime_length _ _ Ht).
  destruct (lookup_In _ _ _ Hl) as [c Hc]. now apply (Hal c).
Qed.

Lemma cleaning_rows (data out : DataFrame) (dc : option string)
    (nc cc : list string) :
  aligned data ->
  process_data to_datetime (Some data) = (Some out, dc, nc, cc) ->
  aligned out /\ nrows out = nrows data.
Proof.
  intros Hal E.
  assert (Hrows : rows_are (nrows data) out /\ columns out = columns data).
  { split; [|eapply process_data_columns; exact E].
    destruct (df_empty data) eqn:He.
    { unfold process_data in E. rewrite He in E. inversion E. now subst. }
    pose proof (rows_are_impute _ nc cc _ (rows_are_find_date_column _ Hal)) as H2.
    destruct (process_data_sorted _ _ _ _ _ He E) as [Hout|(d & _ & _ & Hs)];
      [now subst|].
    assert (Hne : impute nc cc (fst (find_date_column to_datetime data)) <> []).
    { intros En. apply (f_equal columns) in En.
      rewrite columns_impute, find_date_column_columns in En.
      destruct data; [discriminate He | discriminate En]. }
    pose proof (rows_are_nrows _ _ Hne H2) as Hn.
    rewrite <- Hn in H2.
    destruct (sort_values_reindex _ _ _ H2 Hs) as (idx & Hp & Hsorted).
    rewrite Hsorted. rewrite <- Hn.
    replace (nrows (impute nc cc (fst (find_date_column to_datetime data))))
      with (length idx).
    - apply rows_are_reindex.
    - rewrite (Permutation_length Hp). apply length_seq. }
  destruct Hrows as [Hrows Hcols].
  destruct out as [|[c s] rest].
  - destruct data as [|[c0 s0] rest0]; [|discriminate Hcols].
    split; [intros c s []|reflexivity].
  - assert (Hn : nrows ((c, s) :: rest) = nrows data).
    { apply rows_are_nrows; [discriminate | exact Hrows]. }
    split; [|exact Hn]. apply aligned_rows_are. now rewrite Hn.
Qed.

(** X14.  When [process_data] names a date column whose label is not the
    empty string, the table it returns is the imputed table with its rows
    rearranged as wholes, every column read in one and the same order of
    the rows, and in that order the dates ascend, the missing ones last.
    Which of two rows with the same date comes first is left open. *)
Theorem cleaned_table_in_date_order (data out : DataFrame) (d : string)
    (nc cc : list string) :
  aligned data ->
  process_data to_datetime (Some data) = (Some out, Some d, nc, cc) ->
  d <> EmptyString ->
  exists idx ds,
    Permutation idx (seq 0 (nrows data))
    /\ out = map (fun cs => (fst cs, reindex idx (snd cs)))
                 (impute nc cc (fst (find_date_column to_datetime data)))
    /\ lookup d out = Some (DateCol ds)
    /\ StronglySorted date_le ds.
Proof.
  intros Hal E Hd. destruct (df_empty data) eqn:He.
  { unfold process_data in E. rewrite He in E. discriminate. }
  destruct (process_data_steps _ _ _ _ _ He E) as (Hdc & Hnc & Hcc & Hout).
  apply String.eqb_neq in Hd. rewrite Hd in Hout.
  symmetry in Hdc.
  destruct (date_column_converted _ _ Hdc) as (s & ts & Hl & Ht & Hdf1).
  assert (Hl2 : lookup d (impute nc cc (fst (find_date_column to_datetime data)))
                = Some (DateCol ts)).
  { rewrite Hnc at 1. rewrite Hcc, Hnc. rewrite date_column_not_imputed.
    rewrite Hdf1. apply lookup_set_col_same. eapply lookup_Some_In; eassumption. }
  destruct (sort_values_dates d ts _ Hl2) as [sorted [Hs [Hls _]]].
  rewrite Hs in Hout. subst out.
  pose proof (rows_are_impute _ nc cc _ (rows_are_find_date_column _ Hal)) as H2.
  assert (Hne : impute nc cc (fst (find_date_column to_datetime data)) <> []).
  { intros En. rewrite En in Hl2. discriminate. }
  pose proof (rows_are_nrows _ _ Hne H2) as Hn.
  rewrite <- Hn in H2.
  destruct (sort_values_reindex _ _ _ H2 Hs) as (idx & Hp & Hsorted).
  rewrite Hn in Hp.
  exists idx, (take (argsort Z.leb ts) ts).
  split; [exact Hp|]. split; [exact Hsorted|]. split; [exact Hls|].
  apply take_argsort_sorted; [apply Zleb_total | apply Zleb_trans].
Qed.

(** X16.  On a table whose columns have equal length [process_data] keeps
    the number of rows: every column of the table returned has that many
    cells.  Cleaning fills and reorders; it never drops a row. *)
Theorem cleaning_keeps_rows (data out : DataFrame) (dc : option string)
    (nc cc : list string) :
  aligned data ->
  process_data to_datetime (Some data) = (Some out, dc, nc, cc) ->
  aligned out /\ nrows out = nrows data.
Proof.
  intros Hal E. exact (cleaning_rows data out dc nc cc Hal E).
Qed.

End Cleaning.

(** ** Filling with the mean *)

Lemma qsum_perm (l l' : list Q) : Permutation l l' -> qsum l == qsum l'.
Proof.
  induction 1 as [|x l l' Hp IH|x y l|l l' l'' H1 IH1 H2 IH2].
  - reflexivity.
  - now rewrite !qsum_cons, IH.
  - rewrite !qsum_cons. ring.
  - now rewrite IH1.
Qed.

Lemma somes_perm {A : Type} (xs ys : list (option A)) :
  Permutation xs ys -> Permutation (somes xs) (somes ys).
Proof.
  unfold somes. induction 1 as [|x l l' Hp IH|x y l|l l' l'' H1 IH1 H2 IH2].
  - constructor.
  - cbn [flat_map]. now apply Permutation_app_head.
  - cbn [flat_map]. rewrite !app_assoc. apply Permutation_app_tail.
    apply Permutation_app_comm.
  - eapply Permutation_trans; eassumption.
Qed.

Lemma qmean_perm (l l' : list Q) : Permutation l l' -> qmean l == qmean l'.
Proof.
  intros H. unfold qmean, qlen.
  now rewrite (qsum_perm _ _ H), (Permutation_length H).
Qed.

Lemma somes_cons_Some {A : Type} (x : A) (xs : list (option A)) :
  somes (Some x :: xs) = x :: somes xs.
Proof. reflexivity. Qed.

Lemma somes_cons_None {A : Type} (xs : list (option A)) :
  somes (None :: xs) = somes xs.
Proof. reflexivity. Qed.

Lemma length_somes {A : Type} (xs : list (option A)) :
  (length (somes xs) + count_missing xs = length xs)%nat.
Proof.
  unfold count_missing.
  induction xs as [|[x|] xs IH];
    rewrite ?somes_cons_Some, ?somes_cons_None; simpl; lia.
Qed.

Lemma somes_fillna_all {A : Type} (v : A) (xs : list (option A)) :
  length (somes (fillna v xs)) = length xs /\ count_missing (fillna v xs) = 0%nat.
Proof.
  unfold count_missing.
  induction xs as [|[x|] xs IH]; [split; reflexivity| |];
    cbn [fillna map]; fold (fillna v xs); rewrite somes_cons_Some;
    simpl; destruct IH; split; auto.
Qed.

Lemma qsum_somes_fillna (v : Q) (xs : list (option Q)) :
  qsum (somes (fillna v xs))
  == qsum (somes xs) + inject_Z (Z.of_nat (count_missing xs)) * v.
Proof.
  unfold count_missing.
  induction xs as [|[x|] xs IH].
  - cbn. ring.
  - cbn [fillna map]. fold (fillna v xs).
    rewrite !somes_cons_Some, !qsum_cons, IH. cbn [filter is_none]. ring.
  - cbn [fillna map]. fold (fillna v xs).
    rewrite somes_cons_Some, somes_cons_None, qsum_cons, IH.
    cbn [filter is_none length]. rewrite Nat2Z.inj_succ. unfold Z.succ.
    rewrite inject_Z_plus. ring.
Qed.

(** Filling the gaps of a column with the mean of its cells leaves the
    mean where it was. *)
Lemma mean_after_mean_fill (xs : list (option Q)) :
  qmean (somes (fillna (qmean (somes xs)) xs)) == qmean (somes xs).
Proof.
  destruct (somes xs) as [|x0 present] eqn:Ep.
  - assert (Hall : forall ys : list (option Q),
              somes ys = [] -> forall v, qsum (somes (fillna v ys)) == inject_Z (Z.of_nat (length ys)) * v).
    { intros ys Hy v. rewrite qsum_somes_fillna, Hy.
      pose proof (length_somes ys) as Hl. rewrite Hy in Hl. simpl in Hl.
      rewrite Hl. change (qsum []) with 0. ring. }
    unfold qmean at 1. rewrite (Hall xs Ep). unfold qmean, qlen. simpl.
    unfold Qdiv. change (/ inject_Z 0) with 0. ring.
  - rewrite <- Ep. unfold qmean at 1, qlen.
    rewrite qsum_somes_fillna.
    destruct (somes_fillna_all (qmean (somes xs)) xs) as [Hlen _].
    rewrite Hlen, <- (length_somes xs), Nat2Z.inj_add, inject_Z_plus.
    unfold qmean, qlen.
    assert (Hp : 0 < inject_Z (Z.of_nat (length (somes xs)))).
    { rewrite Ep. unfold Qlt. simpl. lia. }
    assert (Hk : 0 <= inject_Z (Z.of_nat (count_missing xs))).
    { unfold Qle. simpl. lia. }
    set (P := inject_Z (Z.of_nat (length (somes xs)))) in *.
    set (K := inject_Z (Z.of_nat (count_missing xs))) in *.
    assert (HP : ~ P == 0) by (intros E; rewrite E in Hp; discriminate Hp).
    assert (HPK : ~ P + K == 0).
    { intros E. assert (0 < P + K).
      { rewrite <- (Qplus_0_r 0). now apply Qplus_lt_le_compat. }
      rewrite E in H. discriminate H. }
    field. split; assumption.
Qed.

Section MeanFill.

Variable to_datetime : series -> option (list (option Z)).

Hypothesis to_datetime_length :
  forall s ts, to_datetime s = Some ts -> length ts = series_len s.

(** X17.  Cleaning keeps the average of a numeric column of which at most
    half of the cells are missing: the column comes out without a missing
    cell and with the mean of the cells that were present.  (With more than
    half missing the gaps are filled with 0 and the mean drops.) *)
Theorem cleaning_keeps_average (data out : DataFrame) (dc : option string)
    (nc cc : list string) (col : string) (xs : list (option Q)) :
  aligned data ->
  NoDup (columns data) ->
  process_data to_datetime (Some data) = (Some out, dc, nc, cc) ->
  In col nc ->
  lookup col data = Some (NumCol xs) ->
  (2 * count_missing xs <= length xs)%nat ->
  exists ys,
    lookup col out = Some (NumCol ys)
    /\ count_missing ys = 0%nat
    /\ qmean (somes ys) == qmean (somes xs).
Proof.
  intros Hal Hnd E Hin Hl Hhalf.
  destruct (df_empty data) eqn:He.
  { unfold process_data in E. rewrite He in E. inversion E. subst.
    destruct Hin. }
  destruct (process_data_steps to_datetime _ _ _ _ _ He E) as (Hdc & Hnc & Hcc & _).
  set (df1 := fst (find_date_column to_datetime data)) in *.
  assert (Hnd1 : NoDup (columns df1)).
  { unfold df1. now rewrite find_date_column_columns. }
  pose proof (imputer_policy_frame df1 dc Hnd1) as Hpol. cbv zeta in Hpol.
  rewrite <- Hnc in Hpol. rewrite <- Hcc in Hpol.
  destruct Hpol as (Hnum & _ & _).
  destruct (Hnum col Hin) as (xs1 & Hl1 & Hl2).
  assert (Hsame : lookup col df1 = lookup col data).
  { pose proof (find_date_column_frame to_datetime data) as Hf.
    unfold df1. destruct (find_date_column to_datetime data) as [f1 [d|]];
      cbn [fst snd] in *; [|now subst].
    unfold convert_column in Hf.
    destruct (lookup d data) as [s|]; [|discriminate].
    destruct (to_datetime s) as [ts|]; [|discriminate].
    inversion Hf. apply lookup_set_col_other.
    rewrite Hnc in Hin. unfold numeric_columns_of in Hin.
    apply filter_In in Hin. destruct Hin as [_ Hd]. rewrite Hdc in Hd.
    cbn [differs] in Hd. apply negb_true_iff in Hd. now apply String.eqb_neq. }
  rewrite Hsame, Hl in Hl1. inversion Hl1. subst xs1. clear Hl1.
  assert (Hfill : numeric_fill xs = qmean (somes xs)).
  { unfold numeric_fill.
    assert (Hlt : (length xs <? 2 * count_missing xs)%nat = false)
      by (apply Nat.ltb_ge; lia).
    now rewrite Hlt. }
  rewrite Hfill in Hl2.
  set (zs := fillna (qmean (somes xs)) xs) in *.
  assert (Hzs : count_missing zs = 0%nat /\ qmean (somes zs) == qmean (somes xs)).
  { split; [apply somes_fillna_all | apply mean_after_mean_fill]. }
  destruct (process_data_sorted to_datetime _ _ _ _ _ He E) as [Hout|(d & _ & _ & Hs)].
  { exists zs. subst out. fold df1. now split. }
  fold df1 in Hs.
  pose proof (rows_are_impute _ nc cc _
                (rows_are_find_date_column to_datetime to_datetime_length _ Hal)) as H2.
  fold df1 in H2.
  assert (Hne : impute nc cc df1 <> []).
  { intros En. rewrite En in Hl2. discriminate. }
  pose proof (rows_are_nrows _ _ Hne H2) as Hn. rewrite <- Hn in H2.
  destruct (sort_values_reindex _ _ _ H2 Hs) as (idx & Hp & Hsorted).
  exists (take idx zs). subst out.
  rewrite lookup_map_series, Hl2. split; [reflexivity|].
  assert (Hperm : Permutation (take idx zs) zs).
  { apply take_perm. destruct (lookup_In _ _ _ Hl2) as [c0 Hc0].
    pose proof (H2 c0 _ Hc0) as Hlen. cbn [series_len] in Hlen.
    now rewrite Hlen. }
  destruct Hzs as [Hz1 Hz2]. split.
  - unfold count_missing in *.
    assert (Hf : Permutation (filter is_none (take idx zs)) (filter is_none zs)).
    { clear - Hperm. induction Hperm; simpl.
      - constructor.
      - destruct (is_none x); [now constructor | assumption].
      - destruct (is_none x), (is_none y); try apply Permutation_refl.
        apply perm_swap.
      - eapply Permutation_trans; eassumption. }
    now rewrite (Permutation_length Hf).
  - rewrite <- Hz2. apply qmean_perm. now apply somes_perm.
Qed.

End MeanFill.

(** ** The ledger, cleaned *)

Lemma iso_to_datetime_length (s : series) (ts : list (option Z)) :
  iso_to_datetime s = Some ts -> length ts = series_len s.
Proof.
  unfold iso_to_datetime. intros E. apply all_some_map_Some in E.
  rewrite <- series_len_to_object, <- (length_map iso_cell), E.
  now rewrite length_map.
Qed.

Lemma ledger_run :
  process_data iso_to_datetime (Some ledger)
  = (Some ledger_out, Some "date"%string,
     ["amount"; "bonus"]%string, ["category"%string]).
Proof. vm_compute. reflexivity. Qed.

Lemma cleaning_keeps_columns_witness :
  process_data iso_to_datetime (Some ledger)
  = (Some ledger_out, Some "date"%string,
     ["amount"; "bonus"]%string, ["category"%string])
  /\ columns ledger_out = columns ledger.
Proof.
  split; [exact ledger_run|].
  exact (proj1 (cleaning_keeps_columns iso_to_datetime ledger ledger_out _ _ _
                  ledger_run)).
Defined.

Lemma columns_are_classified_witness :
  df_empty ledger = false
  /\ process_data iso_to_datetime (Some ledger)
     = (Some ledger_out, Some "date"%string,
        ["amount"; "bonus"]%string, ["category"%string])
  /\ forall c, In c (columns ledger) <->
       Some "date"%string = Some c \/ In c ["amount"; "bonus"]%string
       \/ In c ["category"%string].
Proof.
  assert (H : df_empty ledger = false) by reflexivity.
  split; [exact H|]. split; [exact ledger_run|].
  exact (proj1 (columns_are_classified iso_to_datetime ledger ledger_out _ _ _
                  H ledger_run)).
Defined.

Lemma accepted_upload_has_date_column_witness :
  fst (validate_financial_data iso_to_datetime (Some ledger)) = true
  /\ exists out d nc cc,
       process_data iso_to_datetime (Some ledger) = (Some out, Some d, nc, cc)
       /\ In d (columns ledger).
Proof.
  assert (H : fst (validate_financial_data iso_to_datetime (Some ledger)) = true)
    by (vm_compute; reflexivity).
  split; [exact H|].
  destruct (accepted_upload_has_date_column iso_to_datetime ledger H)
    as (out & d & nc & cc & E & Hin & _).
  now exists out, d, nc, cc.
Defined.

Lemma ledger_aligned : aligned ledger.
Proof. solve_aligned. Qed.

Lemma cleaning_keeps_rows_witness :
  (forall s ts, iso_to_datetime s = Some ts -> length ts = series_len s)
  /\ aligned ledger
  /\ process_data iso_to_datetime (Some ledger)
     = (Some ledger_out, Some "date"%string,
        ["amount"; "bonus"]%string, ["category"%string])
  /\ aligned ledger_out /\ nrows ledger_out = nrows ledger.
Proof.
  split; [exact iso_to_datetime_length|]. split; [exact ledger_aligned|].
  split; [exact ledger_run|].
  exact (cleaning_keeps_rows iso_to_datetime iso_to_datetime_length ledger
           ledger_out _ _ _ ledger_aligned ledger_run).
Defined.

Lemma cleaned_table_in_date_order_witness :
  (forall s ts, iso_to_datetime s = Some ts -> length ts = series_len s)
  /\ aligned ledger
  /\ process_data iso_to_datetime (Some ledger)
     = (Some ledger_out, Some "date"%string,
        ["amount"; "bonus"]%string, ["category"%string])
  /\ "date"%string <> EmptyString
  /\ exists idx ds,
       Permutation idx (seq 0 (nrows ledger))
       /\ ledger_out
          = map (fun cs => (fst cs, reindex idx (snd cs)))
                (impute ["amount"; "bonus"]%string ["category"%string]
                   (fst (find_date_column iso_to_datetime ledger)))
       /\ lookup "date" ledger_out = Some (DateCol ds)
       /\ StronglySorted date_le ds.
Proof.
  assert (H : "date"%string <> EmptyString) by discriminate.
  split; [exact iso_to_datetime_length|]. split; [exact ledger_aligned|].
  split; [exact ledger_run|]. split; [exact H|].
  exact (cleaned_table_in_date_order iso_to_datetime iso_to_datetime_length
           ledger ledger_out "date" _ _ ledger_aligned ledger_run H).
Defined.

Lemma cleaning_keeps_average_witness :
  (forall s ts, iso_to_datetime s = Some ts -> length ts = series_len s)
  /\ aligned ledger
  /\ NoDup (columns ledger)
  /\ process_data iso_to_datetime (Some ledger)
     = (Some ledger_out, Some "date"%string,
        ["amount"; "bonus"]%string, ["category"%string])
  /\ In "amount"%string ["amount"; "bonus"]%string
  /\ lookup "amount" ledger = Some (NumCol [num 10; None; num 20; num 30])
  /\ (2 * count_missing [num 10; None; num 20; num 30]
      <= length [num 10; None; num 20; num 30])%nat
  /\ exists ys,
       lookup "amount" ledger_out = Some (NumCol ys)
       /\ count_missing ys = 0%nat
       /\ qmean (somes ys) == 20.
Proof.
  assert (H2 : NoDup (columns ledger)) by solve_nodup.
  assert (H4 : In "amount"%string ["amount"; "bonus"]%string) by (simpl; auto).
  assert (H5 : lookup "amount" ledger
               = Some (NumCol [num 10; None; num 20; num 30])) by reflexivity.
  assert (H6 : (2 * count_missing [num 10; None; num 20; num 30]
                <= length [num 10; None; num 20; num 30])%nat)
    by (vm_compute; lia).
  split; [exact iso_to_datetime_length|]. split; [exact ledger_aligned|].
  split; [exact H2|]. split; [exact ledger_run|].
  split; [exact H4|]. split; [exact H5|]. split; [exact H6|].
  destruct (cleaning_keeps_average iso_to_datetime iso_to_datetime_length
              ledger ledger_out _ _ _ "amount" _ ledger_aligned H2 ledger_run
              H4 H5 H6) as (ys & Hl & Hm & Hmean).
  exists ys. split; [exact Hl|]. split; [exact Hm|].
  rewrite Hmean. vm_compute. reflexivity.
Defined.

End ProcessFacts.

(** * The filters, applied again *)

Module FilterFacts.

Lemma to_object_reindex (idx : list nat) (s : series) :
  to_object (reindex idx s) = take idx (to_object s).
Proof.
  destruct s as [xs|xs|xs]; simpl; [|reflexivity|];
    symmetry; apply SortFacts.take_option_map.
Qed.

Lemma cell_reindex (idx : list nat) (s : series) (i : nat) :
  (i < length idx)%nat -> cell (reindex idx s) i = cell s (nth i idx 0%nat).
Proof.
  intros Hi. unfold cell. rewrite to_object_reindex. unfold take.
  exact (nth_map_lt (fun j => nth j (to_object s) None) idx i 0%nat None Hi).
Qed.

Lemma filter_all {A : Type} (p : A -> bool) (l : list A) :
  (forall x, In x l -> p x = true) -> filter p l = l.
Proof.
  induction l as [|x l IH]; intros H; simpl; [reflexivity|].
  rewrite (H x (or_introl eq_refl)). f_equal. apply IH.
  intros y Hy. apply H. now right.
Qed.

Lemma positions_all (p : nat -> bool) (m : nat) :
  (forall i, (i < m)%nat -> p i = true) -> positions p m = seq 0 m.
Proof.
  intros H. unfold positions. apply filter_all.
  intros i Hi. apply in_seq in Hi. apply H. lia.
Qed.

(** The rows kept by a filter all pass it. *)
Lemma kept_rows_pass (keep : option pyobj -> bool) (s : series) (n : nat) :
  let idx := positions (fun i => keep (cell s i)) n in
  positions (fun i => keep (cell (reindex idx s) i)) (length idx)
  = seq 0 (length idx).
Proof.
  intros idx. apply positions_all. intros i Hi.
  rewrite cell_reindex by assumption.
  assert (Hin : In (nth i idx 0%nat) idx) by now apply nth_In.
  unfold idx, positions in Hin. now apply filter_In in Hin.
Qed.

Lemma rows_at_all (m : nat) (df : DataFrame) :
  ProcessFacts.rows_are m df -> rows_at (seq 0 m) df = df.
Proof.
  intros H. unfold rows_at. rewrite <- (map_id df) at 2.
  apply map_ext_in. intros [c s] Hin. cbn [fst snd].
  rewrite <- (H c s Hin). now rewrite SortFacts.reindex_all.
Qed.

Lemma date_comparable_reindex (idx : list nat) (s : series) :
  date_comparable s = true -> date_comparable (reindex idx s) = true.
Proof.
  destruct s as [xs|xs|xs]; simpl; try easy.
  destruct (all_some (map as_time xs)) as [ks|] eqn:E; [|discriminate].
  intros _.
  destruct (SortFacts.keys_take _ _ _ SortFacts.as_time_inv
              SortFacts.as_time_cell idx _ _ E) as [Et _].
  now rewrite Et.
Qed.

(** The table of the rows kept, when there are some. *)
Lemma kept_rows_table (idx : list nat) (df : DataFrame) :
  df_empty df = false -> idx <> [] ->
  aligned (rows_at idx df)
  /\ df_empty (rows_at idx df) = false
  /\ nrows (rows_at idx df) = length idx.
Proof.
  intros Hne Hidx.
  pose proof (ProcessFacts.rows_are_reindex idx df) as Hrows.
  fold (rows_at idx df) in Hrows.
  assert (Hn : nrows (rows_at idx df) = length idx).
  { apply ProcessFacts.rows_are_nrows; [|exact Hrows].
    destruct df; [discriminate Hne | discriminate]. }
  split; [|split].
  - apply ProcessFacts.aligned_rows_are. now rewrite Hn.
  - rewrite df_empty_rows_at by assumption. now destruct idx.
  - exact Hn.
Qed.

(** What a filter does, whatever decides which cells pass. *)
Lemma refilter (keep : option pyobj -> bool) (df : DataFrame) (col : string)
    (s : series) :
  aligned df -> df_empty df = false -> lookup col df = Some s ->
  let once :=
    match positions (fun i => keep (cell s i)) (nrows df) with
    | [] => df
    | idx => rows_at idx df
    end in
  exists s',
    lookup col once = Some s'
    /\ aligned once /\ df_empty once = false
    /\ (s' = s \/ exists idx, s' = reindex idx s)
    /\ match positions (fun i => keep (cell s' i)) (nrows once) with
       | [] => once
       | idx => rows_at idx once
       end = once.
Proof.
  intros Hal Hne Hl once. unfold once.
  destruct (positions (fun i => keep (cell s i)) (nrows df)) as [|i0 idx0] eqn:Ep.
  - exists s. rewrite Ep. repeat split; auto.
  - pose proof (kept_rows_pass keep s (nrows df)) as Hpass. cbv zeta in Hpass.
    rewrite Ep in Hpass.
    destruct (kept_rows_table (i0 :: idx0) df Hne) as (Hal' & Hne' & Hn);
      [discriminate|].
    exists (reindex (i0 :: idx0) s). unfold rows_at at 1.
    rewrite lookup_map_series, Hl. split; [reflexivity|].
    split; [exact Hal'|]. split; [exact Hne'|].
    split; [right; now exists (i0 :: idx0)|].
    rewrite Hn, Hpass. cbn [length seq].
    change (0%nat :: seq 1 (length idx0)) with (seq 0 (length (i0 :: idx0))).
    apply rows_at_all. apply ProcessFacts.rows_are_reindex.
Qed.

(** X18.  Both filters are idempotent on a table that is not empty:
    applied to its own result with the same arguments, a filter returns
    that result. *)
Theorem filters_are_idempotent (df : DataFrame) :
  aligned df -> df_empty df = false ->
  (forall date_column start_date end_date,
     let once := filter_data_by_date (Some df) date_column start_date end_date in
     filter_data_by_date once date_column start_date end_date = once)
  /\ (forall category_column selected,
        let once := filter_data_by_category (Some df) category_column selected in
        filter_data_by_category once category_column selected = once).
Proof.
  intros Hal Hne. split.
  - intros dc a b once. unfold once.
    rewrite (filter_by_date_spec df dc a b Hal Hne).
    destruct dc as [col|]; [|now apply filter_by_date_spec].
    destruct (lookup col df) as [s|] eqn:Hl.
    2:{ rewrite (filter_by_date_spec df (Some col) a b Hal Hne). now rewrite Hl. }
    destruct (date_comparable s) eqn:Hc.
    2:{ rewrite (filter_by_date_spec df (Some col) a b Hal Hne).
        now rewrite Hl, Hc. }
    destruct (refilter (in_range a b) df col s Hal Hne Hl)
      as (s' & Hl' & Hal' & Hne' & Hs' & Hfix).
    rewrite (filter_by_date_spec _ (Some col) a b Hal' Hne'), Hl'.
    assert (Hc' : date_comparable s' = true).
    { destruct Hs' as [E|[idx E]]; subst s';
        [assumption | now apply date_comparable_reindex]. }
    rewrite Hc'. now rewrite Hfix.
  - intros cc sel once. unfold once.
    rewrite (filter_by_category_spec df cc sel Hal Hne).
    destruct cc as [col|]; [|now apply filter_by_category_spec].
    destruct (lookup col df) as [s|] eqn:Hl.
    2:{ rewrite (filter_by_category_spec df (Some col) sel Hal Hne).
        now rewrite Hl. }
    destruct (refilter (selected_cell sel) df col s Hal Hne Hl)
      as (s' & Hl' & Hal' & Hne' & _ & Hfix).
    rewrite (filter_by_category_spec _ (Some col) sel Hal' Hne'), Hl'.
    now rewrite Hfix.
Qed.

Lemma columns_select_rows (mask : list bool) (df : DataFrame) :
  columns (select_rows mask df) = columns df.
Proof. unfold columns, select_rows. now rewrite map_map. Qed.

(** X19.  A filter never hands back an empty table for a table that has
    rows, and never changes the columns: when the rows that match are none,
    or the comparison raises, the table comes back as it was.  No
    assumption on the table is needed. *)
Theorem filters_never_empty_a_table (df : DataFrame) :
  df_empty df = false ->
  (forall date_column start_date end_date,
     exists out,
       filter_data_by_date (Some df) date_column start_date end_date = Some out
       /\ df_empty out = false /\ columns out = columns df)
  /\ (forall category_column selected,
        exists out,
          filter_data_by_category (Some df) category_column selected = Some out
          /\ df_empty out = false /\ columns out = columns df).
Proof.
  intros Hne. split.
  - intros dc a b. unfold filter_data_by_date. rewrite Hne.
    destruct dc as [col|]; [|now exists df].
    destruct (negb (mem col (columns df))); [now exists df|].
    destruct (getitem col df) as [s|e]; cbn [bind]; [|now exists df].
    destruct (compare_date Z.geb s a) as [ge|e]; cbn [bind]; [|now exists df].
    destruct (compare_date Z.leb s b) as [le|e]; cbn [bind]; [|now exists df].
    destruct (df_empty (select_rows (mask_and ge le) df)) eqn:Ef;
      cbn [negb andb]; rewrite ?Hne; cbn [negb]; [now exists df|].
    eexists. split; [reflexivity|]. split; [exact Ef|].
    apply columns_select_rows.
  - intros cc sel. unfold filter_data_by_category. rewrite Hne.
    destruct cc as [col|]; [|now exists df].
    destruct (negb (mem col (columns df))); [now exists df|].
    destruct sel as [|x sel]; [now exists df|].
    destruct (getitem col df) as [s|e]; cbn [bind]; [|now exists df].
    destruct (df_empty (select_rows (isin s (x :: sel)) df)) eqn:Ef;
      cbn [negb andb]; rewrite ?Hne; cbn [negb]; [now exists df|].
    eexists. split; [reflexivity|]. split; [exact Ef|].
    apply columns_select_rows.
Qed.

Lemma processed_ledger_aligned : aligned processed_ledger.
Proof. solve_aligned. Qed.

Lemma filters_are_idempotent_witness :
  aligned processed_ledger
  /\ df_empty processed_ledger = false
  /\ (let once :=
        filter_data_by_category (Some processed_ledger) (Some "category"%string)
          [str "rent"] in
      filter_data_by_category once (Some "category"%string) [str "rent"] = once).
Proof.
  assert (H : df_empty processed_ledger = false) by reflexivity.
  split; [exact processed_ledger_aligned|]. split; [exact H|].
  exact (proj2 (filters_are_idempotent processed_ledger
                  processed_ledger_aligned H)
           (Some "category"%string) [str "rent"]).
Defined.

Lemma filters_never_empty_a_table_witness :
  df_empty processed_ledger = false
  /\ exists out,
       filter_data_by_date (Some processed_ledger) (Some "date"%string)
         (19800 * ns_per_day) (19900 * ns_per_day) = Some out
       /\ df_empty out = false /\ columns out = columns processed_ledger.
Proof.
  assert (H : df_empty processed_ledger = false) by reflexivity.
  split; [exact H|].
  exact (proj1 (filters_never_empty_a_table processed_ledger H)
           (Some "date"%string) (19800 * ns_per_day)%Z (19900 * ns_per_day)%Z).
Defined.

End FilterFacts.

(** * A history on a straight line *)

Module ProjectorFacts.

(** The line with slope [a] and intercept [b] through the points. *)
Definition on_line (a b : Q) (points : list (Q * Q)) : Prop :=
  Forall (fun p => snd p == a * fst p + b) points.

(** A least-squares line through points that lie on a line is that line,
    when two of the points differ in the feature. *)
Lemma ols_fit_exact (a b : Q) (X y : list Q) (x1 x2 : Q) :
  length X = length y ->
  on_line a b (combine X y) ->
  In x1 X -> In x2 X -> ~ x1 == x2 ->
  coef_ (ols_fit X y) == a /\ intercept_ (ols_fit X y) == b.
Proof.
  intros Hlen Hline H1 H2 Hne.
  assert (HX : X <> []) by (intros E; subst; destruct H1).
  set (model := ols_fit X y).
  pose proof (ols_fit_least_squares X y {| coef_ := a; intercept_ := b |} Hlen HX)
    as Hmin.
  fold model in Hmin. unfold residuals in Hmin. rewrite !map_map in Hmin.
  cbn [coef_ intercept_] in Hmin.
  assert (Hzero : qsum (map (fun p => sq (snd p - (a * fst p + b))) (combine X y)) == 0).
  { rewrite (qsum_ext_eq _ (fun _ => 0)).
    - clear. induction (combine X y) as [|p l IH]; [reflexivity|].
      cbn [map]. rewrite qsum_cons, IH. ring.
    - intros p Hp. unfold on_line in Hline. rewrite Forall_forall in Hline.
      pose proof (Hline p Hp) as Ep. cbv beta in Ep |- *. unfold sq.
      setoid_replace (snd p - (a * fst p + b)) with 0 by (rewrite Ep; ring).
      ring. }
  rewrite Hzero in Hmin.
  assert (Hfit : qsum (map (fun p => sq (snd p - (coef_ model * fst p + intercept_ model)))
                         (combine X y)) == 0).
  { apply Qle_antisym; [exact Hmin|].
    apply qsum_nonneg, Forall_map, Forall_forall. intros p _. apply sq_nonneg. }
  assert (Hat : forall x, In x X ->
            coef_ model * x + intercept_ model == a * x + b).
  { intros x Hx.
    assert (Hy : exists v, In (x, v) (combine X y)).
    { clear - Hlen Hx. revert y Hlen. induction X as [|x0 X IH]; [destruct Hx|].
      intros [|v y] Hlen; [discriminate|]. cbn [combine].
      destruct Hx as [Hx|Hx].
      - subst. exists v. now left.
      - destruct (IH Hx y) as [w Hw]; [simpl in Hlen; lia|]. exists w. now right. }
    destruct Hy as [v Hv].
    pose proof (qsum_zero_terms _ _ (fun p _ => sq_nonneg _) Hfit (x, v) Hv) as Hr.
    cbn [fst snd] in Hr. apply sq_zero in Hr.
    unfold on_line in Hline. rewrite Forall_forall in Hline.
    pose proof (Hline (x, v) Hv) as Hl. cbn [fst snd] in Hl.
    rewrite <- Hl.
    setoid_replace (coef_ model * x + intercept_ model)
      with (v - (v - (coef_ model * x + intercept_ model))) by ring.
    rewrite Hr. ring. }
  pose proof (Hat x1 H1) as E1. pose proof (Hat x2 H2) as E2.
  assert (Hc : coef_ model == a).
  { assert (Hd : (coef_ model - a) * (x1 - x2) == 0).
    { setoid_replace ((coef_ model - a) * (x1 - x2))
        with ((coef_ model * x1 + intercept_ model)
              - (coef_ model * x2 + intercept_ model) - a * x1 + a * x2) by ring.
      rewrite E1, E2. ring. }
    apply Qmult_integral in Hd. destruct Hd as [Hd|Hd].
    - setoid_replace (coef_ model) with (coef_ model - a + a) by ring.
      rewrite Hd. ring.
    - exfalso. apply Hne. setoid_replace x1 with (x1 - x2 + x2) by ring.
      rewrite Hd. ring. }
  split; [exact Hc|].
  rewrite Hc in E1.
  setoid_replace (intercept_ model) with (a * x1 + intercept_ model - a * x1) by ring.
  rewrite E1. ring.
Qed.

(** Smallest and largest of the dates. *)
Lemma fold_min_spec (r : list Z) (d : Z) :
  In (fold_left Z.min r d) (d :: r)
  /\ forall x, In x (d :: r) -> (fold_left Z.min r d <= x)%Z.
Proof.
  revert d. induction r as [|y r IH]; intros d; cbn [fold_left].
  - split; [now left|]. intros x [Hx|[]]. subst. lia.
  - destruct (IH (Z.min d y)) as [Hin Hle]. split.
    + destruct Hin as [Hin|Hin]; [|right; now right].
      rewrite <- Hin. destruct (Z.min_spec d y) as [[_ E]|[_ E]]; rewrite E;
        [now left | right; now left].
    + intros x Hx.
      assert (Hm : (fold_left Z.min r (Z.min d y) <= Z.min d y)%Z)
        by (apply Hle; now left).
      destruct Hx as [Hx|[Hx|Hx]]; [subst; lia | subst; lia |].
      apply Hle. now right.
Qed.

Lemma fold_max_spec (r : list Z) (d : Z) :
  In (fold_left Z.max r d) (d :: r)
  /\ forall x, In x (d :: r) -> (x <= fold_left Z.max r d)%Z.
Proof.
  revert d. induction r as [|y r IH]; intros d; cbn [fold_left].
  - split; [now left|]. intros x [Hx|[]]. subst. lia.
  - destruct (IH (Z.max d y)) as [Hin Hle]. split.
    + destruct Hin as [Hin|Hin]; [|right; now right].
      rewrite <- Hin. destruct (Z.max_spec d y) as [[_ E]|[_ E]]; rewrite E;
        [right; now left | now left].
    + intros x Hx.
      assert (Hm : (Z.max d y <= fold_left Z.max r (Z.max d y))%Z)
        by (apply Hle; now left).
      destruct Hx as [Hx|[Hx|Hx]]; [subst; lia | subst; lia |].
      apply Hle. now right.
Qed.

Lemma series_min_spec (dates : list Z) (m : Z) :
  series_min (map Some dates) = Some m <->
  In m dates /\ forall x, In x dates -> (m <= x)%Z.
Proof.
  unfold series_min. rewrite TrendFacts.somes_map_Some.
  destruct dates as [|d r].
  - split; [discriminate | intros [[] _]].
  - pose proof (fold_min_spec r d) as [Hin Hle]. split.
    + intros E. inversion E. subst m. now split.
    + intros [Hm Hall]. f_equal. apply Z.le_antisymm; [now apply Hle | now apply Hall].
Qed.

Lemma series_max_spec (dates : list Z) (m : Z) :
  series_max (map Some dates) = Some m <->
  In m dates /\ forall x, In x dates -> (x <= m)%Z.
Proof.
  unfold series_max. rewrite TrendFacts.somes_map_Some.
  destruct dates as [|d r].
  - split; [discriminate | intros [[] _]].
  - pose proof (fold_max_spec r d) as [Hin Hle]. split.
    + intros E. inversion E. subst m. now split.
    + intros [Hm Hall]. f_equal. apply Z.le_antisymm; [now apply Hall | now apply Hle].
Qed.

(** The day offset of a forecast day. *)
Lemma days_between_ahead (last_date first_date : Z) (k : nat) :
  days_between (last_date + Z.of_nat k * ns_per_day) first_date
  = (days_between last_date first_date + Z.of_nat k)%Z.
Proof.
  unfold days_between.
  replace (last_date + Z.of_nat k * ns_per_day - first_date)%Z
    with (last_date - first_date + Z.of_nat k * ns_per_day)%Z by ring.
  apply Z.div_add. discriminate.
Qed.

Section Projector.

Variable np_sqrt : Q -> Q.

(** The forecast of [fit_and_project] on dates and values without a missing
    cell. *)
Lemma fit_and_project_values (dates : list Z) (ys : list Q) (days : nat)
    (first_date last_date : Z) :
  (0 < days)%nat ->
  series_min (map Some dates) = Some first_date ->
  series_max (map Some dates) = Some last_date ->
  exists res fig,
    fit_and_project np_sqrt (map Some dates) (map Some ys) days = Return (res, fig)
    /\ predicted_values fig
       = predict (ols_fit (day_offsets dates first_date) ys)
           (map (fun i => inject_Z (days_between last_date first_date
                                    + Z.of_nat (i + 1)))
                (seq 0 days)).
Proof.
  intros Hdays Hmin Hmax. unfold fit_and_project, fit. rewrite Hmin, Hmax.
  rewrite map_map.
  change (map (fun x => Some (inject_Z (days_between x first_date))) dates)
    with (map (fun x => (fun q => Some q) (inject_Z (days_between x first_date)))
              dates).
  rewrite <- (map_map (fun d => inject_Z (days_between d first_date)) Some).
  rewrite !all_some_of_Some. cbn [bind].
  rewrite map_map. fold (future_offsets first_date last_date days).
  rewrite checked_predict_nonempty by now apply future_offsets_nonempty.
  cbn [bind].
  do 2 eexists. split; [reflexivity|]. cbn [predicted_values].
  fold (day_offsets dates first_date). f_equal.
  unfold future_offsets. apply map_ext. intros i. now rewrite days_between_ahead.
Qed.

Lemma take_Some {A : Type} (d : A) (idx : list nat) (l : list A) :
  (forall i, In i idx -> (i < length l)%nat) ->
  take idx (map Some l) = map Some (map (fun i => nth i l d) idx).
Proof.
  intros H. unfold take. rewrite map_map. apply map_ext_in. intros i Hi.
  exact (nth_map_lt Some l i d None (H i Hi)).
Qed.

Lemma read_all {A : Type} (d : A) (l : list A) :
  map (fun i => nth i l d) (seq 0 (length l)) = l.
Proof.
  induction l as [|x l IH]; [reflexivity|].
  cbn [length seq map nth]. rewrite <- seq_shift, map_map. cbn [nth].
  now rewrite IH.
Qed.

Lemma combine_map_both {A B C : Type} (f : C -> A) (g : C -> B) (l : list C) :
  combine (map f l) (map g l) = map (fun i => (f i, g i)) l.
Proof.
  induction l as [|x l IH]; simpl; [reflexivity | now rewrite IH].
Qed.

Lemma pick_in_combine {A B : Type} (da : A) (db : B) (l1 : list A) (l2 : list B)
    (i : nat) :
  length l1 = length l2 -> (i < length l1)%nat ->
  In (nth i l1 da, nth i l2 db) (combine l1 l2).
Proof.
  intros Hlen Hi. rewrite <- combine_nth by assumption.
  apply nth_In. rewrite length_combine. lia.
Qed.

(** X20.  A history of at least 10 rows, without a missing cell, whose
    values lie on a straight line over the days since the first date, the
    dates spanning more than one day, is continued exactly over every
    horizon of at least one day: the value forecast for the i-th day after
    the last date lies on the same line.  The rows may come in any order. *)
Theorem forecast_continues_a_line (data : DataFrame) (dc vc : string)
    (days : nat) (dates : list Z) (ys : list Q) (a b : Q)
    (first_date last_date : Z) :
  lookup dc data = Some (DateCol (map Some dates)) ->
  lookup vc data = Some (NumCol (map Some ys)) ->
  length dates = length ys ->
  (10 <= length dates)%nat ->
  (0 < days)%nat ->
  series_min (map Some dates) = Some first_date ->
  series_max (map Some dates) = Some last_date ->
  days_between last_date first_date <> 0%Z ->
  Forall (fun p => snd p == a * inject_Z (days_between (fst p) first_date) + b)
         (combine dates ys) ->
  exists res fig,
    predict_future_values np_sqrt data dc vc days = Return (res, fig)
    /\ length (predicted_values fig) = days
    /\ forall i, (i < days)%nat ->
         nth i (predicted_values fig) 0
         == a * inject_Z (days_between last_date first_date + Z.of_nat (i + 1)) + b.
Proof.
  intros Hd Hv Hlen H10 Hdays Hmin Hmax Hspan Hline.
  rewrite (predict_on_dates np_sqrt _ _ _ _ _ _ Hd Hv).
  rewrite length_map.
  assert (E10 : (length dates <? 10)%nat = false) by (apply Nat.ltb_ge; lia).
  rewrite E10. cbn [reindex].
  set (idx := argsort Z.leb (map Some dates)).
  assert (Hperm : Permutation idx (seq 0 (length dates))).
  { unfold idx. rewrite <- (length_map Some dates). apply argsort_perm. }
  assert (Hidx : forall i, In i idx -> (i < length dates)%nat).
  { intros i Hi. apply (Permutation_in _ Hperm) in Hi. apply in_seq in Hi. lia. }
  rewrite (take_Some 0%Z idx dates Hidx).
  rewrite (take_Some 0 idx ys) by (intros i Hi; rewrite <- Hlen; auto).
  set (dates' := map (fun i => nth i dates 0%Z) idx).
  set (ys' := map (fun i => nth i ys 0) idx).
  assert (Hpd : Permutation dates' dates).
  { apply Permutation_trans
      with (map (fun i => nth i dates 0%Z) (seq 0 (length dates))).
    - unfold dates'. now apply Permutation_map.
    - rewrite read_all. apply Permutation_refl. }
  assert (Hmin' : series_min (map Some dates') = Some first_date).
  { apply series_min_spec. apply series_min_spec in Hmin. destruct Hmin as [Hin Hle].
    split.
    - eapply Permutation_in; [apply Permutation_sym|]; eassumption.
    - intros x Hx. apply Hle. eapply Permutation_in; eassumption. }
  assert (Hmax' : series_max (map Some dates') = Some last_date).
  { apply series_max_spec. apply series_max_spec in Hmax. destruct Hmax as [Hin Hle].
    split.
    - eapply Permutation_in; [apply Permutation_sym|]; eassumption.
    - intros x Hx. apply Hle. eapply Permutation_in; eassumption. }
  destruct (fit_and_project_values dates' ys' days _ _ Hdays Hmin' Hmax')
    as (res & fig & Hrun & Hvals).
  exists res, fig. split; [exact Hrun|].
  rewrite Hvals. unfold predict. rewrite !length_map, length_seq.
  split; [reflexivity|]. intros i Hi.
  assert (Hfit : coef_ (ols_fit (day_offsets dates' first_date) ys') == a
                 /\ intercept_ (ols_fit (day_offsets dates' first_date) ys') == b).
  { apply (ols_fit_exact a b _ _
             (inject_Z (days_between first_date first_date))
             (inject_Z (days_between last_date first_date))).
    - unfold day_offsets, dates', ys'. now rewrite !length_map.
    - unfold on_line, day_offsets, dates', ys'.
      rewrite map_map, combine_map_both. apply Forall_map, Forall_forall.
      intros j Hj. cbn [fst snd].
      rewrite Forall_forall in Hline.
      exact (Hline _ (pick_in_combine 0%Z 0 dates ys j Hlen (Hidx j Hj))).
    - unfold day_offsets. apply in_map_iff. exists first_date.
      split; [reflexivity|]. apply series_min_spec in Hmin'. tauto.
    - unfold day_offsets. apply in_map_iff. exists last_date.
      split; [reflexivity|]. apply series_max_spec in Hmax'. tauto.
    - intros E. apply Hspan.
      assert (E0 : days_between first_date first_date = 0%Z).
      { unfold days_between. now rewrite Z.sub_diag. }
      rewrite E0 in E. rewrite inject_Z_injective in E. now symmetry. }
  destruct Hfit as [Hc Hi0].
  rewrite map_map.
  rewrite (nth_map_lt _ (seq 0 days) i 0%nat 0) by (rewrite length_seq; exact Hi).
  rewrite seq_nth by exact Hi. cbn [Nat.add]. now rewrite Hc, Hi0.
Qed.

(** X21.  Without the date column or without the value column there is no
    forecast: the projector raises [KeyError] with the missing label, the
    date column first. *)
Theorem forecast_needs_its_columns (data : DataFrame) (dc vc : string) (days : nat) :
  (lookup dc data = None ->
   predict_future_values np_sqrt data dc vc days = Raise (KeyError dc))
  /\ (forall ds, lookup dc data = Some (DateCol ds) -> lookup vc data = None ->
        predict_future_values np_sqrt data dc vc days = Raise (KeyError vc)).
Proof.
  split.
  - intros H. unfold predict_future_values, sort_values, getitem. now rewrite H.
  - intros ds Hd Hv. unfold predict_future_values, sort_values, getitem.
    rewrite Hd. cbn [bind sort_positions].
    rewrite !lookup_map_series, Hd, Hv. reflexivity.
Qed.

End Projector.

(** Fifteen days of revenue, 2 more every day from 100 on. *)
Definition fifteen_dates : list Z :=
  map (fun n => (n * ns_per_day)%Z)
      [19723; 19724; 19725; 19726; 19727; 19728; 19729; 19730; 19731; 19732;
       19733; 19734; 19735; 19736; 19737]%Z.

Definition fifteen_values : list Q :=
  map inject_Z [100; 102; 104; 106; 108; 110; 112; 114; 116; 118; 120; 122;
                124; 126; 128]%Z.

Lemma forecast_continues_a_line_witness :
  lookup "date" fifteen_days = Some (DateCol (map Some fifteen_dates))
  /\ lookup "revenue" fifteen_days = Some (NumCol (map Some fifteen_values))
  /\ length fifteen_dates = length fifteen_values
  /\ (10 <= length fifteen_dates)%nat
  /\ (0 < 7)%nat
  /\ series_min (map Some fifteen_dates) = Some (19723 * ns_per_day)%Z
  /\ series_max (map Some fifteen_dates) = Some (19737 * ns_per_day)%Z
  /\ days_between (19737 * ns_per_day) (19723 * ns_per_day) <> 0%Z
  /\ Forall (fun p => snd p
                      == 2 * inject_Z (days_between (fst p) (19723 * ns_per_day))
                         + 100)
            (combine fifteen_dates fifteen_values)
  /\ exists res fig,
       predict_future_values approx_sqrt fifteen_days "date" "revenue" 7
       = Return (res, fig)
       /\ nth 6 (predicted_values fig) 0 == 142.
Proof.
  assert (H1 : lookup "date" fifteen_days = Some (DateCol (map Some fifteen_dates)))
    by (vm_compute; reflexivity).
  assert (H2 : lookup "revenue" fifteen_days
               = Some (NumCol (map Some fifteen_values)))
    by (vm_compute; reflexivity).
  assert (H3 : length fifteen_dates = length fifteen_values) by reflexivity.
  assert (H4 : (10 <= length fifteen_dates)%nat) by (vm_compute; lia).
  assert (H0 : (0 < 7)%nat) by lia.
  assert (H5 : series_min (map Some fifteen_dates) = Some (19723 * ns_per_day)%Z)
    by (vm_compute; reflexivity).
  assert (H6 : series_max (map Some fifteen_dates) = Some (19737 * ns_per_day)%Z)
    by (vm_compute; reflexivity).
  assert (H7 : days_between (19737 * ns_per_day) (19723 * ns_per_day) <> 0%Z)
    by (vm_compute; discriminate).
  assert (H8 : Forall (fun p => snd p
                         == 2 * inject_Z (days_between (fst p) (19723 * ns_per_day))
                            + 100)
                 (combine fifteen_dates fifteen_values)).
  { repeat (apply Forall_cons; [vm_compute; reflexivity|]). apply Forall_nil. }
  repeat (split; [assumption|]).
  destruct (forecast_continues_a_line approx_sqrt fifteen_days "date" "revenue" 7
              fifteen_dates fifteen_values 2 100 _ _ H1 H2 H3 H4 H0 H5 H6 H7 H8)
    as (res & fig & Hrun & _ & Hvals).
  exists res, fig. split; [exact Hrun|].
  rewrite (Hvals 6%nat) by lia. vm_compute. reflexivity.
Defined.

End ProjectorFacts.

(** * C8: the error band of the forecast *)

Module ErrorBand.

(** ** Sums and fits do not depend on the order of the rows *)

Lemma qsum_perm_eq (l l' : list Q) : Permutation l l' -> qsum l = qsum l'.
Proof.
  intros H. pose proof (ProcessFacts.qsum_perm _ _ H) as E.
  destruct l as [|x r]; destruct l' as [|y r'].
  - reflexivity.
  - apply Permutation_nil in H. discriminate.
  - apply Permutation_sym, Permutation_nil in H. discriminate.
  - unfold qsum in *. cbn [fold_right] in *. apply Qred_complete.
    now rewrite !Qred_correct in E.
Qed.

Lemma qmean_perm_eq (l l' : list Q) : Permutation l l' -> qmean l = qmean l'.
Proof.
  intros H. unfold qmean, qlen.
  now rewrite (qsum_perm_eq _ _ H), (Permutation_length H).
Qed.

Lemma ols_fit_perm (X y X' y' : list Q) :
  length X = length y -> length X' = length y' ->
  Permutation (combine X y) (combine X' y') ->
  ols_fit X y = ols_fit X' y'.
Proof.
  intros L L' H.
  destruct (split_combine_eq X y L) as [HX Hy].
  destruct (split_combine_eq X' y' L') as [HX' Hy'].
  assert (PX : Permutation X X').
  { rewrite <- HX, <- HX'. now apply Permutation_map. }
  assert (Py : Permutation y y').
  { rewrite <- Hy, <- Hy'. now apply Permutation_map. }
  unfold ols_fit. cbv zeta.
  rewrite (qmean_perm_eq _ _ PX), (qmean_perm_eq _ _ Py).
  rewrite (qsum_perm_eq _ _ (Permutation_map (fun x => sq (x - qmean X')) PX)).
  rewrite (qsum_perm_eq _ _
             (Permutation_map (fun p => (fst p - qmean X') * (snd p - qmean y')) H)).
  reflexivity.
Qed.

Lemma residuals_perm (model : linear_model) (X y X' y' : list Q) :
  Permutation (combine X y) (combine X' y') ->
  Permutation (residuals model X y) (residuals model X' y').
Proof. intros H. unfold residuals. now apply Permutation_map. Qed.

Lemma np_std_perm (np_sqrt : Q -> Q) (a a' : list Q) :
  Permutation a a' -> np_std np_sqrt a = np_std np_sqrt a'.
Proof.
  intros H. unfold np_std. rewrite (qmean_perm_eq _ _ H).
  now rewrite (qmean_perm_eq _ _ (Permutation_map (fun x => sq (x - qmean a')) H)).
Qed.

Lemma map_Some_inj {A : Type} (l l' : list A) : map Some l = map Some l' -> l = l'.
Proof.
  revert l'. induction l as [|x l IH]; intros [|y l'] E; simpl in E;
    try discriminate; [reflexivity|].
  inversion E. f_equal. now apply IH.
Qed.

Lemma combine_map_fst {A B C : Type} (f : A -> C) (l1 : list A) (l2 : list B) :
  combine (map f l1) l2 = map (fun p => (f (fst p), snd p)) (combine l1 l2).
Proof.
  revert l2. induction l1 as [|x l1 IH]; intros [|y l2]; simpl; try reflexivity.
  now rewrite IH.
Qed.

Lemma read_both {A B : Type} (da : A) (db : B) (l1 : list A) (l2 : list B) :
  length l2 = length l1 ->
  map (fun i => (nth i l1 da, nth i l2 db)) (seq 0 (length l1)) = combine l1 l2.
Proof.
  intros Hlen.
  transitivity (map (fun i => nth i (combine l1 l2) (da, db))
                    (seq 0 (length (combine l1 l2)))).
  - rewrite length_combine, Hlen, Nat.min_id.
    apply map_ext. intros i. symmetry. apply combine_nth. now symmetry.
  - apply ProjectorFacts.read_all.
Qed.

Lemma no_gap_of_take {A : Type} (idx : list nat) (xs : list (option A))
    (l' : list A) :
  Permutation idx (seq 0 (length xs)) ->
  take idx xs = map Some l' ->
  exists l, xs = map Some l.
Proof.
  intros Hperm Ht.
  destruct (all_some_total xs) as [l El].
  - intros Hin.
    apply (Permutation_in _ (Permutation_sym (take_perm idx xs Hperm))) in Hin.
    rewrite Ht in Hin. apply in_map_iff in Hin.
    destruct Hin as [x [Hx _]]. discriminate.
  - exists l. now apply all_some_map_Some.
Qed.

(** The rows of the history in date order are the rows of the table. *)
Lemma sorted_history (idx : list nat) (ds : list (option Z)) (vs : list (option Q))
    (dates' : list Z) (ys' : list Q) :
  Permutation idx (seq 0 (length ds)) ->
  length vs = length ds ->
  take idx ds = map Some dates' ->
  take idx vs = map Some ys' ->
  exists dates ys,
    ds = map Some dates /\ vs = map Some ys
    /\ length ys = length dates
    /\ length ys' = length dates'
    /\ Permutation dates' dates
    /\ Permutation (combine dates' ys') (combine dates ys).
Proof.
  intros Hperm Hlen Hd Hv.
  destruct (no_gap_of_take idx ds dates' Hperm Hd) as [dates Ed].
  destruct (no_gap_of_take idx vs ys') as [ys Ey]; [now rewrite Hlen | exact Hv|].
  subst ds vs. rewrite !length_map in *.
  assert (Hidx : forall i, In i idx -> (i < length dates)%nat).
  { intros i Hi. apply (Permutation_in _ Hperm) in Hi. apply in_seq in Hi. lia. }
  rewrite (ProjectorFacts.take_Some 0%Z idx dates Hidx) in Hd.
  rewrite (ProjectorFacts.take_Some 0 idx ys) in Hv
    by (intros i Hi; rewrite Hlen; auto).
  apply map_Some_inj in Hd. apply map_Some_inj in Hv. subst dates' ys'.
  exists dates, ys. split; [reflexivity|]. split; [reflexivity|].
  split; [exact Hlen|]. split; [now rewrite !length_map|]. split.
  - apply Permutation_trans
      with (map (fun i => nth i dates 0%Z) (seq 0 (length dates))).
    + now apply Permutation_map.
    + rewrite ProjectorFacts.read_all. apply Permutation_refl.
  - rewrite ProjectorFacts.combine_map_both.
    rewrite <- (read_both 0%Z 0 dates ys Hlen).
    now apply Permutation_map.
Qed.

Lemma series_min_perm (dates dates' : list Z) (m : Z) :
  Permutation dates' dates ->
  series_min (map Some dates') = Some m -> series_min (map Some dates) = Some m.
Proof.
  intros Hp H. apply ProjectorFacts.series_min_spec.
  apply ProjectorFacts.series_min_spec in H. destruct H as [Hin Hle]. split.
  - eapply Permutation_in; eassumption.
  - intros x Hx. apply Hle.
    eapply Permutation_in; [apply Permutation_sym|]; eassumption.
Qed.

Lemma series_max_perm (dates dates' : list Z) (m : Z) :
  Permutation dates' dates ->
  series_max (map Some dates') = Some m -> series_max (map Some dates) = Some m.
Proof.
  intros Hp H. apply ProjectorFacts.series_max_spec.
  apply ProjectorFacts.series_max_spec in H. destruct H as [Hin Hle]. split.
  - eapply Permutation_in; eassumption.
  - intros x Hx. apply Hle.
    eapply Permutation_in; [apply Permutation_sym|]; eassumption.
Qed.

Section Band.

Variable np_sqrt : Q -> Q.

(** The least-squares line through the history: the values against the
    days since the earliest date. *)
Definition trend_line (dates : list Z) (ys : list Q) (first_date : Z) : linear_model :=
  ols_fit (day_offsets dates first_date) ys.

(** The residual standard deviation of that line over the history. *)
Definition residual_sigma (dates : list Z) (ys : list Q) (first_date : Z) : Q :=
  np_std np_sqrt
    (residuals (trend_line dates ys first_date) (day_offsets dates first_date) ys).

(** A run that returns was given a datetime column and a numeric column,
    and ran the regression on their rows in date order. *)
Lemma predict_returns_columns (data : DataFrame) (date_column value_column : string)
    (days : nat) (res : prediction_result) (fig : figure) :
  predict_future_values np_sqrt data date_column value_column days
  = Return (res, fig) ->
  exists ds vs,
    lookup date_column data = Some (DateCol ds)
    /\ lookup value_column data = Some (NumCol vs)
    /\ (10 <= length ds)%nat
    /\ fit_and_project np_sqrt (take (argsort Z.leb ds) ds)
         (take (argsort Z.leb ds) vs) days = Return (res, fig).
Proof.
  intros Hrun.
  destruct (lookup date_column data) as [d|] eqn:Hd.
  2:{ unfold predict_future_values, sort_values, getitem in Hrun.
      rewrite Hd in Hrun. discriminate. }
  destruct (lookup value_column data) as [v|] eqn:Hv.
  2:{ unfold predict_future_values, sort_values, getitem in Hrun.
      rewrite Hd in Hrun. cbn [bind] in Hrun.
      destruct (sort_positions d); [|discriminate]. cbn [bind] in Hrun.
      rewrite !lookup_map_series, Hd, Hv in Hrun. discriminate. }
  destruct d as [xs|xs|ds].
  - unfold predict_future_values, sort_values, getitem in Hrun.
    rewrite Hd in Hrun. cbn [bind sort_positions] in Hrun.
    rewrite !lookup_map_series, Hd, Hv in Hrun.
    cbn [option_map bind reindex] in Hrun.
    destruct (_ <? 10)%nat; discriminate.
  - unfold predict_future_values, sort_values, getitem in Hrun.
    rewrite Hd in Hrun. cbn [bind] in Hrun.
    destruct (sort_positions (ObjCol xs)); [|discriminate]. cbn [bind] in Hrun.
    rewrite !lookup_map_series, Hd, Hv in Hrun.
    cbn [option_map bind reindex] in Hrun.
    destruct (_ <? 10)%nat; discriminate.
  - rewrite (predict_on_dates np_sqrt _ _ _ _ _ _ Hd Hv) in Hrun.
    destruct (length ds <? 10)%nat eqn:E10; [discriminate|].
    apply Nat.ltb_ge in E10.
    destruct v as [vs|os|ts]; cbn [reindex] in Hrun; try discriminate.
    exists ds, vs. repeat split; assumption.
Qed.

(** The summary and the traces of a run that returns, in terms of the rows
    of the table as they stand. *)
Lemma band_of_table (data : DataFrame) (date_column value_column : string)
    (days : nat) (res : prediction_result) (fig : figure) :
  aligned data ->
  predict_future_values np_sqrt data date_column value_column days
  = Return (res, fig) ->
  exists dates ys first_date last_date,
    lookup date_column data = Some (DateCol (map Some dates))
    /\ lookup value_column data = Some (NumCol (map Some ys))
    /\ length ys = length dates
    /\ (10 <= length dates)%nat
    /\ (0 < days)%nat
    /\ series_min (map Some dates) = Some first_date
    /\ series_max (map Some dates) = Some last_date
    /\ confidence_interval res = residual_sigma dates ys first_date * 2
    /\ predicted_values fig
       = predict (trend_line dates ys first_date)
                 (future_offsets first_date last_date days)
    /\ upper_bound fig
       = map (fun v => v + 2 * residual_sigma dates ys first_date)
             (predicted_values fig)
    /\ lower_bound fig
       = map (fun v => v - 2 * residual_sigma dates ys first_date)
             (predicted_values fig).
Proof.
  intros Hal Hrun.
  destruct (predict_returns_columns _ _ _ _ _ _ Hrun)
    as (ds & vs & Hd & Hv & H10 & Hfit).
  assert (Hlen : length vs = length ds).
  { destruct (lookup_In _ _ _ Hd) as [c1 H1].
    destruct (lookup_In _ _ _ Hv) as [c2 H2].
    pose proof (Hal _ _ H1) as L1. pose proof (Hal _ _ H2) as L2.
    simpl in L1, L2. congruence. }
  destruct (fit_and_project_returns np_sqrt _ _ _ _ _ Hfit)
    as (dates' & ys' & f & l & Ed & Ev & Hmin & Hmax & Hdays & _ & _
        & Hci & Hpv & Hub & Hlb).
  destruct (sorted_history _ _ _ _ _ (argsort_perm Z.leb ds) Hlen Ed Ev)
    as (dates & ys & Eds & Evs & Hl & Hl' & Hpd & Hpc).
  rewrite Ed in Hmin, Hmax.
  assert (Hmodel : ols_fit (day_offsets dates' f) ys' = trend_line dates ys f).
  { unfold trend_line. apply ols_fit_perm.
    - unfold day_offsets. now rewrite length_map.
    - unfold day_offsets. now rewrite length_map.
    - unfold day_offsets. rewrite !combine_map_fst. now apply Permutation_map. }
  assert (Hsigma : np_std np_sqrt
                     (residuals (ols_fit (day_offsets dates' f) ys')
                                (day_offsets dates' f) ys')
                   = residual_sigma dates ys f).
  { unfold residual_sigma. rewrite Hmodel. apply np_std_perm, residuals_perm.
    unfold day_offsets. rewrite !combine_map_fst. now apply Permutation_map. }
  rewrite Hsigma in Hci, Hub, Hlb. rewrite Hmodel in Hpv.
  exists dates, ys, f, l. subst ds vs. rewrite length_map in H10.
  repeat split; try assumption.
  - eapply series_min_perm; eassumption.
  - eapply series_max_perm; eassumption.
Qed.

(** C8.  When the projector returns a forecast for a table whose columns
    have equal length, the date and the value column have no missing cell
    and the band is built from the residual standard deviation sigma of the
    least-squares line through the rows of the table (the values against
    the days since the earliest date; no other line has a smaller sum of
    squared residuals): [confidence_interval] is 2 sigma, the forecast is
    that line at the days after the last date, the upper and the lower
    bound are the forecast plus and minus 2 sigma, so that the band is
    4 sigma wide at every forecast day, and sigma is the same for every
    horizon. *)
Theorem error_band_fixed_width (data : DataFrame)
    (date_column value_column : string) (days : nat)
    (res : prediction_result) (fig : figure) :
  aligned data ->
  predict_future_values np_sqrt data date_column value_column days
  = Return (res, fig) ->
  exists dates ys first_date last_date,
    lookup date_column data = Some (DateCol (map Some dates))
    /\ lookup value_column data = Some (NumCol (map Some ys))
    /\ length ys = length dates
    /\ series_min (map Some dates) = Some first_date
    /\ series_max (map Some dates) = Some last_date
    /\ (forall other,
          qsum (map sq (residuals (trend_line dates ys first_date)
                                  (day_offsets dates first_date) ys))
          <= qsum (map sq (residuals other (day_offsets dates first_date) ys)))
    /\ confidence_interval res == 2 * residual_sigma dates ys first_date
    /\ predicted_values fig
       = predict (trend_line dates ys first_date)
                 (future_offsets first_date last_date days)
    /\ length (predicted_values fig) = days
    /\ upper_bound fig
       = map (fun v => v + 2 * residual_sigma dates ys first_date)
             (predicted_values fig)
    /\ lower_bound fig
       = map (fun v => v - 2 * residual_sigma dates ys first_date)
             (predicted_values fig)
    /\ (forall i, (i < days)%nat ->
          nth i (upper_bound fig) 0 - nth i (lower_bound fig) 0
          == 4 * residual_sigma dates ys first_date)
    /\ (forall days' res' fig',
          predict_future_values np_sqrt data date_column value_column days'
          = Return (res', fig') ->
          confidence_interval res' = confidence_interval res).
Proof.
  intros Hal Hrun.
  destruct (band_of_table _ _ _ _ _ _ Hal Hrun)
    as (dates & ys & f & l & Hd & Hv & Hlen & H10 & Hdays & Hmin & Hmax
        & Hci & Hpv & Hub & Hlb).
  assert (Hn : length (predicted_values fig) = days).
  { rewrite Hpv. unfold predict, future_offsets.
    now rewrite !length_map, length_seq. }
  exists dates, ys, f, l.
  split; [exact Hd|]. split; [exact Hv|]. split; [exact Hlen|].
  split; [exact Hmin|]. split; [exact Hmax|]. split.
  { intros other. unfold trend_line. apply ols_fit_least_squares.
    - unfold day_offsets. now rewrite length_map.
    - unfold day_offsets. destruct dates; [simpl in H10; lia | discriminate]. }
  split; [rewrite Hci; ring|]. split; [exact Hpv|]. split; [exact Hn|].
  split; [exact Hub|]. split; [exact Hlb|]. split.
  - intros i Hi. rewrite Hub, Hlb. rewrite <- Hn in Hi.
    rewrite (nth_map_lt (fun v => v + 2 * residual_sigma dates ys f)
               (predicted_values fig) i 0 0 Hi).
    rewrite (nth_map_lt (fun v => v - 2 * residual_sigma dates ys f)
               (predicted_values fig) i 0 0 Hi).
    ring.
  - intros days' res' fig' Hrun'.
    destruct (band_of_table _ _ _ _ _ _ Hal Hrun')
      as (dates2 & ys2 & f2 & l2 & Hd2 & Hv2 & _ & _ & _ & Hmin2 & _
          & Hci2 & _).
    rewrite Hd in Hd2. inversion Hd2 as [Ed]. apply map_Some_inj in Ed.
    rewrite Hv in Hv2. inversion Hv2 as [Ey]. apply map_Some_inj in Ey.
    subst dates2 ys2. rewrite Hmin in Hmin2. inversion Hmin2. subst f2.
    now rewrite Hci, Hci2.
Qed.

End Band.

(** Twelve days of revenue as uploaded, out of date order: 2 more every day
    from 100 on, every day 3 above or 3 below that line. *)
Definition noisy_dates : list Z :=
  map (fun n => (n * ns_per_day)%Z)
      [19728; 19723; 19734; 19726; 19731; 19724; 19733; 19729; 19725; 19732;
       19727; 19730]%Z.

Definition noisy_values : list Q :=
  map inject_Z [113; 103; 125; 109; 119; 99; 117; 115; 101; 115; 105; 111]%Z.

Definition noisy_days : DataFrame :=
  [("date"%string, DateCol (map Some noisy_dates));
   ("revenue"%string, NumCol (map Some noisy_values))].

Definition noisy_week : result (prediction_result * figure) :=
  predict_future_values approx_sqrt noisy_days "date" "revenue" 7.

Definition noisy_week_result : prediction_result :=
  match noisy_week with
  | Return (res, _) => res
  | Raise _ =>
      {| average_prediction := None; percent_change := None;
         trend_description := Stable; confidence_interval := 0 |}
  end.

Definition noisy_week_figure : figure :=
  match noisy_week with
  | Return (_, fig) => fig
  | Raise _ =>
      {| historical_dates := []; historical_values := [];
         predicted_dates := []; predicted_values := [];
         upper_bound := []; lower_bound := [] |}
  end.

(** The line is 100 + 2 t, the residuals are 3 and -3, sigma is 3: the
    forecast 124, ..., 136 comes with the bounds 130, ..., 142 and
    118, ..., 130, and [confidence_interval] is 6. *)
Example noisy_week_forecast :
  noisy_week = Return (noisy_week_result, noisy_week_figure)
  /\ Forall2 Qeq (predicted_values noisy_week_figure)
                 [124; 126; 128; 130; 132; 134; 136]
  /\ Forall2 Qeq (upper_bound noisy_week_figure)
                 [130; 132; 134; 136; 138; 140; 142]
  /\ Forall2 Qeq (lower_bound noisy_week_figure)
                 [118; 120; 122; 124; 126; 128; 130]
  /\ confidence_interval noisy_week_result == 6.
Proof.
  split; [vm_compute; reflexivity|].
  split; [vm_compute; repeat constructor|].
  split; [vm_compute; repeat constructor|].
  split; [vm_compute; repeat constructor|].
  vm_compute. reflexivity.
Qed.

Lemma error_band_fixed_width_witness :
  aligned noisy_days
  /\ noisy_week = Return (noisy_week_result, noisy_week_figure)
  /\ residual_sigma approx_sqrt noisy_dates noisy_values (19723 * ns_per_day) == 3
  /\ confidence_interval noisy_week_result == 2 * 3
  /\ forall i, (i < 7)%nat ->
       nth i (upper_bound noisy_week_figure) 0
       - nth i (lower_bound noisy_week_figure) 0 == 4 * 3.
Proof.
  assert (Ha : aligned noisy_days) by solve_aligned.
  assert (Hrun : noisy_week = Return (noisy_week_result, noisy_week_figure))
    by (vm_compute; reflexivity).
  assert (Hs : residual_sigma approx_sqrt noisy_dates noisy_values
                 (19723 * ns_per_day) == 3) by (vm_compute; reflexivity).
  assert (Hf : series_min (map Some noisy_dates) = Some (19723 * ns_per_day)%Z)
    by (vm_compute; reflexivity).
  split; [exact Ha|]. split; [exact Hrun|]. split; [exact Hs|].
  destruct (error_band_fixed_width approx_sqrt noisy_days "date" "revenue" 7
              noisy_week_result noisy_week_figure Ha Hrun)
    as (dates & ys & f & l & Hd & Hv & _ & Hmin & _ & _ & Hci & _ & _ & _ & _
        & Hw & _).
  change (Some (DateCol (map Some noisy_dates)) = Some (DateCol (map Some dates)))
    in Hd.
  change (Some (NumCol (map Some noisy_values)) = Some (NumCol (map Some ys)))
    in Hv.
  assert (Ed : map Some noisy_dates = map Some dates) by congruence.
  assert (Ey : map Some noisy_values = map Some ys) by congruence.
  apply map_Some_inj in Ed. apply map_Some_inj in Ey. subst dates ys.
  assert (Ef : (19723 * ns_per_day)%Z = f) by congruence. subst f.
  split.
  - rewrite Hci, Hs. reflexivity.
  - intros i Hi. rewrite (Hw i Hi), Hs. reflexivity.
Defined.

End ErrorBand.

(** * The contributions reported with a health score *)

Module HealthFacts.

(** Writing fresh keys one after the other lists them in that order. *)
Lemma dict_set_fresh {V : Type} (k : string) (v : V) (d : Dict.t V) :
  ~ In k (map fst d) -> Dict.set k v d = d ++ [(k, v)].
Proof.
  induction d as [|[k' v'] r IH]; intros H; [reflexivity|].
  cbn [Dict.set]. cbn [map fst In] in H.
  destruct (String.eqb k k') eqn:E.
  - apply String.eqb_eq in E. subst. tauto.
  - cbn [app]. f_equal. apply IH. tauto.
Qed.

Lemma dict_of_pairs {V : Type} (l : list (string * V)) (d : Dict.t V) :
  NoDup (map fst d ++ map fst l) ->
  fold_left (fun acc p => Dict.set (fst p) (snd p) acc) l d = d ++ l.
Proof.
  revert d. induction l as [|[k v] l IH]; intros d H; cbn [fold_left].
  - now rewrite app_nil_r.
  - cbn [fst snd]. cbn [map fst] in H.
    rewrite dict_set_fresh.
    + rewrite IH; [now rewrite <- app_assoc|].
      rewrite map_app. cbn [map fst]. now rewrite <- app_assoc.
    + intros Hin. apply NoDup_app_remove_r in H as Hd.
      apply NoDup_remove_2 in H. apply H. apply in_or_app. now left.
Qed.

Lemma map_fst_combine_firstn {A B : Type} (l : list A) (l' : list B) :
  map fst (combine l l') = firstn (length l') l.
Proof.
  revert l'. induction l as [|x l IH]; intros [|y l']; simpl;
    try reflexivity. now rewrite IH.
Qed.

Lemma map_snd_combine_short {A B : Type} (l : list A) (l' : list B) :
  (length l' <= length l)%nat -> map snd (combine l l') = l'.
Proof.
  revert l'. induction l as [|x l IH]; intros [|y l'] H; simpl in *;
    try reflexivity; [lia|]. f_equal. apply IH. lia.
Qed.

(** The contributions of [score_features]: the labels in their fixed order,
    as many as there are features. *)
Lemma score_features_contributions (features importances : list Q) :
  feature_contributions (score_features features importances)
  = combine contribution_names
      (map (fun p => fst p * snd p)
           (combine (map clip features) (normalized_weights importances))).
Proof.
  unfold score_features. cbn [feature_contributions].
  fold (normalized_weights importances).
  rewrite dict_of_pairs; [reflexivity|]. cbn [map app].
  rewrite map_fst_combine_firstn.
  apply (NoDup_app_remove_r _ (skipn (length (map (fun p => fst p * snd p)
           (combine (map clip features) (normalized_weights importances))))
           contribution_names)).
  rewrite firstn_skipn. unfold contribution_names.
  repeat (apply NoDup_cons; [simpl; intuition discriminate|]). apply NoDup_nil.
Qed.

Section Scorer.

Variable np_sqrt : Q -> Q.

(** At most four features: revenue trend, expense trend, profit margin
    trend, volatility. *)
Lemma health_features_count (data : DataFrame) (numeric_columns : list string)
    (features importances : list Q) :
  health_features np_sqrt data numeric_columns = Return (features, importances) ->
  (length features <= 4)%nat.
Proof.
  unfold health_features. intros H.
  repeat match type of H with
         | bind ?m _ = _ =>
             let E := fresh "E" in
             destruct m as [?|?] eqn:E; cbn [bind] in H; [|discriminate]
         end.
  assert (H1 : forall (o : option (list Q * Q)) (f : Q -> Q) (w : Q),
            (length (match o with Some (_, t) => [(f t, w)] | None => [] end) <= 1)%nat).
  { intros [[? ?]|] f w; simpl; lia. }
  assert (H3 : (length (match a with
                        | Some (revenues, _) =>
                            match a0 with
                            | Some (expenses, _) =>
                                [(profit_margin_trend revenues expenses, 3 # 10)]
                            | None => []
                            end
                        | None => []
                        end) <= 1)%nat).
  { destruct a as [[? ?]|]; [destruct a0 as [[? ?]|]|]; simpl; lia. }
  pose proof (H1 a (fun t => t) (4 # 10)) as Ha.
  pose proof (H1 a0 (fun t => - t) (3 # 10)) as Hb.
  match type of H with
  | match ?s with _ => _ end = _ => destruct s as [|s0 srest]
  end.
  - inversion H. rewrite length_map, !length_app. lia.
  - destruct (all_some (s0 :: srest)) as [vs|]; [|discriminate].
    inversion H. rewrite length_map, !length_app. cbn [length]. lia.
Qed.

(** X22.  The contributions reported with a score are labelled by
    position: with k features present, the labels are the first k of
    Revenue Trend, Expense Trend, Profit Margin Trend, Volatility, whichever
    features these are, so that a score without a revenue column still
    reports a Revenue Trend.  The contributions add up to the composite from
    which the score is taken. *)
Theorem contributions_labelled_by_position (data : DataFrame)
    (numeric_columns : list string) (features importances : list Q) :
  (10 <= nrows data)%nat ->
  health_features np_sqrt data numeric_columns = Return (features, importances) ->
  features <> [] ->
  exists h,
    predict_financial_health np_sqrt data numeric_columns = Return h
    /\ map fst (feature_contributions h)
       = firstn (length features) contribution_names
    /\ Dict.has "Revenue Trend" (feature_contributions h) = true
    /\ qsum (map snd (feature_contributions h)) == composite features importances.
Proof.
  intros Hrows Hf Hne.
  destruct (health_features_importances np_sqrt _ _ _ _ Hf) as (Hlen & _ & _).
  pose proof (health_features_count _ _ _ _ Hf) as Hcount.
  exists (score_features features importances). split.
  { unfold predict_financial_health.
    assert (E : (nrows data <? 10)%nat = false) by (apply Nat.ltb_ge; lia).
    rewrite E, Hf. cbn [bind]. destruct features; [congruence | reflexivity]. }
  rewrite score_features_contributions.
  set (products := map (fun p => fst p * snd p)
                     (combine (map clip features) (normalized_weights importances))).
  assert (Hp : length products = length features).
  { unfold products, normalized_weights.
    rewrite length_map, length_combine, !length_map. lia. }
  split; [now rewrite map_fst_combine_firstn, Hp|]. split.
  - destruct products as [|x rest] eqn:Ep.
    + destruct features; [congruence | discriminate Hp].
    + reflexivity.
  - rewrite map_snd_combine_short; [reflexivity|].
    rewrite Hp. exact Hcount.
Qed.

End Scorer.

(** Ten rows of costs, and no revenue column. *)
Definition costs_only : DataFrame :=
  [("cost"%string,
    NumCol (map num [50; 52; 54; 56; 58; 60; 62; 64; 66; 68]%Z))].

Definition costs_only_features : list Q * list Q :=
  match health_features approx_sqrt costs_only ["cost"%string] with
  | Return fw => fw
  | Raise _ => ([], [])
  end.

(** The one contribution is the one of the expense trend; it is reported as
    Revenue Trend. *)
Example costs_reported_as_revenue :
  match predict_financial_health approx_sqrt costs_only ["cost"%string] with
  | Return h => map fst (feature_contributions h) = ["Revenue Trend"%string]
  | Raise _ => False
  end.
Proof.
  vm_compute. reflexivity.
Qed.

Lemma contributions_labelled_by_position_witness :
  (10 <= nrows costs_only)%nat
  /\ health_features approx_sqrt costs_only ["cost"%string]
     = Return (fst costs_only_features, snd costs_only_features)
  /\ fst costs_only_features <> []
  /\ exists h,
       predict_financial_health approx_sqrt costs_only ["cost"%string] = Return h
       /\ map fst (feature_contributions h)
          = firstn (length (fst costs_only_features)) contribution_names.
Proof.
  assert (H1 : (10 <= nrows costs_only)%nat) by (vm_compute; lia).
  assert (H2 : health_features approx_sqrt costs_only ["cost"%string]
               = Return (fst costs_only_features, snd costs_only_features))
    by (vm_compute; reflexivity).
  assert (H3 : fst costs_only_features <> []) by (vm_compute; discriminate).
  repeat (split; [assumption|]).
  destruct (contributions_labelled_by_position approx_sqrt costs_only
              ["cost"%string] _ _ H1 H2 H3) as (h & Hh & Hk & _).
  exists h. split; assumption.
Defined.

End HealthFacts.


(** * The sign-in forms *)

Module FormFacts.
Import Auth Forms.

Section Buttons.

Variable hash_password : string -> string.

(** Every account has a username and an email. *)
Definition complete (rows : list user) : Prop :=
  Forall (fun u => username u <> EmptyString /\ email u <> EmptyString) rows.

(** X23.  Through the Sign Up form no account without a username or
    without an email is created, although [register_user] itself would take
    either: the form keeps the table complete, and it adds a row only when
    all fields are filled, the two passwords agree and the password has at
    least 6 characters; the row then holds the hash of the password. *)
Theorem sign_up_keeps_accounts_complete (db : database)
    (name mail pw confirm : string) :
  complete (init_db db) ->
  let after := init_db (fst (sign_up hash_password db name mail pw confirm)) in
  complete after
  /\ (after = init_db db
      \/ (after = init_db db
                  ++ [{| user_id := next_id (init_db db); username := name;
                         password := hash_password pw; email := mail |}]
          /\ name <> EmptyString /\ mail <> EmptyString
          /\ pw = confirm /\ (6 <= String.length pw)%nat)).
Proof.
  intros Hc. unfold sign_up, filled.
  destruct (String.eqb name EmptyString) eqn:En; cbn [negb orb fst];
    [now split; [|left]|].
  destruct (String.eqb mail EmptyString) eqn:Em; cbn [negb orb fst];
    [now split; [|left]|].
  destruct (String.eqb pw EmptyString) eqn:Ep; cbn [negb orb fst];
    [now split; [|left]|].
  destruct (String.eqb pw confirm) eqn:Ec; cbn [negb fst]; [|now split; [|left]].
  apply String.eqb_neq in En, Em. apply String.eqb_eq in Ec.
  destruct (AuthFacts.register_cases hash_password db name mail pw)
    as [[Hf E]|[Hf [msg E]]]; rewrite E; cbn [fst init_db].
  - split.
    + apply Forall_app. split; [exact Hc|].
      apply Forall_cons; [|apply Forall_nil]. cbn [username email]. now split.
    + right. destruct Hf as (_ & _ & Hlen). repeat split; assumption.
  - split; [exact Hc | now left].
Qed.

(** X24.  The Login button opens a session only for an account of the
    table: when the click leaves the session logged in, either it was so
    before, or both fields were filled and the table holds a row with that
    username and the hash of that password, whose id, username and email
    become the user of the session.  A click never writes to the table. *)
Theorem log_in_needs_an_account (db : database) (st : session) (name pw : string) :
  let after := log_in hash_password db st name pw in
  init_db (fst (fst after)) = init_db db
  /\ (logged_in (snd (fst after)) = true ->
      logged_in st = true
      \/ (name <> EmptyString /\ pw <> EmptyString
          /\ exists u, In u (init_db db)
                       /\ username u = name
                       /\ password u = hash_password pw
                       /\ user_info (snd (fst after)) = Some (user_data_of u))).
Proof.
  unfold log_in, filled.
  destruct (String.eqb name EmptyString) eqn:En; cbn [negb andb fst snd];
    [split; [reflexivity | now left]|].
  destruct (String.eqb pw EmptyString) eqn:Ep; cbn [negb andb fst snd];
    [split; [reflexivity | now left]|].
  apply String.eqb_neq in En, Ep.
  unfold login_user.
  destruct (find _ (init_db db)) as [u|] eqn:Ef; cbn [fst snd init_db logged_in user_info].
  - split; [reflexivity|]. intros _. right. split; [exact En|]. split; [exact Ep|].
    apply find_some in Ef. destruct Ef as [Hin Hu].
    apply andb_prop in Hu. destruct Hu as [H1 H2].
    apply String.eqb_eq in H1, H2. exists u. repeat split; assumption.
  - split; [reflexivity | now left].
Qed.

End Buttons.

Lemma sign_up_keeps_accounts_complete_witness :
  complete (init_db AuthFacts.one_user)
  /\ complete
       (init_db (fst (sign_up AuthFacts.tagged AuthFacts.one_user
                        "bob" "bob@example.org" "hunter22" "hunter22"))).
Proof.
  assert (H : complete (init_db AuthFacts.one_user)).
  { repeat constructor; discriminate. }
  split; [exact H|].
  exact (proj1 (sign_up_keeps_accounts_complete AuthFacts.tagged
                  AuthFacts.one_user "bob" "bob@example.org" "hunter22"
                  "hunter22" H)).
Defined.

(** A filled form with the right password opens the session of ada; an
    empty username would be taken by [register_user], not by the form. *)
Example forms_on_one_user :
  snd (fst (log_in AuthFacts.tagged AuthFacts.one_user
              {| logged_in := false; user_info := None |} "ada" "secret1"))
  = {| logged_in := true;
       user_info := Some {| data_id := 1; data_username := "ada";
                            data_email := "ada@example.org" |} |}
  /\ fst (snd (register_user AuthFacts.tagged AuthFacts.one_user
                 "" "nobody@example.org" "secret1")) = true
  /\ sign_up AuthFacts.tagged AuthFacts.one_user "" "nobody@example.org"
       "secret1" "secret1"
     = (AuthFacts.one_user, Warning "Please fill in all fields.").
Proof.
  vm_compute. repeat split; reflexivity.
Qed.

End FormFacts.


(** * The pie chart and the categorical part of the report *)

Module ChartFacts.
Import Charts.

Lemma qsum_app (l l' : list Q) : qsum (l ++ l') == qsum l + qsum l'.
Proof.
  induction l as [|x l IH]; cbn [app].
  - change (qsum []) with 0. ring.
  - rewrite !qsum_cons, IH. ring.
Qed.

Lemma qsum_scaled {A : Type} (f : A -> Q) (c : Q) (l : list A) :
  qsum (map (fun x => f x * c) l) == qsum (map f l) * c.
Proof.
  induction l as [|x l IH]; cbn [map].
  - change (qsum []) with 0. ring.
  - rewrite !qsum_cons, IH. ring.
Qed.

(** What a row adds to the total of the groups. *)
Definition row_value (row : option pyobj * option Q) : Q :=
  match row with
  | (Some _, Some v) => v
  | _ => 0
  end.

Lemma add_to_group_total (k : pyobj) (v : Q) (groups : list (pyobj * Q)) :
  qsum (map snd (add_to_group k v groups)) == qsum (map snd groups) + v.
Proof.
  induction groups as [|[k' t] rest IH]; cbn [add_to_group map snd].
  - rewrite qsum_cons, Qred_correct. change (qsum []) with 0. ring.
  - destruct (pyobj_eqb k k'); cbn [map snd]; rewrite !qsum_cons.
    + rewrite Qred_correct. ring.
    + rewrite IH. ring.
Qed.

Lemma add_row_total (groups : list (pyobj * Q)) (row : option pyobj * option Q) :
  qsum (map snd (add_row groups row)) == qsum (map snd groups) + row_value row.
Proof.
  destruct row as [[k|] [v|]]; cbn [add_row row_value];
    rewrite ?add_to_group_total; ring.
Qed.

(** Grouping loses nothing: the sums of the groups add up to the values of
    the rows that have a key. *)
Lemma group_sums_total (keys : list (option pyobj)) (values : list (option Q)) :
  qsum (map snd (group_sums keys values))
  == qsum (map row_value (combine keys values)).
Proof.
  unfold group_sums.
  assert (H : forall rows acc,
             qsum (map snd (fold_left add_row rows acc))
             == qsum (map snd acc) + qsum (map row_value rows)).
  { induction rows as [|row rows IH]; intros acc; cbn [fold_left map].
    - change (qsum []) with 0. ring.
    - rewrite IH, add_row_total, qsum_cons. ring. }
  rewrite H. change (qsum (map snd [])) with 0. ring.
Qed.

Lemma skipped_is_member {A : Type} (n : nat) (l : list A) (x : A) :
  In x (skipn n l) -> In x l.
Proof.
  revert l. induction n as [|n IH]; intros l H; [exact H|].
  destruct l as [|a l]; [destruct H|]. right. now apply IH.
Qed.

Lemma sorted_prefix_dominates {A : Type} (R : A -> A -> Prop) (n : nat)
    (l : list A) (x y : A) :
  StronglySorted R l -> In x (firstn n l) -> In y (skipn n l) -> R x y.
Proof.
  intros Hs. revert n. induction Hs as [|a l Hs IH Hall]; intros n Hx Hy.
  - destruct n; destruct Hx.
  - destruct n as [|n]; [destruct Hx|]. cbn [firstn skipn] in Hx, Hy.
    destruct Hx as [Hx|Hx].
    + subst. rewrite Forall_forall in Hall. apply Hall.
      apply (skipped_is_member n). exact Hy.
    + now apply (IH n).
Qed.

Section Sorted.

Variable sort_descending : list (pyobj * Q) -> list (pyobj * Q).

Hypothesis sort_permutes : forall l, Permutation (sort_descending l) l.

Hypothesis sort_descends :
  forall l, StronglySorted (fun p q => snd q <= snd p) (sort_descending l).

(** X25.  The pie chart never has more than 10 slices, and its slices add
    up to the values of all rows that have a category: with more than 10
    groups the 9 largest are kept and the rest is folded into one slice
    named Other, which holds their sum; no group folded into it is larger
    than a slice that is kept. *)
Theorem pie_chart_folds_small_groups (data : DataFrame)
    (category_column value_column : string) (keys : series)
    (vs : list (option Q)) :
  lookup category_column data = Some keys ->
  lookup value_column data = Some (NumCol vs) ->
  let groups := sort_descending (group_sums (to_object keys) vs) in
  exists slices,
    pie_slices sort_descending data category_column value_column = Return slices
    /\ (length slices <= 10)%nat
    /\ qsum (map snd slices)
       == qsum (map row_value (combine (to_object keys) vs))
    /\ ((length groups <= 10)%nat -> slices = groups)
    /\ ((10 < length groups)%nat ->
        slices = firstn 9 groups
                 ++ [(PStr "Other", qsum (map snd (skipn 9 groups)))]
        /\ forall kept folded,
             In kept (firstn 9 groups) -> In folded (skipn 9 groups) ->
             snd folded <= snd kept).
Proof.
  intros Hk Hv groups. unfold pie_slices, getitem. rewrite Hk, Hv. cbn [bind].
  fold groups.
  assert (Htotal : qsum (map snd groups)
                   == qsum (map row_value (combine (to_object keys) vs))).
  { unfold groups. rewrite <- group_sums_total.
    apply ProcessFacts.qsum_perm, Permutation_map, sort_permutes. }
  destruct (10 <? length groups)%nat eqn:E.
  - apply Nat.ltb_lt in E. eexists. split; [reflexivity|].
    split; [rewrite length_app, length_firstn; cbn [length]; lia|].
    split.
    { rewrite map_app, qsum_app. cbn [map snd]. rewrite qsum_cons.
      change (qsum []) with 0. rewrite <- Htotal.
      rewrite <- (firstn_skipn 9 groups) at 3. rewrite map_app, qsum_app. ring. }
    split; [intros H; lia|]. intros _. split; [reflexivity|].
    intros kept folded Hkept Hfolded.
    exact (sorted_prefix_dominates _ 9 groups kept folded
             (sort_descends _) Hkept Hfolded).
  - apply Nat.ltb_ge in E. exists groups. split; [reflexivity|].
    split; [exact E|]. split; [exact Htotal|].
    split; [reflexivity | intros H; lia].
Qed.

(** The counts and percentages of the lines of the report. *)
Definition shares_of (lines : list analysis_line) : list (Q * Q) :=
  flat_map (fun line =>
              match line with
              | Share _ count percentage => [(count, percentage)]
              | _ => []
              end) lines.

Lemma shares_of_lines (total : Q) (counts : list (pyobj * Q)) :
  shares_of (map (fun kc => Share (fst kc) (snd kc) (snd kc / total * 100)) counts
             ++ [Blank])
  = map (fun kc => (snd kc, snd kc / total * 100)) counts.
Proof.
  unfold shares_of. induction counts as [|kc counts IH]; [reflexivity|].
  cbn [map app flat_map]. now rewrite IH.
Qed.

Lemma count_of_cells (cells : list (option pyobj)) :
  qsum (map row_value (combine cells (map (fun _ => Some 1) cells)))
  == qlen (somes cells).
Proof.
  induction cells as [|[c|] cells IH]; cbn [map combine].
  - reflexivity.
  - rewrite qsum_cons, IH. cbn [row_value].
    rewrite ProcessFacts.somes_cons_Some, qlen_cons. ring.
  - rewrite qsum_cons, IH. cbn [row_value].
    rewrite ProcessFacts.somes_cons_None. ring.
Qed.

(** X26.  In the categorical part of the exported report the counts add up
    to the number of cells present in the first categorical column and,
    when there is such a cell, the percentages add up to 100.  Without a
    numeric column there is no distribution at all: the unused lookup of
    the first numeric column raises, and the report says that the analysis
    failed. *)
Theorem categorical_shares_add_up (data : DataFrame) (cat_column : string)
    (others numeric_columns : list string) (s : series) :
  df_empty data = false ->
  lookup cat_column data = Some s ->
  categorical_analysis sort_descending data (cat_column :: others) []
  = [Heading; Failed]
  /\ (numeric_columns <> [] ->
      let shares :=
        shares_of (categorical_analysis sort_descending data
                     (cat_column :: others) numeric_columns) in
      qsum (map fst shares) == qlen (somes (to_object s))
      /\ (somes (to_object s) <> [] -> qsum (map snd shares) == 100)).
Proof.
  intros He Hl. unfold categorical_analysis. rewrite He. split; [reflexivity|].
  intros Hnc. destruct numeric_columns as [|num_column rest]; [congruence|].
  rewrite Hl. cbv zeta.
  change (shares_of (Heading :: Distribution cat_column :: ?l))
    with (shares_of l).
  rewrite shares_of_lines, !map_map. cbn [fst snd].
  assert (Htotal : qsum (map snd (value_counts sort_descending s))
                   == qlen (somes (to_object s))).
  { unfold value_counts.
    rewrite (ProcessFacts.qsum_perm _ _ (Permutation_map snd (sort_permutes _))).
    now rewrite group_sums_total, count_of_cells. }
  split; [exact Htotal|]. intros Hsome.
  rewrite (qsum_ext_eq _ (fun kc => snd kc
             * (/ qsum (map snd (value_counts sort_descending s)) * 100)))
    by (intros kc _; unfold Qdiv; ring).
  rewrite qsum_scaled, Htotal. field. now apply qlen_pos.
Qed.

End Sorted.

(** ** The insertion sort as an instance *)

Lemma insert_descending_perm (x : pyobj * Q) (l : list (pyobj * Q)) :
  Permutation (insert_descending x l) (x :: l).
Proof.
  induction l as [|y r IH]; cbn [insert_descending]; [apply Permutation_refl|].
  destruct (Qle_bool (snd y) (snd x)); [apply Permutation_refl|].
  eapply Permutation_trans; [apply perm_skip, IH | apply perm_swap].
Qed.

Lemma insertion_sort_permutes (l : list (pyobj * Q)) :
  Permutation (insertion_sort_descending l) l.
Proof.
  induction l as [|x l IH]; cbn; [constructor|].
  eapply Permutation_trans; [apply insert_descending_perm | now apply perm_skip].
Qed.

Lemma insert_descending_sorted (x : pyobj * Q) (l : list (pyobj * Q)) :
  StronglySorted (fun p q => snd q <= snd p) l ->
  StronglySorted (fun p q => snd q <= snd p) (insert_descending x l).
Proof.
  induction 1 as [|y r Hs IH Hall]; cbn [insert_descending].
  - constructor; constructor.
  - destruct (Qle_bool (snd y) (snd x)) eqn:E.
    + apply Qle_bool_iff in E. constructor; [now constructor|].
      constructor; [exact E|].
      eapply Forall_impl; [|exact Hall]. intros z Hz. cbv beta in *.
      eapply Qle_trans; eassumption.
    + constructor; [exact IH|].
      assert (Hxy : snd x <= snd y).
      { destruct (Qlt_le_dec (snd x) (snd y)) as [H|H]; [now apply Qlt_le_weak|].
        apply Qle_bool_iff in H. congruence. }
      apply (Permutation_Forall (Permutation_sym (insert_descending_perm x r))).
      now constructor.
Qed.

Lemma insertion_sort_descends (l : list (pyobj * Q)) :
  StronglySorted (fun p q => snd q <= snd p) (insertion_sort_descending l).
Proof.
  induction l as [|x l IH]; cbn; [constructor|].
  now apply insert_descending_sorted.
Qed.

(** Twelve kinds of expenses, travel twice. *)
Definition expenses_by_kind : DataFrame :=
  [("kind"%string,
    ObjCol [str "rent"; str "food"; str "travel"; str "power"; str "water";
            str "phone"; str "books"; str "tools"; str "taxes"; str "gifts";
            str "sport"; str "travel"; str "music"]);
   ("amount"%string,
    NumCol (map num [900; 400; 120; 90; 40; 35; 30; 25; 300; 20; 15; 80; 10]%Z))].

(** The nine largest kinds, travel with 200, and the three smallest folded
    into Other with 45. *)
Example expenses_pie :
  match pie_slices insertion_sort_descending expenses_by_kind "kind" "amount" with
  | Return slices =>
      map fst slices
      = [PStr "rent"; PStr "food"; PStr "taxes"; PStr "travel"; PStr "power";
         PStr "water"; PStr "phone"; PStr "books"; PStr "tools"; PStr "Other"]
      /\ nth 3 (map snd slices) 0 == 200
      /\ nth 9 (map snd slices) 0 == 45
  | Raise _ => False
  end.
Proof.
  vm_compute. repeat split; reflexivity.
Qed.

Lemma pie_chart_folds_small_groups_witness :
  (forall l, Permutation (insertion_sort_descending l) l)
  /\ (forall l, StronglySorted (fun p q => snd q <= snd p)
                  (insertion_sort_descending l))
  /\ lookup "kind" expenses_by_kind
     = Some (ObjCol [str "rent"; str "food"; str "travel"; str "power";
                     str "water"; str "phone"; str "books"; str "tools";
                     str "taxes"; str "gifts"; str "sport"; str "travel";
                     str "music"])
  /\ lookup "amount" expenses_by_kind
     = Some (NumCol (map num [900; 400; 120; 90; 40; 35; 30; 25; 300; 20; 15;
                              80; 10]%Z))
  /\ exists slices,
       pie_slices insertion_sort_descending expenses_by_kind "kind" "amount"
       = Return slices
       /\ (length slices <= 10)%nat.
Proof.
  assert (H3 : lookup "kind" expenses_by_kind
               = Some (ObjCol [str "rent"; str "food"; str "travel"; str "power";
                               str "water"; str "phone"; str "books"; str "tools";
                               str "taxes"; str "gifts"; str "sport"; str "travel";
                               str "music"])) by reflexivity.
  assert (H4 : lookup "amount" expenses_by_kind
               = Some (NumCol (map num [900; 400; 120; 90; 40; 35; 30; 25; 300;
                                        20; 15; 80; 10]%Z))) by reflexivity.
  split; [exact insertion_sort_permutes|].
  split; [exact insertion_sort_descends|].
  split; [exact H3|]. split; [exact H4|].
  destruct (pie_chart_folds_small_groups insertion_sort_descending
              insertion_sort_permutes insertion_sort_descends
              expenses_by_kind "kind" "amount" _ _ H3 H4)
    as (slices & Hrun & Hlen & _).
  exists slices. split; assumption.
Defined.

(** Of the four rows of the ledger two are rent: 50 percent. *)
Example ledger_distribution :
  match categorical_analysis insertion_sort_descending processed_ledger
          ["category"%string] ["amount"%string] with
  | [Heading; Distribution c; Share k1 c1 p1; Share k2 c2 p2; Share k3 c3 p3;
     Blank] =>
      c = "category"%string /\ k1 = PStr "rent" /\ c1 == 2 /\ p1 == 50
      /\ p2 == 25 /\ p3 == 25
  | _ => False
  end.
Proof.
  vm_compute. repeat split; reflexivity.
Qed.

Lemma categorical_shares_add_up_witness :
  (forall l, Permutation (insertion_sort_descending l) l)
  /\ df_empty processed_ledger = false
  /\ lookup "category" processed_ledger
     = Some (ObjCol [str "Unknown"; str "rent"; str "rent"; str "food"])
  /\ qsum (map snd (shares_of
                      (categorical_analysis insertion_sort_descending
                         processed_ledger ["category"%string]
                         ["amount"%string])))
     == 100.
Proof.
  assert (H2 : df_empty processed_ledger = false) by reflexivity.
  assert (H3 : lookup "category" processed_ledger
               = Some (ObjCol [str "Unknown"; str "rent"; str "rent"; str "food"]))
    by reflexivity.
  split; [exact insertion_sort_permutes|]. split; [exact H2|]. split; [exact H3|].
  assert (Hnc : ["amount"%string] <> []) by discriminate.
  destruct (proj2 (categorical_shares_add_up insertion_sort_descending
                     insertion_sort_permutes processed_ledger "category" []
                     ["amount"%string] _ H2 H3) Hnc) as [_ H].
  apply H. discriminate.
Defined.

End ChartFacts.

(** * The dashboard on a cleaned table ([app.py]) *)

Module Dashboard.

Lemma sort_values_rows (by_ : string) (df sorted : DataFrame) :
  sort_values by_ df = Return sorted ->
  exists idx, sorted = map (fun cs => (fst cs, reindex idx (snd cs))) df.
Proof.
  unfold sort_values. destruct (getitem by_ df) as [s|]; [|discriminate].
  cbn [bind]. destruct (sort_positions s) as [idx|]; [|discriminate].
  cbn [bind]. intros E. inversion E. now exists idx.
Qed.

Section Calls.

Variable to_datetime : series -> option (list (option Z)).
Variable np_sqrt : Q -> Q.

(** The numeric columns of the classification are numeric columns of the
    table returned. *)
Lemma numeric_columns_cleaned (data out : DataFrame) (dc : option string)
    (nc cc : list string) (c : string) :
  NoDup (columns data) ->
  process_data to_datetime (Some data) = (Some out, dc, nc, cc) ->
  In c nc ->
  exists xs, lookup c out = Some (NumCol xs).
Proof.
  intros Hnd E Hin. destruct (df_empty data) eqn:He.
  { unfold process_data in E. rewrite He in E. inversion E. subst. destruct Hin. }
  destruct (ProcessFacts.process_data_steps to_datetime _ _ _ _ _ He E)
    as (Hdc & Hnc & Hcc & _).
  set (df1 := fst (find_date_column to_datetime data)) in *.
  assert (Hnd1 : NoDup (columns df1)).
  { unfold df1. now rewrite find_date_column_columns. }
  pose proof (imputer_policy_frame df1 dc Hnd1) as Hpol. cbv zeta in Hpol.
  rewrite <- Hnc in Hpol. rewrite <- Hcc in Hpol.
  destruct Hpol as (Hnum & _ & _).
  destruct (Hnum c Hin) as (xs & _ & Hl2).
  destruct (ProcessFacts.process_data_sorted to_datetime _ _ _ _ _ He E)
    as [Hout|(d & _ & _ & Hs)].
  - subst out. fold df1. eauto.
  - fold df1 in Hs. destruct (sort_values_rows _ _ _ Hs) as [idx Hsorted].
    subst out. rewrite lookup_map_series, Hl2. cbn [option_map reindex]. eauto.
Qed.

(** X27.  On the table that [process_data] returns (the column labels of
    the upload being pairwise different) the calls of the dashboard with
    the numeric columns of the classification do not raise: the metrics
    engine returns a dictionary, and, with a date column, the trend analysis
    returns a result for every numeric column. *)
Theorem cleaned_table_is_analysable (data out : DataFrame) (dc : option string)
    (nc cc : list string) :
  NoDup (columns data) ->
  process_data to_datetime (Some data) = (Some out, dc, nc, cc) ->
  (exists m, calculate_financial_metrics np_sqrt (Some out) nc = Return m)
  /\ (forall d c, dc = Some d -> d <> EmptyString -> In c nc ->
        exists r, Trends.analyze_trends np_sqrt out d c = Return r).
Proof.
  intros Hnd E. split.
  - apply MetricFacts.metrics_return. intros c Hc.
    exact (numeric_columns_cleaned _ _ _ _ _ c Hnd E Hc).
  - intros d c Hdc Hd Hc. subst dc.
    destruct (numeric_columns_cleaned _ _ _ _ _ c Hnd E Hc) as [xs Hl].
    pose proof (ProcessFacts.process_data_sort_fixed to_datetime _ _ _ _ _ E Hd)
      as Hs.
    rewrite (TrendFacts.analyze_trends_numeric np_sqrt _ _ _ _ _ Hs Hl).
    cbv zeta. destruct (length (somes xs) <? 2)%nat; eauto.
Qed.

(** [pd.to_datetime] converts cell by cell. *)
Hypothesis to_datetime_length :
  forall s ts, to_datetime s = Some ts -> length ts = series_len s.

(** On a table whose columns have equal length, the numeric columns come
    out without a missing cell. *)
Lemma numeric_columns_filled (data out : DataFrame) (dc : option string)
    (nc cc : list string) (c : string) :
  aligned data ->
  NoDup (columns data) ->
  process_data to_datetime (Some data) = (Some out, dc, nc, cc) ->
  In c nc ->
  exists ys, lookup c out = Some (NumCol (map Some ys))
             /\ length ys = nrows out.
Proof.
  intros Hal Hnd E Hin.
  destruct (numeric_columns_cleaned _ _ _ _ _ c Hnd E Hin) as [xs Hl].
  assert (He : df_empty data = false).
  { destruct (df_empty data) eqn:He; [|reflexivity].
    unfold process_data in E. rewrite He in E. inversion E. subst. destruct Hin. }
  destruct (ProcessFacts.process_data_steps to_datetime _ _ _ _ _ He E)
    as (Hdc & Hnc & Hcc & _).
  set (df1 := fst (find_date_column to_datetime data)) in *.
  assert (Hnd1 : NoDup (columns df1)).
  { unfold df1. now rewrite find_date_column_columns. }
  pose proof (imputer_policy_frame df1 dc Hnd1) as Hpol. cbv zeta in Hpol.
  rewrite <- Hnc in Hpol. rewrite <- Hcc in Hpol.
  destruct Hpol as (_ & _ & Hfull).
  destruct (Hfull c (in_or_app _ _ _ (or_introl Hin))) as (s2 & Hl2 & Hany).
  destruct (ProcessFacts.cleaning_rows to_datetime to_datetime_length
              _ _ _ _ _ Hal E) as [Hal' Hrows].
  assert (Hnone : any (isnull (NumCol xs)) = false).
  { destruct (ProcessFacts.process_data_sorted to_datetime _ _ _ _ _ He E)
      as [Hout|(d & _ & _ & Hs)].
    - subst out. fold df1 in Hl. rewrite Hl in Hl2. inversion Hl2. subst s2.
      exact Hany.
    - fold df1 in Hs.
      pose proof (ProcessFacts.rows_are_impute _ nc cc _
                    (ProcessFacts.rows_are_find_date_column to_datetime
                       to_datetime_length _ Hal)) as H2.
      fold df1 in H2.
      assert (Hne : impute nc cc df1 <> []).
      { intros En. rewrite En in Hl2. discriminate. }
      pose proof (ProcessFacts.rows_are_nrows _ _ Hne H2) as Hn.
      rewrite <- Hn in H2.
      destruct (ProcessFacts.sort_values_reindex _ _ _ H2 Hs)
        as (idx & Hp & Hsorted).
      subst out. rewrite lookup_map_series, Hl2 in Hl. cbn [option_map] in Hl.
      inversion Hl as [Hx]. rewrite <- Hany.
      apply isnull_reindex_perm.
      destruct (lookup_In _ _ _ Hl2) as [c0 Hc0]. now rewrite (H2 c0 _ Hc0). }
  destruct (all_some_total xs) as [ys Hys].
  { intros Hn. cbn [isnull] in Hnone. unfold any in Hnone.
    assert (Ht : existsb (fun b => b) (map is_none xs) = true).
    { apply existsb_exists. exists true. split; [|reflexivity].
      apply in_map_iff. exists None. now split. }
    congruence. }
  apply all_some_map_Some in Hys. subst xs. exists ys. split; [exact Hl|].
  destruct (lookup_In _ _ _ Hl) as [c0 Hc0].
  rewrite <- (Hal' c0 _ Hc0). cbn [series_len]. now rewrite length_map.
Qed.

Lemma named_column_listed (keywords : list string) (cols rest : list string)
    (c : string) :
  columns_named keywords cols = c :: rest -> In c cols.
Proof.
  intros E. assert (Hc : In c (columns_named keywords cols)) by (rewrite E; now left).
  unfold columns_named in Hc. now apply filter_In in Hc.
Qed.

Lemma normalized_trend_returns (ys : list Q) :
  exists r, normalized_trend (map Some ys) = Return r.
Proof.
  unfold normalized_trend, fit. rewrite !all_some_of_Some. cbn [bind]. eauto.
Qed.

Lemma volatility_scores_return (df : DataFrame) (cols : list string) :
  (forall c, In c cols -> exists ys, lookup c df = Some (NumCol (map Some ys))) ->
  exists scores,
    volatility_scores np_sqrt cols df = Return (map Some scores).
Proof.
  induction cols as [|c cols IH]; intros H; [now exists []|].
  destruct (H c (or_introl eq_refl)) as [ys Hl].
  destruct IH as [scores Hs]; [intros c' Hc'; apply H; now right|].
  cbn [volatility_scores]. unfold float_values, getitem. rewrite Hl. cbn [bind].
  rewrite Hs. cbn [bind]. rewrite all_some_of_Some.
  destruct (0 <? length (map Some ys))%nat; [|now exists scores].
  destruct (nonzero (qmean ys)); [|now exists scores].
  now exists (np_std np_sqrt ys / qmean ys :: scores).
Qed.

(** The features of the health score on numeric columns without a missing
    cell. *)
Lemma health_features_return (df : DataFrame) (numeric_columns : list string) :
  (forall c, In c numeric_columns ->
     exists ys, lookup c df = Some (NumCol (map Some ys))) ->
  exists fw, health_features np_sqrt df numeric_columns = Return fw.
Proof.
  intros H. unfold health_features.
  assert (Htrend : forall keywords,
            exists r,
              match columns_named keywords numeric_columns with
              | [] => Return None
              | col :: _ =>
                  values <- float_values col df ;;
                  r <- normalized_trend values ;;
                  Return (Some r)
              end = Return r).
  { intros keywords.
    destruct (columns_named keywords numeric_columns) as [|c rest] eqn:E;
      [eauto|].
    destruct (H c (named_column_listed _ _ _ _ E)) as [ys Hl].
    unfold float_values, getitem. rewrite Hl. cbn [bind].
    destruct (normalized_trend_returns ys) as [r Hr]. rewrite Hr. cbn [bind].
    eauto. }
  destruct (Htrend revenue_keywords) as [rev Hrev]. rewrite Hrev. cbn [bind].
  destruct (Htrend expense_keywords) as [exp_ Hexp]. rewrite Hexp. cbn [bind].
  match goal with
  | |- context [volatility_scores np_sqrt ?cols df] =>
      destruct (volatility_scores_return df cols) as [scores Hs]
  end.
  { intros c Hc. apply filter_In in Hc. apply H. tauto. }
  rewrite Hs. cbn [bind].
  destruct scores as [|s0 scores]; cbn [map]; [eauto|].
  change (Some s0 :: map Some scores) with (map Some (s0 :: scores)).
  rewrite all_some_of_Some. eauto.
Qed.

(** X28.  On the table that [process_data] returns, the columns of the
    upload having equal length and pairwise different labels, the health
    scorer does not raise: the numeric columns have no missing cell left,
    so neither a regression nor the conversion of the score to an integer
    meets a NaN. *)
Theorem cleaned_table_gets_health_report (data out : DataFrame)
    (dc : option string) (nc cc : list string) :
  aligned data ->
  NoDup (columns data) ->
  process_data to_datetime (Some data) = (Some out, dc, nc, cc) ->
  exists h, predict_financial_health np_sqrt out nc = Return h.
Proof.
  intros Hal Hnd E. unfold predict_financial_health.
  destruct (nrows out <? 10)%nat; [eauto|].
  destruct (health_features_return out nc) as [[features importances] Hf].
  { intros c Hc.
    destruct (numeric_columns_filled _ _ _ _ _ c Hal Hnd E Hc) as (ys & Hl & _).
    eauto. }
  rewrite Hf. cbn [bind]. destruct features; eauto.
Qed.

(** X29.  On the table that [process_data] returns with a date column, a
    history of at least 10 rows without a missing date gets a forecast for
    every numeric column and every horizon of at least one day:
    [predict_future_values] returns, with one value for each day asked.
    (With fewer rows, a missing date or an empty horizon it raises.) *)
Theorem cleaned_table_gets_forecast (data out : DataFrame) (d : string)
    (nc cc : list string) (c : string) (dates : list Z) (days : nat) :
  aligned data ->
  NoDup (columns data) ->
  process_data to_datetime (Some data) = (Some out, Some d, nc, cc) ->
  d <> EmptyString ->
  lookup d out = Some (DateCol (map Some dates)) ->
  (10 <= nrows out)%nat ->
  (0 < days)%nat ->
  In c nc ->
  exists res fig,
    predict_future_values np_sqrt out d c days = Return (res, fig)
    /\ length (predicted_values fig) = days
    /\ length (upper_bound fig) = days
    /\ length (lower_bound fig) = days.
Proof.
  intros Hal Hnd E Hd Hdates Hrows Hdays Hc.
  destruct (numeric_columns_filled _ _ _ _ _ c Hal Hnd E Hc) as (ys & Hl & Hlen).
  pose proof (ProcessFacts.process_data_sort_fixed to_datetime _ _ _ _ _ E Hd)
    as Hs.
  unfold predict_future_values, getitem. rewrite Hs. cbn [bind].
  rewrite Hdates, Hl. cbn [bind series_len]. rewrite length_map, Hlen.
  assert (E10 : (nrows out <? 10)%nat = false) by (apply Nat.ltb_ge; lia).
  rewrite E10.
  destruct (ProcessFacts.cleaning_rows to_datetime to_datetime_length
              _ _ _ _ _ Hal E) as [Hal' _].
  assert (Hn : length dates = nrows out).
  { destruct (lookup_In _ _ _ Hdates) as [c0 Hc0].
    rewrite <- (Hal' c0 _ Hc0). cbn [series_len]. now rewrite length_map. }
  destruct dates as [|d0 dates]; [cbn in Hn; lia|].
  assert (Hmin : exists f, series_min (map Some (d0 :: dates)) = Some f).
  { unfold series_min. rewrite TrendFacts.somes_map_Some. eauto. }
  assert (Hmax : exists l, series_max (map Some (d0 :: dates)) = Some l).
  { unfold series_max. rewrite TrendFacts.somes_map_Some. eauto. }
  destruct Hmin as [f Hmin]. destruct Hmax as [l Hmax].
  destruct (ProjectorFacts.fit_and_project_values np_sqrt (d0 :: dates) ys days
              f l Hdays Hmin Hmax) as (res & fig & Hrun & Hvals).
  exists res, fig. split; [exact Hrun|].
  destruct (fit_and_project_returns np_sqrt _ _ _ _ _ Hrun)
    as (dates' & ys' & f' & l' & _ & _ & _ & _ & _ & _ & _ & _ & _ & Hu & Hl0).
  rewrite Hu, Hl0, !length_map, Hvals. unfold predict.
  rewrite !length_map, length_seq. now repeat split.
Qed.

End Calls.

Lemma cleaned_table_is_analysable_witness :
  NoDup (columns ledger)
  /\ process_data iso_to_datetime (Some ledger)
     = (Some ledger_out, Some "date"%string,
        ["amount"; "bonus"]%string, ["category"%string])
  /\ exists m,
       calculate_financial_metrics approx_sqrt (Some ledger_out)
         ["amount"; "bonus"]%string = Return m.
Proof.
  assert (H : NoDup (columns ledger)) by solve_nodup.
  split; [exact H|]. split; [exact ProcessFacts.ledger_run|].
  exact (proj1 (cleaned_table_is_analysable iso_to_datetime approx_sqrt
                  ledger ledger_out _ _ _ H ProcessFacts.ledger_run)).
Defined.

(** Twelve days as uploaded: the dates as text and out of order, one
    revenue missing. *)
Definition fortnight : DataFrame :=
  [("date"%string,
    ObjCol [str "2024-01-02"; str "2024-01-01"; str "2024-01-03";
            str "2024-01-04"; str "2024-01-05"; str "2024-01-06";
            str "2024-01-07"; str "2024-01-08"; str "2024-01-09";
            str "2024-01-10"; str "2024-01-12"; str "2024-01-11"]);
   ("revenue"%string,
    NumCol [num 210; num 200; num 220; None; num 240; num 250; num 260;
            num 270; num 280; num 290; num 310; num 300]);
   ("cost"%string,
    NumCol (map num [150; 150; 155; 160; 160; 165; 170; 170; 175; 180; 185;
                     180]%Z))].

Definition fortnight_out : DataFrame :=
  match process_data iso_to_datetime (Some fortnight) with
  | (Some out, _, _, _) => out
  | _ => []
  end.

Definition fortnight_dates : list Z :=
  map (fun n => (n * ns_per_day)%Z)
      [19723; 19724; 19725; 19726; 19727; 19728; 19729; 19730; 19731; 19732;
       19733; 19734]%Z.

Lemma fortnight_run :
  process_data iso_to_datetime (Some fortnight)
  = (Some fortnight_out, Some "date"%string, ["revenue"; "cost"]%string, []).
Proof. vm_compute. reflexivity. Qed.

Lemma fortnight_aligned : aligned fortnight.
Proof. solve_aligned. Qed.

Lemma fortnight_labels : NoDup (columns fortnight).
Proof. solve_nodup. Qed.

Lemma cleaned_table_gets_health_report_witness :
  (forall s ts, iso_to_datetime s = Some ts -> length ts = series_len s)
  /\ aligned fortnight
  /\ NoDup (columns fortnight)
  /\ process_data iso_to_datetime (Some fortnight)
     = (Some fortnight_out, Some "date"%string, ["revenue"; "cost"]%string, [])
  /\ exists h,
       predict_financial_health approx_sqrt fortnight_out
         ["revenue"; "cost"]%string = Return h.
Proof.
  split; [exact ProcessFacts.iso_to_datetime_length|].
  split; [exact fortnight_aligned|]. split; [exact fortnight_labels|].
  split; [exact fortnight_run|].
  exact (cleaned_table_gets_health_report iso_to_datetime approx_sqrt
           ProcessFacts.iso_to_datetime_length fortnight fortnight_out _ _ _
           fortnight_aligned fortnight_labels fortnight_run).
Defined.

Lemma cleaned_table_gets_forecast_witness :
  (forall s ts, iso_to_datetime s = Some ts -> length ts = series_len s)
  /\ aligned fortnight
  /\ NoDup (columns fortnight)
  /\ process_data iso_to_datetime (Some fortnight)
     = (Some fortnight_out, Some "date"%string, ["revenue"; "cost"]%string, [])
  /\ "date"%string <> EmptyString
  /\ lookup "date" fortnight_out = Some (DateCol (map Some fortnight_dates))
  /\ (10 <= nrows fortnight_out)%nat
  /\ (0 < 14)%nat
  /\ In "revenue"%string ["revenue"; "cost"]%string
  /\ exists res fig,
       predict_future_values approx_sqrt fortnight_out "date" "revenue" 14
       = Return (res, fig)
       /\ length (predicted_values fig) = 14%nat.
Proof.
  assert (H4 : "date"%string <> EmptyString) by discriminate.
  assert (H5 : lookup "date" fortnight_out
               = Some (DateCol (map Some fortnight_dates)))
    by (vm_compute; reflexivity).
  assert (H6 : (10 <= nrows fortnight_out)%nat) by (vm_compute; lia).
  assert (H7 : In "revenue"%string ["revenue"; "cost"]%string) by (simpl; auto).
  assert (H8 : (0 < 14)%nat) by lia.
  split; [exact ProcessFacts.iso_to_datetime_length|].
  split; [exact fortnight_aligned|]. split; [exact fortnight_labels|].
  split; [exact fortnight_run|].
  split; [exact H4|]. split; [exact H5|]. split; [exact H6|]. split; [exact H8|].
  split; [exact H7|].
  destruct (cleaned_table_gets_forecast iso_to_datetime approx_sqrt
              ProcessFacts.iso_to_datetime_length fortnight fortnight_out "date"
              _ _ "revenue" fortnight_dates 14 fortnight_aligned fortnight_labels
              fortnight_run H4 H5 H6 H8 H7) as (res & fig & Hrun & Hlen & _).
  exists res, fig. split; assumption.
Defined.

(** The health score and the forecast of the fortnight. *)
Example fortnight_dashboard :
  match predict_financial_health approx_sqrt fortnight_out
          ["revenue"; "cost"]%string with
  | Return h => exists score, health_score h = Some score /\ (0 <= score <= 100)%Z
  | Raise _ => False
  end
  /\ match predict_future_values approx_sqrt fortnight_out "date" "cost" 7 with
     | Return (res, fig) => length (predicted_values fig) = 7%nat
     | Raise _ => False
     end.
Proof.
  vm_compute. split; [eexists; split; [reflexivity|]; split; discriminate|].
  reflexivity.
Qed.

End Dashboard.
